(** * Table assignment and availability engine (docs/sql/03_reservation_functions.sql)

    A shallow embedding of the PL/pgSQL procedures
      - [assign_tables_to_reservation]
      - [create_reservation_with_assignment]
      - [get_available_time_slots_with_zones]
      - [get_available_tables_for_reservation]
    Relations are lists of rows (the order of a list is the order in which the
    engine scans the relation), [ORDER BY] is a stable sort, a nullable column
    is an [option], and a PL/pgSQL body runs in a small monad that threads the
    database, counts the statements executed and can raise. *)

From Stdlib Require Import ZArith List Bool String Ascii Lia.
From Stdlib Require Import Sorted Permutation RelationClasses.
Import ListNotations.
Open Scope Z_scope.

(** ** Column types *)

Definition uuid := Z.             (* the 128 bits of the identifier *)
Definition date := Z.          (* days since 1970-01-01 *)
Definition time := Z.          (* seconds since midnight *)
Definition timestamptz := Z.   (* seconds since the epoch *)

Definition uuid_eqb (a b : uuid) : bool := Z.eqb a b.

(** [x = y] where [x] is a nullable column: NULL never equals anything. *)
Definition null_eqb (x : option uuid) (y : uuid) : bool :=
  match x with Some a => uuid_eqb a y | None => false end.

(** ** Rows *)

Record zone := mk_zone
  { z_id : uuid; z_name : string; z_priority_order : Z;
    z_is_active : bool; z_color : option string }.

Record table := mk_table
  { t_id : uuid; t_name : string; t_capacity : Z; t_extra_capacity : option Z;
    t_zone_id : option uuid; t_is_active : bool }.

Record table_combination := mk_comb
  { tc_id : uuid; tc_table_ids : list uuid; tc_total_capacity : Z;
    tc_zone_id : option uuid; tc_is_active : bool }.

Record reservation := mk_reservation
  { r_id : uuid; r_customer_id : uuid; r_date : date; r_time : time;
    r_guests : Z; r_status : string; r_special_requests : option string;
    r_start_at : timestamptz; r_end_at : timestamptz; r_duration_minutes : Z }.

Record assignment := mk_assignment
  { rta_reservation_id : uuid; rta_table_id : uuid }.

Record time_slot := mk_time_slot { ts_time : time }.

Record restaurant_schedule := mk_schedule
  { rs_day_of_week : Z; rs_is_active : bool;
    rs_opening_time : time; rs_closing_time : time }.

Record special_closed_day := mk_closed
  { scd_is_range : bool; scd_date : option date;
    scd_range_start : option date; scd_range_end : option date }.

Record special_schedule_day := mk_special
  { ssd_date : date; ssd_is_active : bool;
    ssd_opening_time : time; ssd_closing_time : time }.

Record DB := mk_db
  { zones : list zone;
    tables : list table;
    table_combinations : list table_combination;
    reservations : list reservation;
    reservation_table_assignments : list assignment;
    time_slots : list time_slot;
    restaurant_schedules : list restaurant_schedule;
    special_closed_days : list special_closed_day;
    special_schedule_days : list special_schedule_day }.

Definition set_reservations (rs : list reservation) (d : DB) : DB :=
  mk_db (zones d) (tables d) (table_combinations d) rs
        (reservation_table_assignments d) (time_slots d)
        (restaurant_schedules d) (special_closed_days d) (special_schedule_days d).

Definition set_assignments (asg : list assignment) (d : DB) : DB :=
  mk_db (zones d) (tables d) (table_combinations d) (reservations d)
        asg (time_slots d)
        (restaurant_schedules d) (special_closed_days d) (special_schedule_days d).

Definition set_special_days (cl : list special_closed_day)
           (sp : list special_schedule_day) (d : DB) : DB :=
  mk_db (zones d) (tables d) (table_combinations d) (reservations d)
        (reservation_table_assignments d) (time_slots d)
        (restaurant_schedules d) cl sp.

(** ** ORDER BY, LIMIT 1, DISTINCT *)

Section Sorting.
Context {A : Type} (leb : A -> A -> bool).

Fixpoint insert_by (x : A) (l : list A) : list A :=
  match l with
  | [] => [x]
  | y :: r => if leb x y then x :: l else y :: insert_by x r
  end.

(** Stable: rows with equal keys keep their scan order. *)
Definition order_by (l : list A) : list A := fold_right insert_by [] l.
End Sorting.

Definition limit_1 {A : Type} (l : list A) : option A := hd_error l.

Section Distinct.
Context {A K : Type} (key : A -> K) (keqb : K -> K -> bool).

(** [DISTINCT ON (key)] over an ordered input: the first row of each set of
    rows that agree on [key] is kept. *)
Fixpoint distinct_on_from (seen : list K) (l : list A) : list A :=
  match l with
  | [] => []
  | x :: r =>
      if existsb (keqb (key x)) seen then distinct_on_from seen r
      else x :: distinct_on_from (key x :: seen) r
  end.

Definition distinct_on (l : list A) : list A := distinct_on_from [] l.
End Distinct.

(** Three-way comparisons, combined lexicographically as in
    [ORDER BY k1, k2, ...]. *)
Definition then_by (c1 c2 : comparison) : comparison :=
  match c1 with Eq => c2 | _ => c1 end.

Definition not_after (c : comparison) : bool :=
  match c with Gt => false | _ => true end.

(** [text] columns are compared code point by code point. *)
Definition text_compare (a b : string) : comparison := String.compare a b.

(** [ASC NULLS LAST] on a nullable integer. *)
Definition nulls_last_compare (a b : option Z) : comparison :=
  match a, b with
  | Some x, Some y => Z.compare x y
  | Some _, None => Lt
  | None, Some _ => Gt
  | None, None => Eq
  end.

(** A three-way comparison that decides equality, is antisymmetric and whose
    strict part is transitive. *)
Record order_on {K : Type} (cmp : K -> K -> comparison) : Prop := mk_order
  { cmp_eq : forall a b, cmp a b = Eq <-> a = b;
    cmp_opp : forall a b, cmp b a = CompOpp (cmp a b);
    cmp_lt_trans : forall a b c, cmp a b = Lt -> cmp b c = Lt -> cmp a c = Lt }.

(** [ORDER BY k1, k2] on the pair of keys. *)
Definition lex_compare {K1 K2 : Type} (c1 : K1 -> K1 -> comparison)
           (c2 : K2 -> K2 -> comparison) (a b : K1 * K2) : comparison :=
  then_by (c1 (fst a) (fst b)) (c2 (snd a) (snd b)).

(** ** Interval overlap *)

Definition active_status (s : string) : bool :=
  String.eqb s "confirmed" || String.eqb s "arrived".

(** [r.start_at < end AND r.end_at > start]. *)
Definition overlaps (r : reservation) (p_start_at p_end_at : timestamptz) : bool :=
  (r_start_at r <? p_end_at) && (r_end_at r >? p_start_at).

(** [p_exclude IS NULL OR r.id != p_exclude]. *)
Definition not_excluded (p_exclude : option uuid) (r : reservation) : bool :=
  match p_exclude with None => true | Some x => negb (uuid_eqb (r_id r) x) end.

(** Reservation [r], through its assignment row [rta], holds table [tid] on
    [p_date] during part of the window from [p_start_at] to [p_end_at]. *)
Definition holds_table (p_date : date) (p_start_at p_end_at : timestamptz)
           (p_exclude : option uuid) (tid : uuid)
           (r : reservation) (rta : assignment) : Prop :=
  rta_reservation_id rta = r_id r /\ rta_table_id rta = tid /\
  r_date r = p_date /\
  (r_status r = "confirmed"%string \/ r_status r = "arrived"%string) /\
  r_start_at r < p_end_at /\ r_end_at r > p_start_at /\
  (forall x, p_exclude = Some x -> r_id r <> x).

(** Modelled from the spec: [is_table_available], which the allocator calls
    and whose body is not part of the sources.  Section 4.1: it returns false
    iff there is a reservation on that table, on that date, with status
    confirmed or arrived, whose interval satisfies
    [existing.start < end AND existing.end > start], excluding the given
    reservation id when supplied. *)
Definition is_table_available (d : DB) (p_table_id : uuid) (p_date : date)
           (p_start_at p_end_at : timestamptz) (p_exclude : option uuid) : bool :=
  negb (existsb (fun r =>
          existsb (fun a => uuid_eqb (rta_reservation_id a) (r_id r)
                            && uuid_eqb (rta_table_id a) p_table_id)
                  (reservation_table_assignments d)
          && (r_date r =? p_date)
          && active_status (r_status r)
          && overlaps r p_start_at p_end_at
          && not_excluded p_exclude r)
        (reservations d)).

(** ** PL/pgSQL bodies

    A body runs against a machine holding the database, the number of
    statements executed so far and the local variables of the function.  The
    fault plan says which executed statements raise (a constraint violation,
    a lost connection, ...), so that every unexpected failure is covered. *)

Inductive outcome (A : Type) : Type :=
| Returned (a : A)
| Raised (sqlerrm : string).
Arguments Returned {A} a.
Arguments Raised {A} sqlerrm.

Record machine (L : Type) := mk_machine
  { m_db : DB; m_count : nat; m_vars : L }.
Arguments mk_machine {L}.
Arguments m_db {L}.
Arguments m_count {L}.
Arguments m_vars {L}.

Definition fault_plan := nat -> bool.

Definition plpgsql (L A : Type) : Type :=
  fault_plan -> machine L -> outcome A * machine L.

Definition ret {L A} (a : A) : plpgsql L A := fun _ m => (Returned a, m).

Definition bind {L A B} (c : plpgsql L A) (k : A -> plpgsql L B) : plpgsql L B :=
  fun flt m =>
    match c flt m with
    | (Returned a, m') => k a flt m'
    | (Raised e, m') => (Raised e, m')
    end.

Declare Scope plpgsql_scope.
Delimit Scope plpgsql_scope with plpgsql.
Notation "x <- c ;; k" := (bind c (fun x => k))
  (at level 100, c at next level, right associativity) : plpgsql_scope.
Notation "c ;; k" := (bind c (fun _ => k))
  (at level 100, right associativity) : plpgsql_scope.
Open Scope plpgsql_scope.

(** One SQL statement: it is counted, and it raises when the plan says so. *)
Definition statement {L A} (f : DB -> A * DB) : plpgsql L A :=
  fun flt m =>
    if flt (m_count m)
    then (Raised "statement failed", mk_machine (m_db m) (S (m_count m)) (m_vars m))
    else let (a, d) := f (m_db m) in
         (Returned a, mk_machine d (S (m_count m)) (m_vars m)).

Definition select_into {L A} (q : DB -> A) : plpgsql L A :=
  statement (fun d => (q d, d)).

Definition execute {L} (w : DB -> DB) : plpgsql L unit :=
  statement (fun d => (tt, w d)).

Definition raise_exception {L A} (msg : string) : plpgsql L A :=
  fun _ m => (Raised msg, m).

Definition get_vars {L} : plpgsql L L := fun _ m => (Returned (m_vars m), m).

Definition set_vars {L} (v : L) : plpgsql L unit :=
  fun _ m => (Returned tt, mk_machine (m_db m) (m_count m) v).

(** [BEGIN body EXCEPTION WHEN OTHERS THEN handler END]: when the body raises,
    the database changes made inside the block are rolled back (the block is
    a subtransaction); local variables keep their values. *)
Definition exception_block {L A} (body : plpgsql L A)
           (handler : string -> plpgsql L A) : plpgsql L A :=
  fun flt m =>
    match body flt m with
    | (Returned a, m') => (Returned a, m')
    | (Raised e, m') => handler e flt (mk_machine (m_db m) (m_count m') (m_vars m'))
    end.

(** Calling another function: the callee has its own local variables. *)
Definition call {L L' A} (callee : plpgsql L' A) (frame : L') : plpgsql L A :=
  fun flt m =>
    let (o, m') := callee flt (mk_machine (m_db m) (m_count m) frame) in
    (o, mk_machine (m_db m') (m_count m') (m_vars m)).

Definition no_faults : fault_plan := fun _ => false.

Definition tick {L} (m : machine L) : machine L :=
  mk_machine (m_db m) (S (m_count m)) (m_vars m).

(** ** FUNCION 1: assign_tables_to_reservation *)

(** [CASE WHEN z.id = p_preferred_zone_id THEN 0 ELSE 1 END]. *)
Definition preferred_rank (p_preferred_zone_id : option uuid) (z : zone) : Z :=
  match p_preferred_zone_id with
  | Some p => if uuid_eqb (z_id z) p then 0 else 1
  | None => 1
  end.

Definition zone_order (p_preferred_zone_id : option uuid) (a b : zone) : bool :=
  not_after (then_by (preferred_rank p_preferred_zone_id a ?= preferred_rank p_preferred_zone_id b)
                     (z_priority_order a ?= z_priority_order b)).

(** [WHERE z.is_active = true
      AND (p_preferred_zone_id IS NULL OR z.id = p_preferred_zone_id)]. *)
Definition zone_filter (p_preferred_zone_id : option uuid) (z : zone) : bool :=
  z_is_active z &&
  match p_preferred_zone_id with
  | None => true
  | Some p => uuid_eqb (z_id z) p
  end.

(** The query the outer [FOR v_zone IN ... LOOP] iterates over. *)
Definition zones_to_search (p_preferred_zone_id : option uuid) (d : DB) : list zone :=
  order_by (zone_order p_preferred_zone_id)
           (filter (zone_filter p_preferred_zone_id) (zones d)).

Section Allocation.
Variables (p_reservation_id : uuid) (p_date : date)
          (p_start_at p_end_at : timestamptz) (p_guests : Z).

Definition table_fits (d : DB) (v_zone : zone) (t : table) : bool :=
  t_is_active t
  && null_eqb (t_zone_id t) (z_id v_zone)
  && (t_capacity t >=? p_guests)
  && is_table_available d (t_id t) p_date p_start_at p_end_at None.

(** Estrategia 1: [SELECT t.id INTO v_table_id ... ORDER BY t.capacity ASC LIMIT 1]. *)
Definition single_table_query (v_zone : zone) (d : DB) : option table :=
  limit_1 (order_by (fun a b => t_capacity a <=? t_capacity b)
                    (filter (table_fits d v_zone) (tables d))).

Definition combination_fits (d : DB) (v_zone : zone) (tc : table_combination) : bool :=
  tc_is_active tc
  && null_eqb (tc_zone_id tc) (z_id v_zone)
  && (tc_total_capacity tc >=? p_guests)
  && negb (existsb (fun combo_table_id =>
             negb (is_table_available d combo_table_id p_date p_start_at p_end_at None))
           (tc_table_ids tc)).

(** Estrategia 2: [... ORDER BY tc.total_capacity ASC LIMIT 1]. *)
Definition combination_query (v_zone : zone) (d : DB) : option table_combination :=
  limit_1 (order_by (fun a b => tc_total_capacity a <=? tc_total_capacity b)
                    (filter (combination_fits d v_zone) (table_combinations d))).

Definition insert_assignment (v_table_id : uuid) (d : DB) : DB :=
  set_assignments (reservation_table_assignments d
                     ++ [mk_assignment p_reservation_id v_table_id]) d.

Definition delete_assignments (d : DB) : DB :=
  set_assignments (filter (fun a => negb (uuid_eqb (rta_reservation_id a) p_reservation_id))
                          (reservation_table_assignments d)) d.

(** [FOREACH v_table_id IN ARRAY v_combination.table_ids LOOP ... END LOOP;
    RETURN v_assigned_tables]. *)
Fixpoint assign_each (ids v_assigned_tables : list uuid) : plpgsql unit (list uuid) :=
  match ids with
  | [] => ret v_assigned_tables
  | v_table_id :: rest =>
      execute (insert_assignment v_table_id) ;;
      assign_each rest (v_assigned_tables ++ [v_table_id])
  end.

(** The body of [FOR v_zone IN ... LOOP]; after the loop the empty array
    is returned. *)
Fixpoint zone_loop (zs : list zone) : plpgsql unit (list uuid) :=
  match zs with
  | [] => ret []
  | v_zone :: rest =>
      found <- select_into (single_table_query v_zone) ;;
      match found with
      | Some t =>
          execute (insert_assignment (t_id t)) ;;
          ret [t_id t]
      | None =>
          v_combination <- select_into (combination_query v_zone) ;;
          match v_combination with
          | Some tc => assign_each (tc_table_ids tc) []
          | None => zone_loop rest
          end
      end
  end.

(** The decision the loop takes, as a value: which zone and which strategy
    produced the assignment. *)
Inductive allocation : Type :=
| NoAssignment
| SingleTable (z : zone) (t : table)
| Combination (z : zone) (tc : table_combination).

Definition assigned_ids (a : allocation) : list uuid :=
  match a with
  | NoAssignment => []
  | SingleTable _ t => [t_id t]
  | Combination _ tc => tc_table_ids tc
  end.

Fixpoint search (d : DB) (zs : list zone) : allocation :=
  match zs with
  | [] => NoAssignment
  | v_zone :: rest =>
      match single_table_query v_zone d with
      | Some t => SingleTable v_zone t
      | None =>
          match combination_query v_zone d with
          | Some tc => Combination v_zone tc
          | None => search d rest
          end
      end
  end.

(** Neither strategy has a candidate in the zone. *)
Definition nothing_fits (d : DB) (z : zone) : Prop :=
  (forall t, In t (tables d) -> table_fits d z t = false) /\
  (forall tc, In tc (table_combinations d) -> combination_fits d z tc = false).

(** Number of statements the loop executes: two queries for a zone where
    nothing fits, one query and one insert for a single table, two queries
    and one insert per member table for a combination. *)
Fixpoint statements_run (d : DB) (zs : list zone) : nat :=
  match zs with
  | [] => 0
  | v_zone :: rest =>
      match single_table_query v_zone d with
      | Some _ => 2
      | None =>
          match combination_query v_zone d with
          | Some tc => 2 + List.length (tc_table_ids tc)
          | None => 2 + statements_run d rest
          end
      end
  end.

(** The three ways the loop can end, with the database it leaves and the
    number of statements it has executed. *)
Inductive loop_outcome (d : DB) (zs : list zone) : list uuid -> DB -> nat -> Prop :=
| nothing_assigned :
    Forall (nothing_fits d) zs ->
    loop_outcome d zs [] d (2 * List.length zs)
| single_assigned (before after : list zone) (z : zone) (t : table) :
    zs = before ++ z :: after ->
    Forall (nothing_fits d) before ->
    In t (tables d) ->
    table_fits d z t = true ->
    loop_outcome d zs [t_id t]
      (set_assignments (reservation_table_assignments d
                          ++ [mk_assignment p_reservation_id (t_id t)]) d)
      (2 * List.length before + 2)
| combination_assigned (before after : list zone) (z : zone) (tc : table_combination) :
    zs = before ++ z :: after ->
    Forall (nothing_fits d) before ->
    (forall t, In t (tables d) -> table_fits d z t = false) ->
    In tc (table_combinations d) ->
    combination_fits d z tc = true ->
    Forall (fun id => is_table_available d id p_date p_start_at p_end_at None = true)
           (tc_table_ids tc) ->
    loop_outcome d zs (tc_table_ids tc)
      (set_assignments (reservation_table_assignments d
                          ++ map (mk_assignment p_reservation_id) (tc_table_ids tc)) d)
      (2 * List.length before + 2 + List.length (tc_table_ids tc)).

Definition assign_tables_to_reservation (p_preferred_zone_id : option uuid)
  : plpgsql unit (list uuid) :=
  exception_block
    (zs <- select_into (zones_to_search p_preferred_zone_id) ;;
     zone_loop zs)
    (fun sqlerrm =>
       execute delete_assignments ;;
       raise_exception ("Error al asignar mesas: " ++ sqlerrm)%string).
End Allocation.

(** ** FUNCION 2: create_reservation_with_assignment *)

(** The value of [json_build_object(...)]; a key that was not given is [None]. *)
Record json := mk_json
  { j_success : option bool;
    j_error : option string;
    j_message : option string;
    j_reservation_id : option uuid;
    j_assigned_tables : option (list uuid) }.

Definition failure (err : string) : json :=
  mk_json (Some false) (Some err) None None None.

(** [EXTRACT(DOW FROM p_date)]: 0 is Sunday; 1970-01-01 was a Thursday. *)
Definition extract_dow (p_date : date) : Z := (p_date + 4) mod 7.

Definition opt_eqb (x : option Z) (y : Z) : bool :=
  match x with Some a => a =? y | None => false end.

(** [(NOT scd.is_range AND scd.date = p_date) OR
     (scd.is_range AND p_date BETWEEN scd.range_start AND scd.range_end)]. *)
Definition closes (p_date : date) (scd : special_closed_day) : bool :=
  (negb (scd_is_range scd) && opt_eqb (scd_date scd) p_date)
  || (scd_is_range scd
      && match scd_range_start scd, scd_range_end scd with
         | Some a, Some b => (a <=? p_date) && (p_date <=? b)
         | _, _ => false
         end).

Definition insert_reservation (r : reservation) (d : DB) : DB :=
  set_reservations (reservations d ++ [r]) d.

Definition delete_reservation (id : uuid) (d : DB) : DB :=
  set_reservations (filter (fun r => negb (uuid_eqb (r_id r) id)) (reservations d)) d.

Section Environment.
(** [(date || ' ' || time)::timestamp AT TIME ZONE 'Europe/Madrid']. *)
Variable at_madrid : date -> time -> timestamptz.
(** [check_diners_limit], the diners-limit collaborator (a read). *)
Variable check_diners_limit : DB -> date -> time -> Z -> json.

(** [new_id] is the id the default of [reservations.id] generates for the
    inserted row ([RETURNING id INTO v_reservation_id]).  The local variable
    of the body is [v_reservation_id], NULL until the insert has run. *)
Section Create.
Variables (new_id p_customer_id : uuid) (p_date : date) (p_time : time)
          (p_guests : Z) (p_special_requests : option string)
          (p_duration_minutes : Z) (p_preferred_zone_id : option uuid).

(** [BEGIN ... ] up to [EXCEPTION]. *)
Definition create_reservation_body : plpgsql (option uuid) json :=
  let v_day_of_week := extract_dow p_date in
  v_special_closed <- select_into (fun d => existsb (closes p_date) (special_closed_days d)) ;;
  if (v_special_closed : bool) then ret (failure "Restaurant is closed on selected date") else
  v_special_schedule <-
    select_into (fun d => limit_1 (filter (fun s => (ssd_date s =? p_date) && ssd_is_active s)
                                          (special_schedule_days d))) ;;
  in_hours <-
    match v_special_schedule with
    | Some s =>
        ret (negb ((p_time <? ssd_opening_time s) || (p_time >? ssd_closing_time s)))
    | None =>
        select_into (fun d =>
          existsb (fun rs => (rs_day_of_week rs =? v_day_of_week) && rs_is_active rs
                             && (p_time >=? rs_opening_time rs)
                             && (p_time <=? rs_closing_time rs))
                  (restaurant_schedules d))
    end ;;
  if negb in_hours then ret (failure "Restaurant is closed at selected time") else
  v_diners_check <- select_into (fun d => check_diners_limit d p_date p_time p_guests) ;;
  match j_success v_diners_check with
  | Some false => ret v_diners_check
  | _ =>
      let v_start_at := at_madrid p_date p_time in
      let v_end_at := v_start_at + p_duration_minutes * 60 in
      execute (insert_reservation
                 (mk_reservation new_id p_customer_id p_date p_time p_guests "confirmed"
                                 p_special_requests v_start_at v_end_at p_duration_minutes)) ;;
      set_vars (Some new_id) ;;
      v_assigned_tables <-
        call (assign_tables_to_reservation new_id p_date v_start_at v_end_at
                                           p_guests p_preferred_zone_id) tt ;;
      if (List.length v_assigned_tables =? 0)%nat then
        execute (delete_reservation new_id) ;;
        ret (failure "No hay mesas disponibles para esta capacidad en el horario solicitado")
      else
        ret (mk_json (Some true) None (Some "Reserva creada exitosamente"%string)
                     (Some new_id) (Some v_assigned_tables))
  end.

(** [EXCEPTION WHEN OTHERS THEN ...]. *)
Definition create_reservation_handler (sqlerrm : string) : plpgsql (option uuid) json :=
  v_reservation_id <- get_vars ;;
  match v_reservation_id with
  | Some id => execute (delete_reservation id)
  | None => ret tt
  end ;;
  ret (failure ("Error al crear la reserva: " ++ sqlerrm)%string).

(** [DECLARE v_reservation_id uuid;] leaves the variable NULL. *)
Definition create_reservation_with_assignment : plpgsql (option uuid) json :=
  set_vars None ;;
  exception_block create_reservation_body create_reservation_handler.
End Create.

(** ** FUNCION 3: get_available_time_slots_with_zones *)

Record slot_range := mk_slot_range
  { sr_slot_time : time; sr_start_at : timestamptz; sr_end_at : timestamptz }.

(** A row of [available_tables], [available_combinations] and [all_options]. *)
Record option_row := mk_option
  { ao_slot_time : time; ao_capacity : Z; ao_zone_name : string;
    ao_zone_priority : Z; ao_zone_id : option uuid }.

(** A row of [available_zones_per_slot]. *)
Record zone_slot := mk_zone_slot
  { azps_slot_time : time; azps_zone_name : string;
    azps_zone_priority : Z; azps_zone_id : option uuid }.

(** A row of the result. *)
Record slot_row := mk_slot_row
  { slot_time : time; zone_name : string; zone_id : option uuid }.

Definition in_schedule (v_day_of_week : Z) (t : time) (rs : restaurant_schedule) : bool :=
  (rs_day_of_week rs =? v_day_of_week) && rs_is_active rs
  && (t >=? rs_opening_time rs) && (t <=? rs_closing_time rs).

Definition slot_times (d : DB) (v_day_of_week : Z) : list time :=
  map ts_time
      (filter (fun ts => existsb (in_schedule v_day_of_week (ts_time ts))
                                 (restaurant_schedules d))
              (time_slots d)).

Definition slot_ranges (d : DB) (p_date : date) (p_duration_minutes : Z) : list slot_range :=
  map (fun st => mk_slot_range st (at_madrid p_date st)
                               (at_madrid p_date st + p_duration_minutes * 60))
      (slot_times d (extract_dow p_date)).

Definition slot_table_eqb (a b : time * uuid) : bool :=
  (fst a =? fst b) && uuid_eqb (snd a) (snd b).

(** [SELECT DISTINCT sr.slot_time, rta.table_id FROM slot_ranges sr
     CROSS JOIN reservations r INNER JOIN reservation_table_assignments rta ...]. *)
Definition occupied_tables (d : DB) (p_date : date) (srs : list slot_range)
  : list (time * uuid) :=
  distinct_on (fun x => x) slot_table_eqb
    (flat_map (fun sr =>
       flat_map (fun r =>
         flat_map (fun rta =>
           if uuid_eqb (r_id r) (rta_reservation_id rta)
              && (r_date r =? p_date)
              && active_status (r_status r)
              && overlaps r (sr_start_at sr) (sr_end_at sr)
           then [(sr_slot_time sr, rta_table_id rta)] else [])
         (reservation_table_assignments d))
       (reservations d))
     srs).

Definition is_occupied (occ : list (time * uuid)) (st : time) (id : uuid) : bool :=
  existsb (fun ot => (fst ot =? st) && uuid_eqb (snd ot) id) occ.

(** [x LEFT JOIN public.zones z ON x.zone_id = z.id]: one row per matching
    zone, and one row with a NULL zone when there is none. *)
Definition left_join_zones (d : DB) (zid : option uuid) : list (option zone) :=
  match filter (fun z => null_eqb zid (z_id z)) (zones d) with
  | [] => [None]
  | zs => map Some zs
  end.

Definition coalesce_name (z : option zone) : string :=
  match z with Some z => z_name z | None => "Sin zona" end.

Definition coalesce_priority (z : option zone) : Z :=
  match z with Some z => z_priority_order z | None => 999 end.

Definition available_tables (d : DB) (srs : list slot_range) (occ : list (time * uuid))
  : list option_row :=
  flat_map (fun sr =>
    flat_map (fun t =>
      flat_map (fun z =>
        if t_is_active t && negb (is_occupied occ (sr_slot_time sr) (t_id t))
        then [mk_option (sr_slot_time sr) (t_capacity t) (coalesce_name z)
                        (coalesce_priority z) (option_map z_id z)]
        else [])
      (left_join_zones d (t_zone_id t)))
    (tables d))
  srs.

Definition available_combinations (d : DB) (srs : list slot_range)
           (occ : list (time * uuid)) : list option_row :=
  flat_map (fun sr =>
    flat_map (fun tc =>
      flat_map (fun z =>
        if tc_is_active tc
           && negb (existsb (fun combo_table_id =>
                      is_occupied occ (sr_slot_time sr) combo_table_id)
                    (tc_table_ids tc))
        then [mk_option (sr_slot_time sr) (tc_total_capacity tc) (coalesce_name z)
                        (coalesce_priority z) (option_map z_id z)]
        else [])
      (left_join_zones d (tc_zone_id tc)))
    (table_combinations d))
  srs.

Definition all_options (d : DB) (srs : list slot_range) (occ : list (time * uuid))
  : list option_row :=
  available_tables d srs occ ++ available_combinations d srs occ.

(** Where a row of [all_options] comes from: an active table that is not
    occupied at the slot, or an active combination none of whose member
    tables is occupied at the slot, joined with its zone. *)
Definition free_table_option (d : DB) (srs : list slot_range)
           (occ : list (time * uuid)) (ao : option_row) : Prop :=
  exists sr t z,
    In sr srs /\ In t (tables d) /\ In z (left_join_zones d (t_zone_id t)) /\
    t_is_active t = true /\
    is_occupied occ (sr_slot_time sr) (t_id t) = false /\
    ao = mk_option (sr_slot_time sr) (t_capacity t) (coalesce_name z)
                   (coalesce_priority z) (option_map z_id z).

Definition free_combination_option (d : DB) (srs : list slot_range)
           (occ : list (time * uuid)) (ao : option_row) : Prop :=
  exists sr tc z,
    In sr srs /\ In tc (table_combinations d) /\
    In z (left_join_zones d (tc_zone_id tc)) /\
    tc_is_active tc = true /\
    Forall (fun id => is_occupied occ (sr_slot_time sr) id = false) (tc_table_ids tc) /\
    ao = mk_option (sr_slot_time sr) (tc_total_capacity tc) (coalesce_name z)
                   (coalesce_priority z) (option_map z_id z).

(** The row of [available_zones_per_slot] an option projects to. *)
Definition zone_slot_of (ao : option_row) : zone_slot :=
  mk_zone_slot (ao_slot_time ao) (ao_zone_name ao) (ao_zone_priority ao) (ao_zone_id ao).

(** Lower zone priority value first, then smaller capacity. *)
Definition better_or_equal (a b : option_row) : Prop :=
  ao_zone_priority a < ao_zone_priority b \/
  (ao_zone_priority a = ao_zone_priority b /\ ao_capacity a <= ao_capacity b).

(** Earlier slot first, then lower zone priority value. *)
Definition listed_before (a b : zone_slot) : Prop :=
  azps_slot_time a < azps_slot_time b \/
  (azps_slot_time a = azps_slot_time b /\ azps_zone_priority a <= azps_zone_priority b).

(** The sort keys of the two [ORDER BY] clauses, as tuples. *)
Definition option_key (ao : option_row) : Z * (string * (Z * Z)) :=
  (ao_slot_time ao, (ao_zone_name ao, (ao_zone_priority ao, ao_capacity ao))).

Definition zone_slot_key (a : zone_slot) : Z * Z :=
  (azps_slot_time a, azps_zone_priority a).

(** [ORDER BY ao.slot_time, ao.zone_name, ao.zone_priority ASC, ao.capacity ASC]. *)
Definition option_compare (a b : option_row) : comparison :=
  then_by (ao_slot_time a ?= ao_slot_time b)
    (then_by (text_compare (ao_zone_name a) (ao_zone_name b))
      (then_by (ao_zone_priority a ?= ao_zone_priority b)
               (ao_capacity a ?= ao_capacity b))).

Definition slot_zone_eqb (a b : time * string) : bool :=
  (fst a =? fst b) && String.eqb (snd a) (snd b).

Definition slot_zone (ao : option_row) : time * string :=
  (ao_slot_time ao, ao_zone_name ao).

(** [SELECT DISTINCT ON (ao.slot_time, ao.zone_name) ... WHERE ao.capacity >= p_guests
     ORDER BY ...]. *)
Definition best_option_per_slot_zone (p_guests : Z) (opts : list option_row)
  : list option_row :=
  distinct_on slot_zone slot_zone_eqb
    (order_by (fun a b => not_after (option_compare a b))
              (filter (fun ao => ao_capacity ao >=? p_guests) opts)).

Definition available_zones_per_slot (p_guests : Z) (opts : list option_row)
  : list zone_slot :=
  map zone_slot_of (best_option_per_slot_zone p_guests opts).

(** [ORDER BY azps.slot_time, azps.zone_priority ASC]. *)
Definition zone_slot_compare (a b : zone_slot) : comparison :=
  then_by (azps_slot_time a ?= azps_slot_time b)
          (azps_zone_priority a ?= azps_zone_priority b).

Definition ordered_zone_slots (d : DB) (p_date : date) (p_guests p_duration_minutes : Z)
  : list zone_slot :=
  let srs := slot_ranges d p_date p_duration_minutes in
  let occ := occupied_tables d p_date srs in
  order_by (fun a b => not_after (zone_slot_compare a b))
           (available_zones_per_slot p_guests (all_options d srs occ)).

(** [SELECT azps.slot_time, azps.zone_name, azps.zone_id]. *)
Definition slot_row_of (azps : zone_slot) : slot_row :=
  mk_slot_row (azps_slot_time azps) (azps_zone_name azps) (azps_zone_id azps).

Definition get_available_time_slots_with_zones
           (d : DB) (p_date : date) (p_guests p_duration_minutes : Z) : list slot_row :=
  map slot_row_of (ordered_zone_slots d p_date p_guests p_duration_minutes).

(** ** FUNCION 4: get_available_tables_for_reservation *)

Record table_status := mk_status
  { st_table_id : uuid; st_table_name : string; st_capacity : Z;
    st_extra_capacity : Z; st_total_capacity : Z;
    st_zone_id : option uuid; st_zone_name : string;
    st_zone_color : option string; st_is_available : bool }.

(** The CTE [occupied_tables] of the reporter. *)
Definition occupied_for_window (d : DB) (p_date : date)
           (v_start_at v_end_at : timestamptz) (p_exclude_reservation_id : option uuid)
  : list uuid :=
  distinct_on (fun x => x) uuid_eqb
    (flat_map (fun r =>
       flat_map (fun rta =>
         if uuid_eqb (r_id r) (rta_reservation_id rta)
            && (r_date r =? p_date)
            && active_status (r_status r)
            && overlaps r v_start_at v_end_at
            && not_excluded p_exclude_reservation_id r
         then [rta_table_id rta] else [])
       (reservation_table_assignments d))
     (reservations d)).

Definition coalesce_zero (x : option Z) : Z :=
  match x with Some v => v | None => 0 end.

(** [ORDER BY z.priority_order ASC NULLS LAST, t.name ASC]. *)
Definition status_compare (a b : table * option zone) : comparison :=
  then_by (nulls_last_compare (option_map z_priority_order (snd a))
                              (option_map z_priority_order (snd b)))
          (text_compare (t_name (fst a)) (t_name (fst b))).


(** [FROM public.tables t LEFT JOIN public.zones z ON t.zone_id = z.id
     WHERE t.is_active = true ORDER BY ...]. *)
Definition joined_tables (d : DB) : list (table * option zone) :=
  order_by (fun a b => not_after (status_compare a b))
    (flat_map (fun t =>
       if t_is_active t then map (fun z => (t, z)) (left_join_zones d (t_zone_id t))
       else [])
     (tables d)).

Definition status_row (occ : list uuid) (tz : table * option zone) : table_status :=
  let (t, z) := tz in
  mk_status (t_id t) (t_name t) (t_capacity t)
            (coalesce_zero (t_extra_capacity t))
            (t_capacity t + coalesce_zero (t_extra_capacity t))
            (option_map z_id z)
            (coalesce_name z)
            (match z with Some z => z_color z | None => None end)
            (negb (existsb (fun ot => uuid_eqb ot (t_id t)) occ)).

Definition get_available_tables_for_reservation
           (d : DB) (p_date : date) (p_time : time) (p_duration_minutes : Z)
           (p_exclude_reservation_id : option uuid) : list table_status :=
  let v_start_at := at_madrid p_date p_time in
  let v_end_at := v_start_at + p_duration_minutes * 60 in
  map (status_row (occupied_for_window d p_date v_start_at v_end_at
                                       p_exclude_reservation_id))
      (joined_tables d).

End Environment.

(** ** The claims as the specification words them, where the code differs *)


(** Section 8 as worded: the assigned capacity is minimal among all valid
    candidates of the zone, tables and combinations alike. *)
Definition tightest_over_tables_and_combinations : Prop :=
  forall rid p_date p_start_at p_end_at p_guests pref flt (m m' : machine unit) z t,
    assign_tables_to_reservation rid p_date p_start_at p_end_at p_guests pref flt m
    = (Returned [t_id t], m') ->
    In z (zones_to_search pref (m_db m)) ->
    In t (tables (m_db m)) ->
    table_fits p_date p_start_at p_end_at p_guests (m_db m) z t = true ->
    forall tc, In tc (table_combinations (m_db m)) ->
               combination_fits p_date p_start_at p_end_at p_guests (m_db m) z tc = true ->
               t_capacity t <= tc_total_capacity tc.


(** ** A small restaurant, used to run the procedures *)

Module Scenario.
Open Scope string_scope.

(** Winter time: Madrid is one hour ahead of UTC. *)
Definition madrid (d : date) (t : time) : timestamptz := d * 86400 + t - 3600.

Definition diners_ok (_ : DB) (_ : date) (_ : time) (_ : Z) : json :=
  mk_json (Some true) None None None None.

Definition interior := mk_zone 1 "Interior" 0 true None.
Definition terraza := mk_zone 2 "Terraza" 1 true (Some "#00aa00").

Definition eight_pm : time := 72000.
Definition eleven_pm : time := 82800.

(** 1970-01-01, a Thursday. *)
Definition thursday : date := 0.

Definition grid := [mk_time_slot eight_pm; mk_time_slot eleven_pm].
Definition evenings := [mk_schedule 4 true eight_pm eleven_pm].

(** Interior has a table for two, Terraza a table for four. *)
Definition two_zones : DB :=
  mk_db [interior; terraza]
        [mk_table 11 "I1" 2 None (Some 1) true; mk_table 21 "T1" 4 (Some 1) (Some 2) true]
        [] [] [] grid evenings [] [].

(** Interior has a table for eight and two tables for three that combine. *)
Definition with_combination : DB :=
  mk_db [interior]
        [mk_table 11 "I1" 8 None (Some 1) true;
         mk_table 12 "I2" 3 None (Some 1) true;
         mk_table 13 "I3" 3 None (Some 1) true]
        [mk_comb 51 [12; 13] 6 (Some 1) true]
        [] [] grid evenings [] [].

(** No single table seats six, the combination of the two tables for
    three does. *)
Definition small_tables : DB :=
  mk_db [interior]
        [mk_table 11 "I1" 4 None (Some 1) true;
         mk_table 12 "I2" 3 None (Some 1) true;
         mk_table 13 "I3" 3 None (Some 1) true]
        [mk_comb 51 [12; 13] 6 (Some 1) true]
        [] [] grid evenings [] [].


(** The restaurant is closed on that Thursday. *)
Definition closed_thursday : DB :=
  set_special_days [mk_closed false (Some thursday) None None] [] two_zones.

(** Both zones have a table for four; the one of Interior is booked from
    20:00 for ninety minutes, and the one of Terraza until 20:00 sharp. *)
Definition interior_booked : DB :=
  mk_db [interior; terraza]
        [mk_table 11 "I1" 4 None (Some 1) true; mk_table 21 "T1" 4 None (Some 2) true]
        []
        [mk_reservation 900 7 thursday eight_pm 4 "confirmed" None
                        (madrid thursday eight_pm) (madrid thursday eight_pm + 5400) 90;
         mk_reservation 901 8 thursday 66600 2 "arrived" None
                        (madrid thursday 66600) (madrid thursday eight_pm) 90]
        [mk_assignment 900 11; mk_assignment 901 21]
        grid evenings [] [].

(** That Thursday the restaurant opens for lunch only, 12:00 to 16:00. *)
Definition lunch_only_thursday : DB :=
  set_special_days [] [mk_special thursday true 43200 57600] two_zones.

Definition fresh {L} (d : DB) (vars : L) : machine L := mk_machine d 0 vars.
End Scenario.

(** ** What the stored state is expected to satisfy *)

Definition is_active_reservation (r : reservation) : Prop :=
  r_status r = "confirmed"%string \/ r_status r = "arrived"%string.

(** Two different reservations of the same date, both confirmed or arrived,
    are assigned the same table and their intervals overlap. *)
Definition double_booked (d : DB) (r1 r2 : reservation) (a1 a2 : assignment) : Prop :=
  In r1 (reservations d) /\ In r2 (reservations d) /\
  In a1 (reservation_table_assignments d) /\ In a2 (reservation_table_assignments d) /\
  rta_reservation_id a1 = r_id r1 /\ rta_reservation_id a2 = r_id r2 /\
  r_id r1 <> r_id r2 /\
  rta_table_id a1 = rta_table_id a2 /\
  r_date r1 = r_date r2 /\
  is_active_reservation r1 /\ is_active_reservation r2 /\
  r_start_at r1 < r_end_at r2 /\ r_start_at r2 < r_end_at r1.

Definition no_double_booking (d : DB) : Prop :=
  forall r1 r2 a1 a2, ~ double_booked d r1 r2 a1 a2.

(** The opening hours in force on a date: those of the first active special
    schedule of the date when there is one, else those of an active weekly
    schedule of the weekday. *)
Definition hours_open (d : DB) (p_date : date) (p_time : time) : Prop :=
  match limit_1 (filter (fun s => (ssd_date s =? p_date) && ssd_is_active s)
                        (special_schedule_days d)) with
  | Some s => ssd_opening_time s <= p_time <= ssd_closing_time s
  | None =>
      exists rs, In rs (restaurant_schedules d) /\
                 rs_day_of_week rs = extract_dow p_date /\ rs_is_active rs = true /\
                 rs_opening_time rs <= p_time <= rs_closing_time rs
  end.

(** The row [create_reservation_with_assignment] inserts. *)
Definition new_reservation (at_madrid : date -> time -> timestamptz)
           (new_id p_customer_id : uuid) (p_date : date) (p_time : time) (p_guests : Z)
           (p_special_requests : option string) (p_duration_minutes : Z) : reservation :=
  mk_reservation new_id p_customer_id p_date p_time p_guests "confirmed"
                 p_special_requests (at_madrid p_date p_time)
                 (at_madrid p_date p_time + p_duration_minutes * 60) p_duration_minutes.

(** The JSON of a successful creation. *)
Definition created (new_id : uuid) (ids : list uuid) : json :=
  mk_json (Some true) None (Some "Reserva creada exitosamente"%string)
          (Some new_id) (Some ids).

(** The checks a successful creation has passed, and what it has written. *)
Definition creation_succeeded (at_madrid : date -> time -> timestamptz)
           (check_diners_limit : DB -> date -> time -> Z -> json)
           (new_id p_customer_id : uuid) (p_date : date) (p_time : time) (p_guests : Z)
           (p_special_requests : option string) (p_duration_minutes : Z)
           (p_preferred_zone_id : option uuid) (d : DB) (j : json) (d' : DB) : Prop :=
  let row := new_reservation at_madrid new_id p_customer_id p_date p_time p_guests
                             p_special_requests p_duration_minutes in
  exists ids n,
    ids <> [] /\ j = created new_id ids /\
    existsb (closes p_date) (special_closed_days d) = false /\
    hours_open d p_date p_time /\
    j_success (check_diners_limit d p_date p_time p_guests) <> Some false /\
    d' = set_assignments (reservation_table_assignments d ++ map (mk_assignment new_id) ids)
                         (insert_reservation row d) /\
    loop_outcome new_id p_date (r_start_at row) (r_end_at row) p_guests
                 (insert_reservation row d)
                 (zones_to_search p_preferred_zone_id (insert_reservation row d)) ids d' n.

(** ** PARTE 2: FUNCIONES DE API PUBLICA

    The public functions also read and write [customers] and stamp
    [updated_at].  These relations, which the internal functions never
    touch, travel in the third component of the machine; the exception block
    of a public function rolls them back with the rest of the database. *)

Record customer := mk_customer
  { c_id : uuid; c_name : string; c_phone : string; c_email : option string;
    (* NULL stands for the value the column default gave at insertion *)
    c_updated_at : option timestamptz }.

Record api_tables := mk_api_tables
  { customers : list customer;
    (* the column [updated_at] of [reservations], for the rows an UPDATE of
       these functions has set, latest first *)
    reservations_updated_at : list (uuid * timestamptz) }.

Definition api (A : Type) : Type := plpgsql api_tables A.

Definition api_statement {A} (f : DB -> api_tables -> A * (DB * api_tables)) : api A :=
  fun flt m =>
    if flt (m_count m)
    then (Raised "statement failed", mk_machine (m_db m) (S (m_count m)) (m_vars m))
    else let (a, ds) := f (m_db m) (m_vars m) in
         (Returned a, mk_machine (fst ds) (S (m_count m)) (snd ds)).

Definition api_select {A} (q : DB -> api_tables -> A) : api A :=
  api_statement (fun d s => (q d s, (d, s))).

Definition api_execute (w : DB -> api_tables -> DB * api_tables) : api unit :=
  api_statement (fun d s => (tt, w d s)).

(** [BEGIN body EXCEPTION WHEN OTHERS THEN handler END] of a public function. *)
Definition api_block {A} (body : api A) (handler : string -> api A) : api A :=
  fun flt m =>
    match body flt m with
    | (Returned a, m') => (Returned a, m')
    | (Raised e, m') => handler e flt (mk_machine (m_db m) (m_count m') (m_vars m))
    end.

(** [trim(text)]: the spaces at both ends are removed. *)
Definition is_space (c : ascii) : bool := Ascii.eqb c " "%char.

Fixpoint ltrim (s : string) : string :=
  match s with
  | EmptyString => EmptyString
  | String c r => if is_space c then ltrim r else s
  end.

Fixpoint rtrim (s : string) : string :=
  match s with
  | EmptyString => EmptyString
  | String c r =>
      match rtrim r with
      | EmptyString => if is_space c then EmptyString else String c EmptyString
      | r' => String c r'
      end
  end.

Definition trim (s : string) : string := ltrim (rtrim s).

Definition is_blank (s : string) : bool := String.eqb (trim s) "".

(** ** FUNCION 5: public_find_reservation *)

Record found_reservation := mk_found
  { found_id : uuid; found_date : date; found_time : time; found_guests : Z;
    found_status : string; found_customer_name : string }.

(** [json_build_object('success', ..., 'reservations', ...)]; the array is
    [None] when the JSON value is null. *)
Record find_json := mk_find_json
  { fj_success : bool; fj_reservations : option (list found_reservation) }.

(** [WHERE c.phone = p_phone AND r.status IN ('confirmed', 'arrived')
      AND r.end_at > NOW()], on the rows of [r JOIN c ON r.customer_id = c.id]. *)
Definition find_matches (now : timestamptz) (p_phone : string)
           (r : reservation) (c : customer) : bool :=
  uuid_eqb (r_customer_id r) (c_id c)
  && String.eqb (c_phone c) p_phone
  && active_status (r_status r)
  && (r_end_at r >? now).

(** [ORDER BY r.date, r.time]. *)
Definition date_time_compare (a b : reservation * customer) : comparison :=
  then_by (r_date (fst a) ?= r_date (fst b)) (r_time (fst a) ?= r_time (fst b)).

Definition date_time_key (rc : reservation * customer) : Z * Z :=
  (r_date (fst rc), r_time (fst rc)).

Definition found_row (rc : reservation * customer) : found_reservation :=
  mk_found (r_id (fst rc)) (r_date (fst rc)) (r_time (fst rc)) (r_guests (fst rc))
           (r_status (fst rc)) (c_name (snd rc)).

(** Earlier date first, then earlier time. *)
Definition found_before (a b : found_reservation) : Prop :=
  found_date a < found_date b \/
  (found_date a = found_date b /\ found_time a <= found_time b).

(** The CTE [reservations_data]; [json_agg] takes its rows in this order. *)
Definition reservations_data (now : timestamptz) (p_phone : string)
           (d : DB) (s : api_tables) : list found_reservation :=
  map found_row
      (order_by (fun a b => not_after (date_time_compare a b))
         (flat_map (fun r =>
            flat_map (fun c => if find_matches now p_phone r c then [(r, c)] else [])
                     (customers s))
          (reservations d))).

(** [json_agg] over no row is NULL. *)
Definition json_agg {A : Type} (rows : list A) : option (list A) :=
  match rows with [] => None | _ => Some rows end.

(** [now] is the value of [NOW()]. *)
Definition public_find_reservation (now : timestamptz) (p_phone : string) : api find_json :=
  v_result <- api_select (fun d s =>
                Some (mk_find_json true (json_agg (reservations_data now p_phone d s)))) ;;
  ret (match v_result with
       | Some j => j
       | None => mk_find_json true (Some [])
       end).

(** ** FUNCION 6: public_cancel_reservation *)

Definition cancel_matches (p_phone : string) (p_date : date) (p_time : option time)
           (r : reservation) (c : customer) : bool :=
  uuid_eqb (r_customer_id r) (c_id c)
  && String.eqb (c_phone c) p_phone
  && (r_date r =? p_date)
  && match p_time with None => true | Some t => r_time r =? t end
  && active_status (r_status r).

(** [SELECT r.id, r.customer_id INTO ... ORDER BY r.time LIMIT 1]. *)
Definition cancel_query (p_phone : string) (p_date : date) (p_time : option time)
           (d : DB) (s : api_tables) : option reservation :=
  limit_1
    (map fst
       (order_by (fun a b : reservation * customer =>
                    not_after (r_time (fst a) ?= r_time (fst b)))
          (flat_map (fun r =>
             flat_map (fun c => if cancel_matches p_phone p_date p_time r c
                                then [(r, c)] else [])
                      (customers s))
           (reservations d)))).

Definition set_status (st : string) (r : reservation) : reservation :=
  mk_reservation (r_id r) (r_customer_id r) (r_date r) (r_time r) (r_guests r) st
                 (r_special_requests r) (r_start_at r) (r_end_at r) (r_duration_minutes r).

(** [UPDATE public.reservations SET status = 'cancelled', updated_at = NOW()
     WHERE id = v_reservation_id]. *)
Definition cancel_rows (id : uuid) (d : DB) : DB :=
  set_reservations
    (map (fun r => if uuid_eqb (r_id r) id then set_status "cancelled" r else r)
         (reservations d)) d.

Definition stamp_reservation (now : timestamptz) (id : uuid) (d : DB) (s : api_tables)
  : api_tables :=
  if existsb (fun r => uuid_eqb (r_id r) id) (reservations d)
  then mk_api_tables (customers s) ((id, now) :: reservations_updated_at s)
  else s.

Definition cancelled (id : uuid) : json :=
  mk_json (Some true) None (Some "Reserva cancelada exitosamente"%string) (Some id) None.

Definition not_found : json :=
  failure "No se encontró una reserva activa para este teléfono y fecha".

(** [p_reason] is a parameter of the function; the body does not use it. *)
Definition public_cancel_reservation (now : timestamptz) (p_phone : string) (p_date : date)
           (p_time : option time) (p_reason : string) : api json :=
  api_block
    (found <- api_select (cancel_query p_phone p_date p_time) ;;
     match found with
     | None => ret not_found
     | Some r =>
         api_execute (fun d s => (cancel_rows (r_id r) d, stamp_reservation now (r_id r) d s)) ;;
         ret (cancelled (r_id r))
     end)
    (fun sqlerrm => ret (failure ("Error al cancelar la reserva: " ++ sqlerrm)%string)).

(** ** FUNCION 7: public_create_reservation *)

(** [NULLIF(trim(p_email), '')]. *)
Definition nullif_blank (p_email : option string) : option string :=
  match p_email with
  | Some e => if is_blank e then None else Some (trim e)
  | None => None
  end.

Definition insert_customer (c : customer) (s : api_tables) : api_tables :=
  mk_api_tables (customers s ++ [c]) (reservations_updated_at s).

(** [UPDATE public.customers SET name = CASE ..., email = CASE ...,
     updated_at = NOW() WHERE id = v_customer_id]. *)
Definition update_customer (now : timestamptz) (id : uuid) (p_name : string)
           (p_email : option string) (s : api_tables) : api_tables :=
  mk_api_tables
    (map (fun c =>
            if uuid_eqb (c_id c) id
            then mk_customer (c_id c)
                   (if negb (is_blank p_name) then trim p_name else c_name c)
                   (c_phone c)
                   (match p_email with
                    | Some e => if negb (is_blank e) then Some (trim e) else c_email c
                    | None => c_email c
                    end)
                   (Some now)
            else c)
         (customers s))
    (reservations_updated_at s).

Section PublicCreate.
Variable at_madrid : date -> time -> timestamptz.
Variable check_diners_limit : DB -> date -> time -> Z -> json.

(** [SELECT id INTO v_customer_id FROM public.customers WHERE phone = ...]. *)
Definition customer_of_phone (phone : string) (s : api_tables) : option uuid :=
  limit_1 (map c_id (filter (fun c => String.eqb (c_phone c) phone) (customers s))).

(** [new_customer_id] and [new_id] are the ids the column defaults generate
    for an inserted customer and for the inserted reservation. *)
Definition public_create_reservation (now : timestamptz) (new_customer_id new_id : uuid)
           (p_name p_phone : option string) (p_date : date) (p_time : time) (p_guests : Z)
           (p_email : option string) (p_duration_minutes : Z)
           (p_special_requests : option string) (p_preferred_zone_id : option uuid)
  : api json :=
  api_block
    (match p_name with
     | None => ret (failure "El nombre del cliente es obligatorio")
     | Some name =>
     if is_blank name then ret (failure "El nombre del cliente es obligatorio") else
     match p_phone with
     | None => ret (failure "El teléfono del cliente es obligatorio")
     | Some phone =>
     if is_blank phone then ret (failure "El teléfono del cliente es obligatorio") else
     found <- api_select (fun _ s => customer_of_phone (trim phone) s) ;;
     v_customer_id <-
       match found with
       | None =>
           api_execute (fun d s =>
             (d, insert_customer (mk_customer new_customer_id (trim name) (trim phone)
                                              (nullif_blank p_email) None) s)) ;;
           ret new_customer_id
       | Some id =>
           api_execute (fun d s => (d, update_customer now id name p_email s)) ;;
           ret id
       end ;;
     v_result <-
       call (create_reservation_with_assignment at_madrid check_diners_limit new_id
               v_customer_id p_date p_time p_guests p_special_requests
               p_duration_minutes p_preferred_zone_id) None ;;
     ret v_result
     end
     end)
    (fun sqlerrm => ret (failure ("Error al crear la reserva: " ++ sqlerrm)%string)).
End PublicCreate.

(** A parameter that fails the test [p IS NULL OR trim(p) = '']. *)
Definition missing (p : option string) : Prop :=
  match p with
  | Some s => trim s = ""%string
  | None => True
  end.

(** The customer row the booking goes to, and the customers after the
    search-or-create step. *)
Definition booking_customer (new_customer_id : uuid) (phone : string) (s : api_tables)
  : uuid :=
  match customer_of_phone (trim phone) s with
  | Some id => id
  | None => new_customer_id
  end.

Definition customers_after (now : timestamptz) (new_customer_id : uuid)
           (name phone : string) (p_email : option string) (s : api_tables) : api_tables :=
  match customer_of_phone (trim phone) s with
  | Some id => update_customer now id name p_email s
  | None => insert_customer (mk_customer new_customer_id (trim name) (trim phone)
                                         (nullif_blank p_email) None) s
  end.

(** ** The customers of the small restaurant *)

Module Guests.
  Open Scope string_scope.

Definition ana := mk_customer 7 "Ana" "600111222" (Some "ana@example.org") None.
Definition luis := mk_customer 8 "Luis" "600333444" None None.

Definition regulars : api_tables := mk_api_tables [ana; luis] [].

(** The floor of [Scenario.interior_booked] with its two customers. *)
Definition booked : machine api_tables := mk_machine Scenario.interior_booked 0 regulars.

(** An empty floor with the two customers. *)
Definition quiet : machine api_tables := mk_machine Scenario.two_zones 0 regulars.

(** The two customers on the Thursday the restaurant is closed. *)
Definition closed : machine api_tables := mk_machine Scenario.closed_thursday 0 regulars.

(** A party of four for Thursday 20:00, ninety minutes, no preferred zone;
    5 is the time of the call, 9 and 100 are the generated ids. *)
Definition books (p_name p_phone p_email : option string) : api json :=
  public_create_reservation Scenario.madrid Scenario.diners_ok 5 9 100 p_name p_phone
    Scenario.thursday Scenario.eight_pm 4 p_email 90 None None.

(** Well before that Thursday evening. *)
Definition early : timestamptz := 0.
End Guests.

(** * Facts about ORDER BY and DISTINCT ON *)

Section SortingFacts.
Context {A : Type} (leb : A -> A -> bool).
Let R (x y : A) : Prop := leb x y = true.

Lemma insert_by_perm (x : A) (l : list A) : Permutation (insert_by leb x l) (x :: l).
Proof.
  induction l as [|y r IH]; simpl.
  - apply Permutation_refl.
  - destruct (leb x y).
    + apply Permutation_refl.
    + apply perm_trans with (y :: x :: r).
      * apply perm_skip, IH.
      * apply perm_swap.
Qed.

Lemma order_by_perm (l : list A) : Permutation (order_by leb l) l.
Proof.
  induction l as [|x r IH]; simpl.
  - apply perm_nil.
  - apply perm_trans with (x :: order_by leb r).
    + apply insert_by_perm.
    + apply perm_skip, IH.
Qed.

Lemma order_by_In (l : list A) (x : A) : In x (order_by leb l) <-> In x l.
Proof.
  split; apply Permutation_in.
  - apply order_by_perm.
  - apply Permutation_sym, order_by_perm.
Qed.

Lemma order_by_nil (l : list A) : order_by leb l = [] -> l = [].
Proof.
  intros H. apply Permutation_nil. rewrite <- H. apply order_by_perm.
Qed.

Hypothesis leb_total : forall x y, leb x y = false -> leb y x = true.

Lemma insert_by_hd (x z : A) (l : list A) :
  R z x -> HdRel R z l -> HdRel R z (insert_by leb x l).
Proof.
  intros Hzx Hzl. destruct l as [|y r]; simpl.
  - constructor. exact Hzx.
  - destruct (leb x y); constructor.
    + exact Hzx.
    + inversion Hzl; assumption.
Qed.

Lemma insert_by_sorted (x : A) (l : list A) :
  Sorted R l -> Sorted R (insert_by leb x l).
Proof.
  induction l as [|y r IH]; simpl; intros Hs.
  - repeat constructor.
  - destruct (leb x y) eqn:E.
    + constructor; [exact Hs | constructor; exact E].
    + inversion Hs as [|? ? Hr Hhd]; subst.
      constructor.
      * apply IH, Hr.
      * apply insert_by_hd; [apply leb_total, E | exact Hhd].
Qed.

Lemma order_by_sorted (l : list A) : Sorted R (order_by leb l).
Proof.
  induction l as [|x r IH]; simpl.
  - constructor.
  - apply insert_by_sorted, IH.
Qed.

Hypothesis leb_trans : forall x y z, leb x y = true -> leb y z = true -> leb x z = true.

Lemma order_by_strongly_sorted (l : list A) : StronglySorted R (order_by leb l).
Proof.
  apply Sorted_StronglySorted.
  - intros x y z. apply leb_trans.
  - apply order_by_sorted.
Qed.

(** [ORDER BY ... LIMIT 1] returns a row that no other row precedes. *)
Lemma limit_1_order_by_least (l : list A) (x : A) :
  limit_1 (order_by leb l) = Some x ->
  In x l /\ forall y, In y l -> leb x y = true.
Proof.
  intros H.
  pose proof (order_by_strongly_sorted l) as Hs.
  destruct (order_by leb l) as [|h r] eqn:E; simpl in H; [discriminate|].
  injection H as ->.
  split.
  - apply order_by_In. rewrite E. left; reflexivity.
  - intros y Hy. apply order_by_In in Hy. rewrite E in Hy.
    inversion Hs as [|? ? _ Hall]; subst.
    destruct Hy as [<-|Hy].
    + destruct (leb x x) eqn:Exx; [reflexivity|].
      pose proof (leb_total _ _ Exx) as Hxx. congruence.
    + rewrite Forall_forall in Hall. apply Hall, Hy.
Qed.
End SortingFacts.

Lemma limit_1_order_by_none {A : Type} (leb : A -> A -> bool) (l : list A) :
  limit_1 (order_by leb l) = None <-> l = [].
Proof.
  split.
  - intros H. apply (order_by_nil leb).
    destruct (order_by leb l); [reflexivity | discriminate].
  - intros ->. reflexivity.
Qed.

Lemma StronglySorted_weaken {A : Type} (R R' : A -> A -> Prop) (l : list A) :
  (forall a b, R a b -> R' a b) -> StronglySorted R l -> StronglySorted R' l.
Proof.
  intros Himp Hs. induction Hs as [|x r Hs IH Hall]; constructor.
  - exact IH.
  - eapply Forall_impl; [|exact Hall]. intros b. apply Himp.
Qed.

(** * The database setters *)

Lemma set_assignments_same (d : DB) : set_assignments (reservation_table_assignments d) d = d.
Proof. destruct d; reflexivity. Qed.

Lemma set_reservations_same (d : DB) : set_reservations (reservations d) d = d.
Proof. destruct d; reflexivity. Qed.

(** * Running PL/pgSQL bodies *)

Lemma run_select {L A B} (q : DB -> A) (k : A -> plpgsql L B) flt m :
  (x <- select_into q ;; k x) flt m =
  if flt (m_count m) then (Raised "statement failed", tick m)
  else k (q (m_db m)) flt (tick m).
Proof.
  unfold bind, select_into, statement, tick. destruct (flt (m_count m)); reflexivity.
Qed.

Lemma run_execute {L B} (w : DB -> DB) (k : plpgsql L B) flt m :
  (execute w ;; k) flt m =
  if flt (m_count m) then (Raised "statement failed", tick m)
  else k flt (mk_machine (w (m_db m)) (S (m_count m)) (m_vars m)).
Proof.
  unfold bind, execute, statement, tick. destruct (flt (m_count m)); reflexivity.
Qed.

Lemma run_ret {L A B} (a : A) (k : A -> plpgsql L B) flt m :
  (x <- ret a ;; k x) flt m = k a flt m.
Proof. reflexivity. Qed.

(** * The allocator *)

Section AllocationFacts.
Variables (rid : uuid) (p_date : date) (p_start_at p_end_at : timestamptz) (p_guests : Z).

Local Abbreviation fits_table := (table_fits p_date p_start_at p_end_at p_guests).
Local Abbreviation fits_comb := (combination_fits p_date p_start_at p_end_at p_guests).
Local Abbreviation single := (single_table_query p_date p_start_at p_end_at p_guests).
Local Abbreviation comb := (combination_query p_date p_start_at p_end_at p_guests).
Local Abbreviation find := (search p_date p_start_at p_end_at p_guests).
Local Abbreviation cost := (statements_run p_date p_start_at p_end_at p_guests).
Local Abbreviation rows_for ids := (map (mk_assignment rid) ids).
Local Abbreviation nothing_fits := (nothing_fits p_date p_start_at p_end_at p_guests).

Lemma single_table_query_some (d : DB) (z : zone) (t : table) :
  single z d = Some t ->
  In t (tables d) /\ fits_table d z t = true /\
  forall t', In t' (tables d) -> fits_table d z t' = true -> t_capacity t <= t_capacity t'.
Proof.
  unfold single_table_query. intros H.
  apply limit_1_order_by_least in H.
  - destruct H as [Hin Hmin]. apply filter_In in Hin. destruct Hin as [Hin Hfit].
    repeat split; try assumption.
    intros t' Hin' Hfit'. apply Z.leb_le, Hmin, filter_In. split; assumption.
  - intros x y E. apply Z.leb_gt in E. apply Z.leb_le. lia.
  - intros x y w H1 H2. apply Z.leb_le in H1, H2. apply Z.leb_le. lia.
Qed.

Lemma single_table_query_none (d : DB) (z : zone) :
  single z d = None <-> forall t, In t (tables d) -> fits_table d z t = false.
Proof.
  unfold single_table_query. rewrite limit_1_order_by_none. split.
  - intros H t Hin. destruct (fits_table d z t) eqn:E; [|reflexivity].
    assert (Hf : In t (filter (fits_table d z) (tables d))) by (apply filter_In; auto).
    rewrite H in Hf. destruct Hf.
  - intros H. destruct (filter (fits_table d z) (tables d)) as [|t r] eqn:E; [reflexivity|].
    assert (Hf : In t (filter (fits_table d z) (tables d))) by (rewrite E; left; reflexivity).
    apply filter_In in Hf. destruct Hf as [Hin Hfit]. rewrite (H t Hin) in Hfit. discriminate.
Qed.

Lemma combination_query_some (d : DB) (z : zone) (tc : table_combination) :
  comb z d = Some tc ->
  In tc (table_combinations d) /\ fits_comb d z tc = true /\
  forall tc', In tc' (table_combinations d) -> fits_comb d z tc' = true ->
              tc_total_capacity tc <= tc_total_capacity tc'.
Proof.
  unfold combination_query. intros H.
  apply limit_1_order_by_least in H.
  - destruct H as [Hin Hmin]. apply filter_In in Hin. destruct Hin as [Hin Hfit].
    repeat split; try assumption.
    intros t' Hin' Hfit'. apply Z.leb_le, Hmin, filter_In. split; assumption.
  - intros x y E. apply Z.leb_gt in E. apply Z.leb_le. lia.
  - intros x y w H1 H2. apply Z.leb_le in H1, H2. apply Z.leb_le. lia.
Qed.

Lemma combination_query_none (d : DB) (z : zone) :
  comb z d = None <-> forall tc, In tc (table_combinations d) -> fits_comb d z tc = false.
Proof.
  unfold combination_query. rewrite limit_1_order_by_none. split.
  - intros H t Hin. destruct (fits_comb d z t) eqn:E; [|reflexivity].
    assert (Hf : In t (filter (fits_comb d z) (table_combinations d)))
      by (apply filter_In; auto).
    rewrite H in Hf. destruct Hf.
  - intros H. destruct (filter (fits_comb d z) (table_combinations d)) as [|t r] eqn:E;
      [reflexivity|].
    assert (Hf : In t (filter (fits_comb d z) (table_combinations d)))
      by (rewrite E; left; reflexivity).
    apply filter_In in Hf. destruct Hf as [Hin Hfit]. rewrite (H t Hin) in Hfit. discriminate.
Qed.

(** What [WHERE] of the two strategies says about a row that passes it. *)
Lemma table_fits_true (d : DB) (z : zone) (t : table) :
  fits_table d z t = true <->
  t_is_active t = true /\ t_zone_id t = Some (z_id z) /\ p_guests <= t_capacity t /\
  is_table_available d (t_id t) p_date p_start_at p_end_at None = true.
Proof.
  unfold table_fits, null_eqb, uuid_eqb. rewrite !andb_true_iff, Z.geb_le.
  destruct (t_zone_id t) as [i|].
  - rewrite Z.eqb_eq. split.
    + intros [[[Ha Hz] Hc] Hv]. subst. auto.
    + intros (Ha & Hz & Hc & Hv). injection Hz as ->. auto.
  - split.
    + intros [[[_ Hz] _] _]. discriminate.
    + intros (_ & Hz & _). discriminate.
Qed.

Lemma combination_fits_true (d : DB) (z : zone) (tc : table_combination) :
  fits_comb d z tc = true <->
  tc_is_active tc = true /\ tc_zone_id tc = Some (z_id z) /\
  p_guests <= tc_total_capacity tc /\
  Forall (fun id => is_table_available d id p_date p_start_at p_end_at None = true)
         (tc_table_ids tc).
Proof.
  unfold combination_fits, null_eqb, uuid_eqb.
  rewrite !andb_true_iff, Z.geb_le, negb_true_iff.
  assert (Hall : existsb (fun id => negb (is_table_available d id p_date p_start_at p_end_at None))
                         (tc_table_ids tc) = false <->
                 Forall (fun id => is_table_available d id p_date p_start_at p_end_at None = true)
                        (tc_table_ids tc)).
  { induction (tc_table_ids tc) as [|i r IH]; simpl.
    - split; auto.
    - rewrite orb_false_iff, negb_false_iff, IH. split.
      + intros [H1 H2]. constructor; assumption.
      + intros H. inversion H; subst. auto. }
  rewrite Hall. clear Hall.
  destruct (tc_zone_id tc) as [i|].
  - rewrite Z.eqb_eq. split.
    + intros [[[Ha Hz] Hc] Hv]. subst. auto.
    + intros (Ha & Hz & Hc & Hv). injection Hz as ->. auto.
  - split.
    + intros [[[_ Hz] _] _]. discriminate.
    + intros (_ & Hz & _). discriminate.
Qed.

(** ** The loop refines [search] *)

Lemma assign_each_returns (ids : list uuid) :
  forall acc flt m out m',
    assign_each rid ids acc flt m = (Returned out, m') ->
    out = acc ++ ids /\
    m_db m' = set_assignments (reservation_table_assignments (m_db m) ++ rows_for ids) (m_db m) /\
    m_count m' = (m_count m + List.length ids)%nat.
Proof.
  induction ids as [|i r IH]; intros acc flt m out m' H; simpl in H.
  - unfold ret in H. injection H as <- <-. simpl.
    rewrite !app_nil_r, set_assignments_same. auto.
  - rewrite run_execute in H.
    destruct (flt (m_count m)); [discriminate|].
    apply IH in H. simpl in H. destruct H as (-> & Hdb & Hc).
    rewrite <- app_assoc. simpl. split; [reflexivity|]. split.
    + rewrite Hdb. unfold insert_assignment. simpl.
      rewrite <- app_assoc. reflexivity.
    + lia.
Qed.

Lemma zone_loop_returns (zs : list zone) :
  forall flt m ids m',
    zone_loop rid p_date p_start_at p_end_at p_guests zs flt m = (Returned ids, m') ->
    ids = assigned_ids (find (m_db m) zs) /\
    m_db m' = set_assignments (reservation_table_assignments (m_db m) ++ rows_for ids) (m_db m) /\
    m_count m' = (m_count m + cost (m_db m) zs)%nat.
Proof.
  induction zs as [|z rest IH]; intros flt m ids m' H; simpl in H.
  - unfold ret in H. injection H as <- <-. simpl.
    rewrite app_nil_r, set_assignments_same. auto.
  - rewrite run_select in H.
    destruct (flt (m_count m)); [discriminate|]. simpl.
    destruct (single z (m_db m)) as [t|] eqn:Es.
    + rewrite run_execute in H. simpl in H.
      destruct (flt (S (m_count m))); [discriminate|].
      unfold ret in H. injection H as <- <-. simpl.
      split; [reflexivity|]. split; [reflexivity|]. lia.
    + rewrite run_select in H. simpl in H.
      destruct (flt (S (m_count m))); [discriminate|].
      destruct (comb z (m_db m)) as [tc|] eqn:Ec.
      * apply assign_each_returns in H. simpl in H.
        destruct H as (-> & Hdb & Hc). simpl. auto with zarith.
      * apply IH in H. simpl in H. destruct H as (-> & Hdb & Hc).
        split; [reflexivity|]. split; [exact Hdb|]. lia.
Qed.

(** When no statement fails the loop does return. *)
Lemma assign_each_no_faults (ids : list uuid) :
  forall acc m, exists m', assign_each rid ids acc no_faults m = (Returned (acc ++ ids), m').
Proof.
  induction ids as [|i r IH]; intros acc m; simpl.
  - exists m. rewrite app_nil_r. reflexivity.
  - rewrite run_execute. simpl.
    destruct (IH (acc ++ [i]) (mk_machine (insert_assignment rid i (m_db m)) (S (m_count m)) (m_vars m)))
      as [m' Hm'].
    exists m'. rewrite Hm', <- app_assoc. reflexivity.
Qed.

Lemma zone_loop_no_faults (zs : list zone) :
  forall m, exists ids m',
    zone_loop rid p_date p_start_at p_end_at p_guests zs no_faults m = (Returned ids, m').
Proof.
  induction zs as [|z rest IH]; intros m; simpl.
  - eexists _, _. reflexivity.
  - rewrite run_select. simpl.
    destruct (single z (m_db m)) as [t|].
    + eexists _, _. reflexivity.
    + rewrite run_select. simpl.
      destruct (comb z (m_db m)) as [tc|].
      * destruct (assign_each_no_faults (tc_table_ids tc) []
                   (mk_machine (m_db m) (S (S (m_count m))) (m_vars m))) as [m' Hm'].
        eexists _, _. exact Hm'.
      * apply IH.
Qed.

(** ** What [search] finds *)

Lemma search_cases (d : DB) (zs : list zone) :
  match find d zs with
  | NoAssignment =>
      Forall (nothing_fits d) zs /\ cost d zs = (2 * List.length zs)%nat
  | SingleTable z t =>
      exists before after,
        zs = before ++ z :: after /\ Forall (nothing_fits d) before /\
        single z d = Some t /\
        cost d zs = (2 * List.length before + 2)%nat
  | Combination z tc =>
      exists before after,
        zs = before ++ z :: after /\ Forall (nothing_fits d) before /\
        single z d = None /\ comb z d = Some tc /\
        cost d zs = (2 * List.length before + 2 + List.length (tc_table_ids tc))%nat
  end.
Proof.
  induction zs as [|z rest IH]; simpl.
  - split; [constructor | reflexivity].
  - destruct (single z d) as [t|] eqn:Es.
    + exists [], rest. repeat split; auto.
    + destruct (comb z d) as [tc|] eqn:Ec.
      * exists [], rest. repeat split; auto.
      * assert (Hz : nothing_fits d z).
        { split; [apply single_table_query_none, Es | apply combination_query_none, Ec]. }
        destruct (find d rest) as [|z' t'|z' tc'].
        -- destruct IH as [Hall Hc]. split; [constructor; assumption | lia].
        -- destruct IH as (b & a & -> & Hall & Hs & Hc).
           exists (z :: b), a. repeat split; auto. simpl. lia.
        -- destruct IH as (b & a & -> & Hall & Hs & Hcq & Hc).
           exists (z :: b), a. repeat split; auto. simpl. lia.
Qed.
End AllocationFacts.

Section AssignFacts.
Variables (rid : uuid) (p_date : date) (p_start_at p_end_at : timestamptz) (p_guests : Z).

Local Abbreviation assign := (assign_tables_to_reservation rid p_date p_start_at p_end_at p_guests).
Local Abbreviation find := (search p_date p_start_at p_end_at p_guests).
Local Abbreviation cost := (statements_run p_date p_start_at p_end_at p_guests).

Lemma assign_returns (pref : option uuid) flt (m : machine unit) ids m' :
  assign pref flt m = (Returned ids, m') ->
  ids = assigned_ids (find (m_db m) (zones_to_search pref (m_db m))) /\
  m_db m' = set_assignments (reservation_table_assignments (m_db m)
                               ++ map (mk_assignment rid) ids) (m_db m) /\
  m_count m' = (m_count m + 1 + cost (m_db m) (zones_to_search pref (m_db m)))%nat.
Proof.
  unfold assign_tables_to_reservation, exception_block.
  rewrite run_select.
  destruct (flt (m_count m)).
  - rewrite run_execute. simpl. destruct (flt (S (m_count m))); discriminate.
  - match goal with |- context [zone_loop ?a ?b ?c ?d ?e ?zs ?f ?mm] =>
      destruct (zone_loop a b c d e zs f mm) as [[out|err] m1] eqn:E end.
    + intros H. injection H as <- <-.
      apply zone_loop_returns in E. simpl in E.
      destruct E as (? & ? & ?). repeat split; try assumption. lia.
    + rewrite run_execute. simpl. destruct (flt (m_count m1)); discriminate.
Qed.

Lemma assign_no_faults (pref : option uuid) (m : machine unit) :
  exists ids m', assign pref no_faults m = (Returned ids, m').
Proof.
  unfold assign_tables_to_reservation, exception_block.
  rewrite run_select. simpl.
  destruct (zone_loop_no_faults rid p_date p_start_at p_end_at p_guests
              (zones_to_search pref (m_db m)) (tick m)) as (ids & m' & H).
  rewrite H. eauto.
Qed.

(** An allocation that returns no table leaves the database untouched. *)
Lemma assign_returns_nothing (pref : option uuid) flt (m : machine unit) m' :
  assign pref flt m = (Returned [], m') -> m_db m' = m_db m.
Proof.
  intros H. apply assign_returns in H. destruct H as (_ & Hdb & _).
  rewrite Hdb. simpl. rewrite app_nil_r. apply set_assignments_same.
Qed.

(** However the function returned, it ended in one of the three ways of
    [loop_outcome], after the zone query and the statements of the loop. *)
Lemma assign_loop_outcome (pref : option uuid) flt (m : machine unit) ids m' :
  assign pref flt m = (Returned ids, m') ->
  exists n,
    loop_outcome rid p_date p_start_at p_end_at p_guests
                 (m_db m) (zones_to_search pref (m_db m)) ids (m_db m') n /\
    m_count m' = (m_count m + 1 + n)%nat.
Proof.
  intros H. apply assign_returns in H. destruct H as (Hids & Hdb & Hc).
  pose proof (search_cases p_date p_start_at p_end_at p_guests
                           (m_db m) (zones_to_search pref (m_db m))) as Hs.
  exists (cost (m_db m) (zones_to_search pref (m_db m))). split; [|exact Hc].
  rewrite Hdb, Hids. clear Hdb Hids Hc.
  destruct (find (m_db m) (zones_to_search pref (m_db m))) as [|z t|z tc]; simpl.
  - destruct Hs as [Hall ->]. rewrite app_nil_r, set_assignments_same.
    apply nothing_assigned, Hall.
  - destruct Hs as (b & a & Hzs & Hall & Hq & ->).
    apply single_table_query_some in Hq. destruct Hq as (Hin & Hfit & _).
    eapply single_assigned; eassumption.
  - destruct Hs as (b & a & Hzs & Hall & Hq1 & Hq2 & ->).
    apply combination_query_some in Hq2. destruct Hq2 as (Hin & Hfit & _).
    eapply combination_assigned; try eassumption.
    + apply single_table_query_none, Hq1.
    + apply combination_fits_true in Hfit. tauto.
Qed.

Lemma zones_to_search_In (pref : option uuid) (d : DB) (z : zone) :
  In z (zones_to_search pref d) <-> In z (zones d) /\ zone_filter pref z = true.
Proof.
  unfold zones_to_search. rewrite order_by_In, filter_In. reflexivity.
Qed.
End AssignFacts.

(** * Claims about the allocator *)

(** C5.  Within each zone the single-table strategy runs first and the
    combination strategy only when no single table of the zone fits; the
    first success ends the search (the statement count shows that nothing is
    executed after it); the returned list is the sole table, or all member
    tables of the chosen combination, every one of which is available. *)
Theorem single_table_then_combination_then_next_zone :
  forall rid p_date p_start_at p_end_at p_guests pref flt (m : machine unit) ids m',
    assign_tables_to_reservation rid p_date p_start_at p_end_at p_guests pref flt m
    = (Returned ids, m') ->
    exists n,
      loop_outcome rid p_date p_start_at p_end_at p_guests
                   (m_db m) (zones_to_search pref (m_db m)) ids (m_db m') n /\
      m_count m' = (m_count m + 1 + n)%nat.
Proof.
  intros. eapply assign_loop_outcome. eassumption.
Qed.

Lemma single_table_then_combination_then_next_zone_witness :
  let m := Scenario.fresh Scenario.small_tables tt in
  exists m',
    assign_tables_to_reservation 100 0 0 5400 6 None no_faults m
    = (Returned [12; 13], m') /\
    exists n,
      loop_outcome 100 0 0 5400 6
                   (m_db m) (zones_to_search None (m_db m)) [12; 13] (m_db m') n /\
      m_count m' = (m_count m + 1 + n)%nat.
Proof.
  intros m. eexists. split.
  - vm_compute. reflexivity.
  - apply (single_table_then_combination_then_next_zone
             100 0 0 5400 6 None no_faults m [12; 13]).
    vm_compute. reflexivity.
Defined.

(** C4 as worded fails: a table for eight is assigned to a party of five
    although the zone has a free combination that seats six. *)
Lemma larger_table_beats_smaller_combination :
  ~ tightest_over_tables_and_combinations.
Proof.
  intros H.
  pose (m := Scenario.fresh Scenario.with_combination tt).
  assert (Hrun : exists m', assign_tables_to_reservation 100 0 0 5400 5 None no_faults m
                            = (Returned [11], m')).
  { eexists. vm_compute. reflexivity. }
  destruct Hrun as [m' Hrun].
  specialize (H 100 0 0 5400 5 None no_faults m m' Scenario.interior
                (mk_table 11 "I1" 8 None (Some 1) true) Hrun).
  assert (Hle : 8 <= 6).
  { apply (H (or_introl eq_refl) (or_introl eq_refl) eq_refl
             (mk_comb 51 [12; 13] 6 (Some 1) true) (or_introl eq_refl) eq_refl). }
  lia.
Qed.

(** C4, amended.  A successful allocation assigns a table or a combination of
    capacity at least the party size; an assigned table has the smallest
    capacity among the fitting tables of its zone, and an assigned combination
    has the smallest total capacity among the fitting combinations of its
    zone, in which no single table fits. *)
Theorem assigned_capacity_is_tightest_of_its_strategy :
  forall rid p_date p_start_at p_end_at p_guests pref flt (m : machine unit) ids m',
    assign_tables_to_reservation rid p_date p_start_at p_end_at p_guests pref flt m
    = (Returned ids, m') ->
    ids <> [] ->
    exists z, In z (zones_to_search pref (m_db m)) /\
      ((exists t,
           In t (tables (m_db m)) /\ ids = [t_id t] /\
           table_fits p_date p_start_at p_end_at p_guests (m_db m) z t = true /\
           p_guests <= t_capacity t /\
           forall t', In t' (tables (m_db m)) ->
                      table_fits p_date p_start_at p_end_at p_guests (m_db m) z t' = true ->
                      t_capacity t <= t_capacity t')
       \/
       (exists tc,
           In tc (table_combinations (m_db m)) /\ ids = tc_table_ids tc /\
           combination_fits p_date p_start_at p_end_at p_guests (m_db m) z tc = true /\
           p_guests <= tc_total_capacity tc /\
           (forall tc', In tc' (table_combinations (m_db m)) ->
                        combination_fits p_date p_start_at p_end_at p_guests (m_db m) z tc' = true ->
                        tc_total_capacity tc <= tc_total_capacity tc') /\
           (forall t', In t' (tables (m_db m)) ->
                       table_fits p_date p_start_at p_end_at p_guests (m_db m) z t' = false))).
Proof.
  intros rid p_date p_start_at p_end_at p_guests pref flt m ids m' Hrun Hne.
  apply assign_returns in Hrun. destruct Hrun as (Hids & _ & _).
  pose proof (search_cases p_date p_start_at p_end_at p_guests
                           (m_db m) (zones_to_search pref (m_db m))) as Hs.
  destruct (search p_date p_start_at p_end_at p_guests (m_db m)
                   (zones_to_search pref (m_db m))) as [|z t|z tc]; simpl in Hids.
  - contradiction.
  - destruct Hs as (b & a & Hzs & _ & Hq & _).
    exists z. split; [rewrite Hzs; apply in_elt|]. left. exists t.
    apply single_table_query_some in Hq. destruct Hq as (Hin & Hfit & Hmin).
    pose proof (proj1 (table_fits_true _ _ _ _ _ _ _) Hfit) as (_ & _ & Hcap & _).
    auto.
  - destruct Hs as (b & a & Hzs & _ & Hq1 & Hq2 & _).
    exists z. split; [rewrite Hzs; apply in_elt|]. right. exists tc.
    apply combination_query_some in Hq2. destruct Hq2 as (Hin & Hfit & Hmin).
    pose proof (proj1 (combination_fits_true _ _ _ _ _ _ _) Hfit) as (_ & _ & Hcap & _).
    repeat split; auto. apply single_table_query_none, Hq1.
Qed.

Lemma assigned_capacity_is_tightest_of_its_strategy_witness :
  let m := Scenario.fresh Scenario.with_combination tt in
  exists z, In z (zones_to_search None (m_db m)) /\
    ((exists t,
         In t (tables (m_db m)) /\ [11] = [t_id t] /\
         table_fits 0 0 5400 5 (m_db m) z t = true /\
         5 <= t_capacity t /\
         forall t', In t' (tables (m_db m)) ->
                    table_fits 0 0 5400 5 (m_db m) z t' = true ->
                    t_capacity t <= t_capacity t')
     \/
     (exists tc,
         In tc (table_combinations (m_db m)) /\ [11] = tc_table_ids tc /\
         combination_fits 0 0 5400 5 (m_db m) z tc = true /\
         5 <= tc_total_capacity tc /\
         (forall tc', In tc' (table_combinations (m_db m)) ->
                      combination_fits 0 0 5400 5 (m_db m) z tc' = true ->
                      tc_total_capacity tc <= tc_total_capacity tc') /\
         (forall t', In t' (tables (m_db m)) ->
                     table_fits 0 0 5400 5 (m_db m) z t' = false))).
Proof.
  intros m.
  eapply (assigned_capacity_is_tightest_of_its_strategy
            100 0 0 5400 5 None no_faults m [11]).
  - vm_compute. reflexivity.
  - discriminate.
Defined.




(** * The reservation transaction *)

Lemma run_set_vars {L B} (v : L) (k : plpgsql L B) flt m :
  (set_vars v ;; k) flt m = k flt (mk_machine (m_db m) (m_count m) v).
Proof. reflexivity. Qed.

Lemma run_call {L L' A B} (callee : plpgsql L' A) (frame : L') (k : A -> plpgsql L B) flt m :
  (x <- call callee frame ;; k x) flt m =
  match callee flt (mk_machine (m_db m) (m_count m) frame) with
  | (Returned a, m') => k a flt (mk_machine (m_db m') (m_count m') (m_vars m))
  | (Raised e, m') => (Raised e, mk_machine (m_db m') (m_count m') (m_vars m))
  end.
Proof.
  unfold bind, call.
  destruct (callee flt (mk_machine (m_db m) (m_count m) frame)) as [[a|e] m']; reflexivity.
Qed.

Lemma delete_reservation_fresh (id : uuid) (d : DB) :
  (forall r, In r (reservations d) -> r_id r <> id) ->
  delete_reservation id d = d.
Proof.
  intros Hfresh. unfold delete_reservation.
  replace (filter (fun r => negb (uuid_eqb (r_id r) id)) (reservations d))
    with (reservations d); [apply set_reservations_same|].
  induction (reservations d) as [|r rs IH]; simpl; [reflexivity|].
  assert (Hr : uuid_eqb (r_id r) id = false).
  { apply Z.eqb_neq, Hfresh. left; reflexivity. }
  rewrite Hr. simpl. f_equal. apply IH. intros r' Hin. apply Hfresh. right; exact Hin.
Qed.

Lemma delete_inserted_reservation (r : reservation) (d : DB) :
  (forall r', In r' (reservations d) -> r_id r' <> r_id r) ->
  delete_reservation (r_id r) (insert_reservation r d) = d.
Proof.
  intros Hfresh. unfold delete_reservation, insert_reservation. simpl.
  rewrite filter_app. simpl. unfold uuid_eqb at 2. rewrite Z.eqb_refl. simpl.
  rewrite app_nil_r.
  pose proof (delete_reservation_fresh (r_id r) d Hfresh) as H.
  unfold delete_reservation in H. exact H.
Qed.

Section CreateFacts.
Variable at_madrid : date -> time -> timestamptz.
Variable check_diners_limit : DB -> date -> time -> Z -> json.
Variables (new_id p_customer_id : uuid) (p_date : date) (p_time : time)
          (p_guests : Z) (p_special_requests : option string)
          (p_duration_minutes : Z) (p_preferred_zone_id : option uuid).

Local Abbreviation body :=
  (create_reservation_body at_madrid check_diners_limit new_id p_customer_id p_date p_time
                           p_guests p_special_requests p_duration_minutes p_preferred_zone_id).

Ltac fault_or_go H :=
  match type of H with
  | (if ?f ?c then _ else _) = _ =>
      destruct (f c); [injection H as <- <-; simpl; auto|]
  end.

(** The body either fails before anything is written, or undoes its insert,
    or succeeds; the variable holds nothing but the new id. *)
Lemma create_body_outcome flt (m : machine (option uuid)) o m1 :
  m_vars m = None ->
  (forall r, In r (reservations (m_db m)) -> r_id r <> new_id) ->
  body flt m = (o, m1) ->
  (m_vars m1 = None \/ m_vars m1 = Some new_id) /\
  match o with
  | Returned j => j_success j = Some false -> m_db m1 = m_db m
  | Raised _ => True
  end.
Proof.
  intros Hv Hfresh H. unfold create_reservation_body in H.
  rewrite run_select in H. fault_or_go H.
  destruct (existsb (closes p_date) (special_closed_days (m_db m))).
  { unfold ret in H. injection H as <- <-. simpl. auto. }
  rewrite run_select in H. simpl in H. fault_or_go H.
  assert (Hnext : forall (in_hours : bool) (m0 : machine (option uuid)),
             m_vars m0 = None -> m_db m0 = m_db m ->
             (if negb in_hours then ret (failure "Restaurant is closed at selected time") else
              v_diners_check <- select_into (fun d => check_diners_limit d p_date p_time p_guests) ;;
              match j_success v_diners_check with
              | Some false => ret v_diners_check
              | _ =>
                execute (insert_reservation
                   (mk_reservation new_id p_customer_id p_date p_time p_guests "confirmed"
                      p_special_requests (at_madrid p_date p_time)
                      (at_madrid p_date p_time + p_duration_minutes * 60) p_duration_minutes)) ;;
                set_vars (Some new_id) ;;
                v_assigned_tables <-
                  call (assign_tables_to_reservation new_id p_date (at_madrid p_date p_time)
                          (at_madrid p_date p_time + p_duration_minutes * 60)
                          p_guests p_preferred_zone_id) tt ;;
                if (List.length v_assigned_tables =? 0)%nat then
                  execute (delete_reservation new_id) ;;
                  ret (failure "No hay mesas disponibles para esta capacidad en el horario solicitado")
                else
                  ret (mk_json (Some true) None (Some "Reserva creada exitosamente"%string)
                               (Some new_id) (Some v_assigned_tables))
              end) flt m0 = (o, m1) ->
             (m_vars m1 = None \/ m_vars m1 = Some new_id) /\
             match o with
             | Returned j => j_success j = Some false -> m_db m1 = m_db m
             | Raised _ => True
             end).
  { clear H. intros in_hours m0 Hv0 Hdb0 H.
    destruct in_hours; simpl in H.
    2:{ unfold ret in H. injection H as <- <-. simpl. auto. }
    rewrite run_select in H. fault_or_go H.
    assert (Hgo : (execute (insert_reservation
                   (mk_reservation new_id p_customer_id p_date p_time p_guests "confirmed"
                      p_special_requests (at_madrid p_date p_time)
                      (at_madrid p_date p_time + p_duration_minutes * 60) p_duration_minutes)) ;;
                set_vars (Some new_id) ;;
                v_assigned_tables <-
                  call (assign_tables_to_reservation new_id p_date (at_madrid p_date p_time)
                          (at_madrid p_date p_time + p_duration_minutes * 60)
                          p_guests p_preferred_zone_id) tt ;;
                if (List.length v_assigned_tables =? 0)%nat then
                  execute (delete_reservation new_id) ;;
                  ret (failure "No hay mesas disponibles para esta capacidad en el horario solicitado")
                else
                  ret (mk_json (Some true) None (Some "Reserva creada exitosamente"%string)
                               (Some new_id) (Some v_assigned_tables))) flt (tick m0) = (o, m1) ->
             (m_vars m1 = None \/ m_vars m1 = Some new_id) /\
             match o with
             | Returned j => j_success j = Some false -> m_db m1 = m_db m
             | Raised _ => True
             end).
    { clear H. intros H.
      rewrite run_execute in H. fault_or_go H.
      rewrite run_set_vars in H. rewrite run_call in H. simpl in H.
      match type of H with
      | match ?c with _ => _ end = _ => destruct c as [[ids|e] m2] eqn:Ha
      end.
      - destruct ids as [|i ids]; simpl in H.
        + apply assign_returns_nothing in Ha. simpl in Ha.
          rewrite run_execute in H. simpl in H. fault_or_go H.
          unfold ret in H. injection H as <- <-. simpl. split; [auto|].
          intros _. rewrite Ha, Hdb0.
          apply (delete_inserted_reservation
                   (mk_reservation new_id p_customer_id p_date p_time p_guests "confirmed"
                      p_special_requests (at_madrid p_date p_time)
                      (at_madrid p_date p_time + p_duration_minutes * 60) p_duration_minutes)).
          exact Hfresh.
        + unfold ret in H. injection H as <- <-. simpl. split; [auto|]. discriminate.
      - injection H as <- <-. simpl. auto. }
    destruct (j_success (check_diners_limit (m_db m0) p_date p_time p_guests))
      as [[|]|] eqn:Ej.
    - apply Hgo, H.
    - unfold ret in H. injection H as <- <-. simpl. split; [auto|]. intros _. exact Hdb0.
    - apply Hgo, H. }
  destruct (limit_1 (filter (fun s => (ssd_date s =? p_date) && ssd_is_active s)
                            (special_schedule_days (m_db m)))) as [s|].
  - rewrite run_ret in H. eapply Hnext; [| |exact H]; simpl; auto.
  - rewrite run_select in H. simpl in H. fault_or_go H.
    eapply Hnext; [| |exact H]; simpl; auto.
Qed.
End CreateFacts.

(** C2.  [create_reservation_with_assignment] is all-or-nothing: whatever
    statements fail, when the result says [success = false] the database is
    the one the call started from, so neither the reservation row nor any
    assignment row of the attempt remains.  [new_id], the generated key, is
    not the id of an existing reservation. *)
Theorem create_reservation_is_all_or_nothing :
  forall at_madrid check_diners_limit new_id p_customer_id p_date p_time p_guests
         p_special_requests p_duration_minutes p_preferred_zone_id
         flt (m : machine (option uuid)) j m',
    (forall r, In r (reservations (m_db m)) -> r_id r <> new_id) ->
    create_reservation_with_assignment at_madrid check_diners_limit new_id p_customer_id
      p_date p_time p_guests p_special_requests p_duration_minutes p_preferred_zone_id flt m
    = (Returned j, m') ->
    j_success j = Some false ->
    m_db m' = m_db m.
Proof.
  intros at_madrid check_diners_limit new_id p_customer_id p_date p_time p_guests
         p_special_requests p_duration_minutes p_preferred_zone_id flt m j m' Hfresh Hrun Hfail.
  unfold create_reservation_with_assignment in Hrun.
  rewrite run_set_vars in Hrun. unfold exception_block in Hrun.
  match type of Hrun with
  | match ?c with _ => _ end = _ => destruct c as [[j1|e] m1] eqn:Hbody
  end.
  - injection Hrun as <- <-.
    apply create_body_outcome in Hbody; [|reflexivity|exact Hfresh].
    destruct Hbody as [_ Hdb]. apply Hdb, Hfail.
  - apply create_body_outcome in Hbody; [|reflexivity|exact Hfresh].
    destruct Hbody as [Hvars _]. simpl in Hrun.
    unfold create_reservation_handler in Hrun.
    unfold bind at 1 in Hrun. unfold bind at 1 in Hrun. unfold get_vars in Hrun.
    simpl in Hrun.
    destruct Hvars as [Hv|Hv]; rewrite Hv in Hrun.
    + unfold ret in Hrun. injection Hrun as <- <-. reflexivity.
    + unfold execute, statement in Hrun. simpl in Hrun.
      destruct (flt (m_count m1)); [discriminate|].
      unfold ret in Hrun. injection Hrun as <- <-. simpl.
      apply delete_reservation_fresh, Hfresh.
Qed.

(** The statement that inserts the second assignment row of the combination
    fails: the reservation row and the first assignment row, written just
    before, are gone from the result. *)
Lemma create_reservation_is_all_or_nothing_witness :
  let m := Scenario.fresh Scenario.small_tables (@None uuid) in
  let flt := fun n => Nat.eqb n 9 in
  exists j m',
    create_reservation_with_assignment Scenario.madrid Scenario.diners_ok 100 7
      Scenario.thursday Scenario.eight_pm 6 None 90 None flt m = (Returned j, m') /\
    j_success j = Some false /\
    m_db m' = m_db m.
Proof.
  intros m flt. eexists _, _. split; [vm_compute; reflexivity|]. split; [reflexivity|].
  eapply (create_reservation_is_all_or_nothing Scenario.madrid Scenario.diners_ok 100 7
            Scenario.thursday Scenario.eight_pm 6 None 90 None flt m).
  - simpl. intros r [].
  - vm_compute. reflexivity.
  - reflexivity.
Defined.

(** * Occupied tables *)

Section DistinctFacts.
Context {A K : Type} (key : A -> K) (keqb : K -> K -> bool).
Hypothesis keqb_eq : forall a b, keqb a b = true <-> a = b.

Lemma seen_iff (k : K) (seen : list K) : existsb (keqb k) seen = true <-> In k seen.
Proof.
  rewrite existsb_exists. split.
  - intros (x & Hin & He). apply keqb_eq in He. subst. exact Hin.
  - intros Hin. exists k. split; [exact Hin | apply keqb_eq; reflexivity].
Qed.

Lemma distinct_on_from_sub (l : list A) :
  forall seen y, In y (distinct_on_from key keqb seen l) -> In y l /\ ~ In (key y) seen.
Proof.
  induction l as [|x r IH]; intros seen y Hy; simpl in Hy; [destruct Hy|].
  destruct (existsb (keqb (key x)) seen) eqn:E.
  - apply IH in Hy. destruct Hy. split; [right|]; assumption.
  - destruct Hy as [<-|Hy].
    + split; [left; reflexivity|]. intros Hin. apply seen_iff in Hin. congruence.
    + apply IH in Hy. destruct Hy as [Hin Hns]. split; [right; exact Hin|].
      intros Hs. apply Hns. right. exact Hs.
Qed.

Lemma distinct_on_from_complete (l : list A) :
  forall seen x, In x l -> ~ In (key x) seen ->
                 exists y, In y (distinct_on_from key keqb seen l) /\ key y = key x.
Proof.
  induction l as [|h r IH]; intros seen x Hx Hns; [destruct Hx|]. simpl.
  destruct (existsb (keqb (key h)) seen) eqn:E.
  - destruct Hx as [->|Hx].
    + apply seen_iff in E. contradiction.
    + apply IH; assumption.
  - destruct Hx as [->|Hx].
    + exists x. split; [left|]; reflexivity.
    + destruct (keqb (key h) (key x)) eqn:Ek.
      * apply keqb_eq in Ek. exists h. split; [left; reflexivity | exact Ek].
      * destruct (IH (key h :: seen) x Hx) as (y & Hy & Hk).
        -- intros [He|Hs]; [|contradiction].
           apply keqb_eq in He. congruence.
        -- exists y. split; [right; exact Hy | exact Hk].
Qed.

Lemma distinct_on_from_NoDup (l : list A) :
  forall seen, NoDup (map key (distinct_on_from key keqb seen l)).
Proof.
  induction l as [|x r IH]; intros seen; simpl; [constructor|].
  destruct (existsb (keqb (key x)) seen) eqn:E; [apply IH|].
  simpl. constructor; [|apply IH].
  intros Hin. apply in_map_iff in Hin. destruct Hin as (y & Hk & Hy).
  apply distinct_on_from_sub in Hy. destruct Hy as [_ Hns].
  apply Hns. left. symmetry. exact Hk.
Qed.

Lemma distinct_on_sub (l : list A) (y : A) : In y (distinct_on key keqb l) -> In y l.
Proof. intros H. apply distinct_on_from_sub in H. tauto. Qed.

Lemma distinct_on_complete (l : list A) (x : A) :
  In x l -> exists y, In y (distinct_on key keqb l) /\ key y = key x.
Proof. intros H. apply distinct_on_from_complete; [exact H | intros []]. Qed.

Lemma distinct_on_NoDup (l : list A) : NoDup (map key (distinct_on key keqb l)).
Proof. apply distinct_on_from_NoDup. Qed.
End DistinctFacts.

Lemma select_distinct_In {A : Type} (eqb : A -> A -> bool) (l : list A) (x : A) :
  (forall a b, eqb a b = true <-> a = b) ->
  In x (distinct_on (fun y => y) eqb l) <-> In x l.
Proof.
  intros Heq. split.
  - apply distinct_on_sub. exact Heq.
  - intros H. destruct (distinct_on_complete (fun y => y) eqb Heq l x H) as (y & Hy & ->).
    exact Hy.
Qed.

Lemma uuid_eqb_eq (a b : uuid) : uuid_eqb a b = true <-> a = b.
Proof. apply Z.eqb_eq. Qed.

Lemma active_status_true (s : string) :
  active_status s = true <-> s = "confirmed"%string \/ s = "arrived"%string.
Proof.
  unfold active_status. rewrite orb_true_iff, !String.eqb_eq. reflexivity.
Qed.

Lemma not_excluded_true (excl : option uuid) (r : reservation) :
  not_excluded excl r = true <-> forall x, excl = Some x -> r_id r <> x.
Proof.
  unfold not_excluded. destruct excl as [x|].
  - rewrite negb_true_iff. unfold uuid_eqb. rewrite Z.eqb_neq. split.
    + intros H y Hy. injection Hy as <-. exact H.
    + intros H. apply H. reflexivity.
  - split; [intros _ x Hx; discriminate | reflexivity].
Qed.

Lemma overlaps_true (r : reservation) (s e : timestamptz) :
  overlaps r s e = true <-> r_start_at r < e /\ r_end_at r > s.
Proof.
  unfold overlaps. rewrite andb_true_iff, Z.ltb_lt, Z.gtb_gt. reflexivity.
Qed.

(** The condition of the join, as the queries write it and as [holds_table]
    reads it. *)
Lemma join_condition (p_date : date) (s e : timestamptz) (excl : option uuid)
      (r : reservation) (rta : assignment) :
  uuid_eqb (r_id r) (rta_reservation_id rta) && (r_date r =? p_date)
  && active_status (r_status r) && overlaps r s e && not_excluded excl r = true <->
  holds_table p_date s e excl (rta_table_id rta) r rta.
Proof.
  unfold holds_table.
  rewrite !andb_true_iff, uuid_eqb_eq, Z.eqb_eq, active_status_true, overlaps_true,
    not_excluded_true.
  split.
  - intros ((((H1 & H2) & H3) & H4 & H5) & H6). repeat split; auto.
  - intros (H1 & _ & H2 & H3 & H4 & H5 & H6). repeat split; auto.
Qed.

Lemma occupied_for_window_In (d : DB) (p_date : date) (s e : timestamptz)
      (excl : option uuid) (tid : uuid) :
  In tid (occupied_for_window d p_date s e excl) <->
  exists r rta, In r (reservations d) /\ In rta (reservation_table_assignments d) /\
                holds_table p_date s e excl tid r rta.
Proof.
  unfold occupied_for_window. rewrite (select_distinct_In _ _ _ uuid_eqb_eq).
  rewrite in_flat_map. split.
  - intros (r & Hr & Hin). apply in_flat_map in Hin. destruct Hin as (rta & Hrta & Hin).
    match type of Hin with In _ (if ?c then _ else _) => destruct c eqn:Ec end;
      [|destruct Hin].
    destruct Hin as [<-|[]]. exists r, rta.
    split; [exact Hr|]. split; [exact Hrta|]. apply join_condition, Ec.
  - intros (r & rta & Hr & Hrta & Hh). exists r. split; [exact Hr|].
    apply in_flat_map. exists rta. split; [exact Hrta|].
    pose proof Hh as (_ & <- & _).
    apply join_condition in Hh. rewrite Hh. left; reflexivity.
Qed.

Lemma slot_table_eqb_eq (a b : time * uuid) : slot_table_eqb a b = true <-> a = b.
Proof.
  unfold slot_table_eqb. destruct a as [a1 a2], b as [b1 b2]. simpl.
  rewrite andb_true_iff, Z.eqb_eq, uuid_eqb_eq. split.
  - intros [-> ->]. reflexivity.
  - intros H. injection H as -> ->. auto.
Qed.

Lemma occupied_tables_In (d : DB) (p_date : date) (srs : list slot_range)
      (st : time) (tid : uuid) :
  In (st, tid) (occupied_tables d p_date srs) <->
  exists sr r rta, In sr srs /\ sr_slot_time sr = st /\
                   In r (reservations d) /\ In rta (reservation_table_assignments d) /\
                   holds_table p_date (sr_start_at sr) (sr_end_at sr) None tid r rta.
Proof.
  unfold occupied_tables. rewrite (select_distinct_In _ _ _ slot_table_eqb_eq).
  rewrite in_flat_map. split.
  - intros (sr & Hsr & Hin). apply in_flat_map in Hin. destruct Hin as (r & Hr & Hin).
    apply in_flat_map in Hin. destruct Hin as (rta & Hrta & Hin).
    match type of Hin with In _ (if ?c then _ else _) => destruct c eqn:Ec end;
      [|destruct Hin].
    destruct Hin as [Heq|[]]. injection Heq as <- <-.
    exists sr, r, rta.
    split; [exact Hsr|]. split; [reflexivity|]. split; [exact Hr|]. split; [exact Hrta|].
    apply join_condition. rewrite Ec. reflexivity.
  - intros (sr & r & rta & Hsr & <- & Hr & Hrta & Hh). exists sr. split; [exact Hsr|].
    apply in_flat_map. exists r. split; [exact Hr|].
    apply in_flat_map. exists rta. split; [exact Hrta|].
    pose proof Hh as (_ & <- & _).
    apply join_condition in Hh. simpl in Hh. rewrite andb_true_r in Hh.
    rewrite Hh. left; reflexivity.
Qed.

(** C3.  A table is occupied for a window when, and only when, a reservation
    with status confirmed or arrived is assigned to it on that date with
    [start_at < end] and [end_at > start], the excluded reservation apart;
    this holds for the reporter and, slot by slot, for the slot calculator.
    A reservation that ends where the window starts, or starts where the
    window ends, does not overlap it. *)
Theorem occupied_iff_active_reservation_overlaps :
  forall (d : DB) (p_date : date) (p_start_at p_end_at : timestamptz)
         (p_exclude : option uuid) (tid : uuid),
    (In tid (occupied_for_window d p_date p_start_at p_end_at p_exclude) <->
     exists r rta, In r (reservations d) /\ In rta (reservation_table_assignments d) /\
                   holds_table p_date p_start_at p_end_at p_exclude tid r rta) /\
    (forall srs st,
        In (st, tid) (occupied_tables d p_date srs) <->
        exists sr r rta, In sr srs /\ sr_slot_time sr = st /\
                         In r (reservations d) /\ In rta (reservation_table_assignments d) /\
                         holds_table p_date (sr_start_at sr) (sr_end_at sr) None tid r rta) /\
    (forall r, overlaps r (r_end_at r) p_end_at = false /\
               overlaps r p_start_at (r_start_at r) = false).
Proof.
  intros d p_date p_start_at p_end_at p_exclude tid. split; [|split].
  - apply occupied_for_window_In.
  - intros srs st. apply occupied_tables_In.
  - intros r. unfold overlaps. split.
    + rewrite andb_false_iff. right. rewrite Z.gtb_ltb. apply Z.ltb_irrefl.
    + rewrite andb_false_iff. left. apply Z.ltb_irrefl.
Qed.

(** The availability check modelled from section 4.1 agrees with the
    [occupied_tables] CTE of the reporter: a table is available exactly when
    it is not in that list. *)
Lemma is_table_available_not_occupied (d : DB) (tid : uuid) (p_date : date)
      (p_start_at p_end_at : timestamptz) (p_exclude : option uuid) :
  is_table_available d tid p_date p_start_at p_end_at p_exclude = false <->
  In tid (occupied_for_window d p_date p_start_at p_end_at p_exclude).
Proof.
  rewrite occupied_for_window_In. unfold is_table_available.
  rewrite negb_false_iff, existsb_exists. split.
  - intros (r & Hr & Hc). rewrite !andb_true_iff in Hc.
    destruct Hc as ((((Ha & Hd) & Hs) & Ho) & He).
    apply existsb_exists in Ha. destruct Ha as (rta & Hrta & Hj).
    apply andb_true_iff in Hj. destruct Hj as [Hj1 Hj2].
    apply uuid_eqb_eq in Hj1, Hj2. apply Z.eqb_eq in Hd.
    apply active_status_true in Hs. apply overlaps_true in Ho.
    pose proof (proj1 (not_excluded_true p_exclude r) He) as He'.
    exists r, rta. unfold holds_table. tauto.
  - intros (r & rta & Hr & Hrta & Hj1 & Hj2 & Hd & Hs & Ho1 & Ho2 & He).
    exists r. split; [exact Hr|]. rewrite !andb_true_iff. repeat split.
    + apply existsb_exists. exists rta. split; [exact Hrta|].
      apply andb_true_iff. split; apply uuid_eqb_eq; assumption.
    + apply Z.eqb_eq, Hd.
    + apply active_status_true, Hs.
    + apply overlaps_true. auto.
    + apply not_excluded_true, He.
Qed.

(** * The comparisons behind ORDER BY *)

Lemma Z_order : order_on Z.compare.
Proof.
  constructor.
  - apply Z.compare_eq_iff.
  - intros a b. apply Z.compare_antisym.
  - intros a b c. rewrite !Z.compare_lt_iff. lia.
Qed.

Lemma ascii_compare_lt_trans (a b c : ascii) :
  Ascii.compare a b = Lt -> Ascii.compare b c = Lt -> Ascii.compare a c = Lt.
Proof.
  unfold Ascii.compare. rewrite !N.compare_lt_iff. apply N.lt_trans.
Qed.

Lemma ascii_compare_refl (a : ascii) : Ascii.compare a a = Eq.
Proof. unfold Ascii.compare. apply N.compare_refl. Qed.

Lemma text_compare_refl (a : string) : text_compare a a = Eq.
Proof.
  unfold text_compare. induction a as [|c a IH]; simpl; [reflexivity|].
  rewrite ascii_compare_refl. exact IH.
Qed.

Lemma text_compare_lt_trans (a b c : string) :
  text_compare a b = Lt -> text_compare b c = Lt -> text_compare a c = Lt.
Proof.
  unfold text_compare. revert b c.
  induction a as [|x a IH]; intros [|y b] [|z c]; simpl; try discriminate; auto.
  destruct (Ascii.compare x y) eqn:Exy; try discriminate.
  - apply Ascii.compare_eq_iff in Exy. subst y.
    destruct (Ascii.compare x z); try discriminate; auto. apply IH.
  - intros _.
    destruct (Ascii.compare y z) eqn:Eyz; try discriminate.
    + apply Ascii.compare_eq_iff in Eyz. subst z. rewrite Exy. reflexivity.
    + rewrite (ascii_compare_lt_trans _ _ _ Exy Eyz). reflexivity.
Qed.

Lemma text_order : order_on text_compare.
Proof.
  constructor.
  - intros a b. split.
    + apply String.compare_eq_iff.
    + intros ->. apply text_compare_refl.
  - intros a b. unfold text_compare. apply String.compare_antisym.
  - apply text_compare_lt_trans.
Qed.


Lemma lex_order {K1 K2 : Type} (c1 : K1 -> K1 -> comparison) (c2 : K2 -> K2 -> comparison) :
  order_on c1 -> order_on c2 -> order_on (lex_compare c1 c2).
Proof.
  intros [e1 o1 t1] [e2 o2 t2]. constructor.
  - intros [a1 a2] [b1 b2]. unfold lex_compare, then_by. simpl.
    destruct (c1 a1 b1) eqn:E1.
    + apply e1 in E1. subst b1. rewrite e2. split; [intros ->; reflexivity|].
      intros H. injection H; auto.
    + split; [discriminate|]. intros H. injection H as -> ->.
      rewrite (proj2 (e1 b1 b1) eq_refl) in E1. discriminate.
    + split; [discriminate|]. intros H. injection H as -> ->.
      rewrite (proj2 (e1 b1 b1) eq_refl) in E1. discriminate.
  - intros [a1 a2] [b1 b2]. unfold lex_compare, then_by. simpl.
    rewrite (o1 a1 b1), (o2 a2 b2). destruct (c1 a1 b1); reflexivity.
  - intros [a1 a2] [b1 b2] [d1 d2]. unfold lex_compare, then_by. simpl.
    destruct (c1 a1 b1) eqn:E1; try discriminate.
    + apply e1 in E1. subst b1. destruct (c1 a1 d1); try discriminate; auto. apply t2.
    + intros _. destruct (c1 b1 d1) eqn:E2; try discriminate.
      * apply e1 in E2. subst d1. rewrite E1. reflexivity.
      * rewrite (t1 _ _ _ E1 E2). reflexivity.
Qed.

Section OrderFacts.
Context {A K : Type} (key : A -> K) (cmp : K -> K -> comparison).
Hypothesis Hord : order_on cmp.

Let leb (x y : A) : bool := not_after (cmp (key x) (key y)).

Lemma key_leb_total (x y : A) : leb x y = false -> leb y x = true.
Proof.
  unfold leb, not_after. rewrite (cmp_opp cmp Hord (key x) (key y)).
  destruct (cmp (key x) (key y)); simpl; congruence.
Qed.

Lemma key_leb_refl (x : A) : leb x x = true.
Proof.
  unfold leb. rewrite (proj2 (cmp_eq cmp Hord (key x) (key x)) eq_refl). reflexivity.
Qed.

Lemma key_leb_trans (x y z : A) : leb x y = true -> leb y z = true -> leb x z = true.
Proof.
  unfold leb, not_after.
  destruct (cmp (key x) (key y)) eqn:E1; try discriminate; intros _.
  - apply (cmp_eq cmp Hord) in E1. rewrite E1. auto.
  - destruct (cmp (key y) (key z)) eqn:E2; try discriminate; intros _.
    + apply (cmp_eq cmp Hord) in E2. rewrite <- E2, E1. reflexivity.
    + rewrite (cmp_lt_trans cmp Hord _ _ _ E1 E2). reflexivity.
Qed.

Lemma order_by_key_sorted (l : list A) :
  StronglySorted (fun x y => leb x y = true) (order_by leb l).
Proof.
  apply order_by_strongly_sorted.
  - apply key_leb_total.
  - apply key_leb_trans.
Qed.
End OrderFacts.

(** The first row of each group of an ordered input precedes the whole group. *)
Lemma distinct_on_from_least {A K : Type} (key : A -> K) (keqb : K -> K -> bool)
      (R : A -> A -> Prop) (l : list A) :
  (forall a b, keqb a b = true <-> a = b) ->
  (forall x, R x x) ->
  StronglySorted R l ->
  forall seen y, In y (distinct_on_from key keqb seen l) ->
                 forall x, In x l -> key x = key y -> R y x.
Proof.
  intros Heq Hrefl Hs. induction Hs as [|h r Hs IH Hall]; intros seen y Hy x Hx Hk.
  - destruct Hx.
  - simpl in Hy. destruct (existsb (keqb (key h)) seen) eqn:E.
    + destruct Hx as [<-|Hx].
      * apply (distinct_on_from_sub key keqb Heq) in Hy. destruct Hy as [_ Hns].
        apply (seen_iff keqb Heq) in E. rewrite Hk in E. contradiction.
      * eapply IH; eassumption.
    + destruct Hy as [<-|Hy].
      * destruct Hx as [<-|Hx]; [apply Hrefl|].
        rewrite Forall_forall in Hall. apply Hall, Hx.
      * destruct Hx as [<-|Hx].
        -- apply (distinct_on_from_sub key keqb Heq) in Hy. destruct Hy as [_ Hns].
           exfalso. apply Hns. left. exact Hk.
        -- eapply IH; eassumption.
Qed.

(** * The left join with zones *)



Lemma left_join_zones_In (d : DB) (zid : option uuid) (z : option zone) :
  In z (left_join_zones d zid) ->
  match z with
  | Some z => In z (zones d) /\ zid = Some (z_id z)
  | None => forall z', In z' (zones d) -> zid <> Some (z_id z')
  end.
Proof.
  unfold left_join_zones.
  destruct (filter (fun z0 => null_eqb zid (z_id z0)) (zones d)) as [|h r] eqn:Ef.
  - intros [<-|[]]. intros z' Hin Hz.
    assert (Hf : In z' (filter (fun z0 => null_eqb zid (z_id z0)) (zones d))).
    { apply filter_In. split; [exact Hin|]. rewrite Hz. simpl. apply uuid_eqb_eq. reflexivity. }
    rewrite Ef in Hf. destruct Hf.
  - intros Hin. apply in_map_iff in Hin. destruct Hin as (z0 & <- & Hin).
    rewrite <- Ef in Hin. apply filter_In in Hin. destruct Hin as [Hin He].
    split; [exact Hin|]. destruct zid as [i|]; simpl in He; [|discriminate].
    apply uuid_eqb_eq in He. subst. reflexivity.
Qed.

(** * The availability slot calculator *)

Lemma slot_times_In (d : DB) (v_day_of_week : Z) (t : time) :
  In t (slot_times d v_day_of_week) <->
  (exists ts, In ts (time_slots d) /\ ts_time ts = t) /\
  (exists rs, In rs (restaurant_schedules d) /\
              rs_day_of_week rs = v_day_of_week /\ rs_is_active rs = true /\
              rs_opening_time rs <= t <= rs_closing_time rs).
Proof.
  unfold slot_times. rewrite in_map_iff. split.
  - intros (ts & <- & Hin). apply filter_In in Hin. destruct Hin as [Hin He].
    split; [exists ts; auto|].
    apply existsb_exists in He. destruct He as (rs & Hrs & Hc).
    unfold in_schedule in Hc. rewrite !andb_true_iff, Z.eqb_eq, Z.geb_le, Z.leb_le in Hc.
    exists rs. tauto.
  - intros [(ts & Hin & <-) (rs & Hrs & Hd & Ha & Ho & Hc)].
    exists ts. split; [reflexivity|]. apply filter_In. split; [exact Hin|].
    apply existsb_exists. exists rs. split; [exact Hrs|].
    unfold in_schedule. rewrite !andb_true_iff, Z.eqb_eq, Z.geb_le, Z.leb_le. tauto.
Qed.

Lemma slot_ranges_In at_madrid (d : DB) (p_date : date) (p_duration_minutes : Z) (sr : slot_range) :
  In sr (slot_ranges at_madrid d p_date p_duration_minutes) <->
  In (sr_slot_time sr) (slot_times d (extract_dow p_date)) /\
  sr_start_at sr = at_madrid p_date (sr_slot_time sr) /\
  sr_end_at sr = at_madrid p_date (sr_slot_time sr) + p_duration_minutes * 60.
Proof.
  unfold slot_ranges. rewrite in_map_iff. split.
  - intros (t & <- & Hin). simpl. auto.
  - intros (Hin & Hs & He). exists (sr_slot_time sr). split; [|exact Hin].
    destruct sr as [t s e]. simpl in *. subst. reflexivity.
Qed.

Lemma available_tables_In (d : DB) (srs : list slot_range) (occ : list (time * uuid))
      (ao : option_row) :
  In ao (available_tables d srs occ) <-> free_table_option d srs occ ao.
Proof.
  unfold available_tables, free_table_option. rewrite in_flat_map. split.
  - intros (sr & Hsr & Hin). apply in_flat_map in Hin. destruct Hin as (t & Ht & Hin).
    apply in_flat_map in Hin. destruct Hin as (z & Hz & Hin).
    destruct (t_is_active t) eqn:Ea; [|destruct Hin].
    destruct (is_occupied occ (sr_slot_time sr) (t_id t)) eqn:Eo; [destruct Hin|].
    destruct Hin as [<-|[]]. exists sr, t, z. auto 10.
  - intros (sr & t & z & Hsr & Ht & Hz & Ha & Ho & ->).
    exists sr. split; [exact Hsr|]. apply in_flat_map. exists t. split; [exact Ht|].
    apply in_flat_map. exists z. split; [exact Hz|].
    rewrite Ha, Ho. left; reflexivity.
Qed.

Lemma none_occupied (occ : list (time * uuid)) (st : time) (ids : list uuid) :
  existsb (fun id => is_occupied occ st id) ids = false <->
  Forall (fun id => is_occupied occ st id = false) ids.
Proof.
  induction ids as [|i r IH]; simpl.
  - split; auto.
  - rewrite orb_false_iff, IH. split.
    + intros [H1 H2]. constructor; assumption.
    + intros H. inversion H; subst. auto.
Qed.

Lemma available_combinations_In (d : DB) (srs : list slot_range)
      (occ : list (time * uuid)) (ao : option_row) :
  In ao (available_combinations d srs occ) <-> free_combination_option d srs occ ao.
Proof.
  unfold available_combinations, free_combination_option. rewrite in_flat_map. split.
  - intros (sr & Hsr & Hin). apply in_flat_map in Hin. destruct Hin as (tc & Ht & Hin).
    apply in_flat_map in Hin. destruct Hin as (z & Hz & Hin).
    destruct (tc_is_active tc) eqn:Ea; [|destruct Hin].
    destruct (existsb (fun id => is_occupied occ (sr_slot_time sr) id) (tc_table_ids tc))
      eqn:Eo; [destruct Hin|].
    destruct Hin as [<-|[]]. apply none_occupied in Eo. exists sr, tc, z. auto 10.
  - intros (sr & tc & z & Hsr & Ht & Hz & Ha & Ho & ->).
    exists sr. split; [exact Hsr|]. apply in_flat_map. exists tc. split; [exact Ht|].
    apply in_flat_map. exists z. split; [exact Hz|].
    apply none_occupied in Ho. rewrite Ha, Ho. left; reflexivity.
Qed.

Lemma all_options_In (d : DB) (srs : list slot_range) (occ : list (time * uuid))
      (ao : option_row) :
  In ao (all_options d srs occ) <->
  free_table_option d srs occ ao \/ free_combination_option d srs occ ao.
Proof.
  unfold all_options. rewrite in_app_iff, available_tables_In, available_combinations_In.
  reflexivity.
Qed.

(** ** DISTINCT ON (slot_time, zone_name) *)

Lemma option_compare_key (a b : option_row) :
  option_compare a b =
  lex_compare Z.compare (lex_compare text_compare (lex_compare Z.compare Z.compare))
              (option_key a) (option_key b).
Proof. reflexivity. Qed.

Lemma option_key_order :
  order_on (lex_compare Z.compare (lex_compare text_compare (lex_compare Z.compare Z.compare))).
Proof.
  repeat apply lex_order; try apply Z_order; apply text_order.
Qed.

Lemma slot_zone_eqb_eq (a b : time * string) : slot_zone_eqb a b = true <-> a = b.
Proof.
  unfold slot_zone_eqb. destruct a as [a1 a2], b as [b1 b2]. simpl.
  rewrite andb_true_iff, Z.eqb_eq, String.eqb_eq. split.
  - intros [-> ->]. reflexivity.
  - intros H. injection H as -> ->. auto.
Qed.

Lemma best_option_sub (p_guests : Z) (opts : list option_row) (ao : option_row) :
  In ao (best_option_per_slot_zone p_guests opts) ->
  In ao opts /\ p_guests <= ao_capacity ao.
Proof.
  unfold best_option_per_slot_zone. intros H.
  apply (distinct_on_sub _ _ slot_zone_eqb_eq) in H.
  apply order_by_In, filter_In in H. rewrite Z.geb_le in H. exact H.
Qed.

Lemma best_option_complete (p_guests : Z) (opts : list option_row) (ao : option_row) :
  In ao opts -> p_guests <= ao_capacity ao ->
  exists b, In b (best_option_per_slot_zone p_guests opts) /\
            ao_slot_time b = ao_slot_time ao /\ ao_zone_name b = ao_zone_name ao.
Proof.
  intros Hin Hcap. unfold best_option_per_slot_zone.
  destruct (distinct_on_complete slot_zone slot_zone_eqb slot_zone_eqb_eq
              (order_by (fun a b => not_after (option_compare a b))
                        (filter (fun ao => ao_capacity ao >=? p_guests) opts)) ao)
    as (b & Hb & Hk).
  - apply order_by_In, filter_In. rewrite Z.geb_le. auto.
  - exists b. split; [exact Hb|]. unfold slot_zone in Hk. injection Hk; auto.
Qed.

Lemma best_option_least (p_guests : Z) (opts : list option_row) (ao : option_row) :
  In ao (best_option_per_slot_zone p_guests opts) ->
  forall ao', In ao' opts -> p_guests <= ao_capacity ao' ->
              ao_slot_time ao' = ao_slot_time ao -> ao_zone_name ao' = ao_zone_name ao ->
              better_or_equal ao ao'.
Proof.
  unfold best_option_per_slot_zone, distinct_on. intros H ao' Hin Hcap Hs Hn.
  assert (Hle : not_after (option_compare ao ao') = true).
  { eapply (distinct_on_from_least slot_zone slot_zone_eqb
              (fun x y => not_after (option_compare x y) = true)).
    - apply slot_zone_eqb_eq.
    - intros x. rewrite option_compare_key.
      apply (key_leb_refl option_key _ option_key_order).
    - apply (order_by_key_sorted option_key _ option_key_order).
    - exact H.
    - apply order_by_In, filter_In. rewrite Z.geb_le. auto.
    - unfold slot_zone. rewrite Hs, Hn. reflexivity. }
  unfold option_compare, then_by in Hle. rewrite <- Hs, <- Hn in Hle.
  rewrite Z.compare_refl, text_compare_refl in Hle.
  unfold better_or_equal.
  destruct (ao_zone_priority ao ?= ao_zone_priority ao') eqn:Ep.
  - rewrite Z.compare_eq_iff in Ep. right. split; [exact Ep|].
    destruct (ao_capacity ao ?= ao_capacity ao') eqn:Ec; try discriminate.
    + rewrite Z.compare_eq_iff in Ec. lia.
    + rewrite Z.compare_lt_iff in Ec. lia.
  - rewrite Z.compare_lt_iff in Ep. left. exact Ep.
  - discriminate.
Qed.

Lemma best_option_NoDup (p_guests : Z) (opts : list option_row) :
  NoDup (map slot_zone (best_option_per_slot_zone p_guests opts)).
Proof. apply distinct_on_NoDup, slot_zone_eqb_eq. Qed.

(** ** The final ORDER BY *)

Lemma zone_slot_key_order : order_on (lex_compare Z.compare Z.compare).
Proof. apply lex_order; apply Z_order. Qed.

Lemma not_after_listed_before (a b : zone_slot) :
  not_after (zone_slot_compare a b) = true <-> listed_before a b.
Proof.
  unfold zone_slot_compare, then_by, not_after, listed_before.
  destruct (azps_slot_time a ?= azps_slot_time b) eqn:Es.
  - rewrite Z.compare_eq_iff in Es.
    destruct (azps_zone_priority a ?= azps_zone_priority b) eqn:Ep.
    + rewrite Z.compare_eq_iff in Ep. split; [lia | reflexivity].
    + rewrite Z.compare_lt_iff in Ep. split; [lia | reflexivity].
    + rewrite Z.compare_gt_iff in Ep. split; [discriminate | lia].
  - rewrite Z.compare_lt_iff in Es. split; [lia | reflexivity].
  - rewrite Z.compare_gt_iff in Es. split; [discriminate | lia].
Qed.

Lemma ordered_zone_slots_sorted at_madrid (d : DB) (p_date : date) (p_guests p_dur : Z) :
  StronglySorted listed_before (ordered_zone_slots at_madrid d p_date p_guests p_dur).
Proof.
  unfold ordered_zone_slots.
  eapply StronglySorted_weaken;
    [| apply (order_by_key_sorted zone_slot_key _ zone_slot_key_order)].
  intros a b H. apply not_after_listed_before. exact H.
Qed.

Lemma ordered_zone_slots_In at_madrid (d : DB) (p_date : date) (p_guests p_dur : Z) (a : zone_slot) :
  In a (ordered_zone_slots at_madrid d p_date p_guests p_dur) <->
  exists ao,
    In ao (best_option_per_slot_zone p_guests
             (all_options d (slot_ranges at_madrid d p_date p_dur)
                (occupied_tables d p_date (slot_ranges at_madrid d p_date p_dur)))) /\
    a = zone_slot_of ao.
Proof.
  unfold ordered_zone_slots, available_zones_per_slot.
  rewrite order_by_In, in_map_iff. split.
  - intros (ao & <- & Hin). eauto.
  - intros (ao & Hin & ->). eauto.
Qed.

Lemma every_option_has_a_row :
  forall at_madrid (d : DB) (p_date : date) (p_guests p_dur : Z) (ao : option_row),
    In ao (all_options d (slot_ranges at_madrid d p_date p_dur)
             (occupied_tables d p_date (slot_ranges at_madrid d p_date p_dur))) ->
    p_guests <= ao_capacity ao ->
    exists r, In r (get_available_time_slots_with_zones at_madrid d p_date p_guests p_dur) /\
              slot_time r = ao_slot_time ao /\ zone_name r = ao_zone_name ao.
Proof.
  intros at_madrid d p_date p_guests p_dur ao Hin Hcap.
  destruct (best_option_complete p_guests _ ao Hin Hcap) as (b & Hb & Hs & Hn).
  exists (slot_row_of (zone_slot_of b)). split; [|split; simpl; assumption].
  unfold get_available_time_slots_with_zones. apply in_map.
  apply ordered_zone_slots_In. exists b. split; [exact Hb | reflexivity].
Qed.

(** ** One row per zone id as well, when [zones.id] is a key *)

Lemma NoDup_map_injective {A B : Type} (f : A -> B) (l : list A) (x y : A) :
  NoDup (map f l) -> In x l -> In y l -> f x = f y -> x = y.
Proof.
  induction l as [|h r IH]; simpl; intros Hnd Hx Hy He; [destruct Hx|].
  inversion Hnd as [|? ? Hnotin Hnd']; subst.
  destruct Hx as [->|Hx], Hy as [->|Hy].
  - reflexivity.
  - exfalso. apply Hnotin. rewrite He. apply in_map, Hy.
  - exfalso. apply Hnotin. rewrite <- He. apply in_map, Hx.
  - apply IH; assumption.
Qed.

Lemma NoDup_map_coarser {A K1 K2 : Type} (k1 : A -> K1) (k2 : A -> K2) (l : list A) :
  NoDup (map k1 l) ->
  (forall x y, In x l -> In y l -> k2 x = k2 y -> k1 x = k1 y) ->
  NoDup (map k2 l).
Proof.
  induction l as [|h r IH]; simpl; intros Hnd Hk; [constructor|].
  inversion Hnd as [|? ? Hnotin Hnd']; subst. constructor.
  - intros Hin. apply in_map_iff in Hin. destruct Hin as (y & He & Hy).
    apply Hnotin. rewrite (Hk h y) by auto. apply in_map, Hy.
  - apply IH; [exact Hnd'|]. intros x y Hx Hy. apply Hk; right; assumption.
Qed.

(** The zone id of a joined row determines its zone name. *)
Lemma joined_zone_name_of_id (d : DB) (zid zid' : option uuid) (z z' : option zone) :
  NoDup (map z_id (zones d)) ->
  In z (left_join_zones d zid) -> In z' (left_join_zones d zid') ->
  option_map z_id z = option_map z_id z' ->
  coalesce_name z = coalesce_name z'.
Proof.
  intros Hnd Hz Hz' He.
  apply left_join_zones_In in Hz, Hz'.
  destruct z as [z|], z' as [z'|]; simpl in He; try discriminate; [|reflexivity].
  injection He as He. destruct Hz as [Hin _], Hz' as [Hin' _].
  rewrite (NoDup_map_injective z_id (zones d) z z' Hnd Hin Hin' He). reflexivity.
Qed.

Lemma option_zone_name_of_id (d : DB) (srs : list slot_range) (occ : list (time * uuid))
      (a b : option_row) :
  NoDup (map z_id (zones d)) ->
  In a (all_options d srs occ) -> In b (all_options d srs occ) ->
  ao_zone_id a = ao_zone_id b -> ao_zone_name a = ao_zone_name b.
Proof.
  intros Hnd Ha Hb He.
  apply all_options_In in Ha, Hb.
  assert (Hsrc : forall ao,
             free_table_option d srs occ ao \/ free_combination_option d srs occ ao ->
             exists zid z, In z (left_join_zones d zid) /\
                           ao_zone_name ao = coalesce_name z /\
                           ao_zone_id ao = option_map z_id z).
  { intros ao [(sr & t & z & _ & _ & Hz & _ & _ & ->)|(sr & tc & z & _ & _ & Hz & _ & _ & ->)];
      eexists _, z; (split; [exact Hz|]); split; reflexivity. }
  destruct (Hsrc a Ha) as (zid & z & Hz & -> & Hia).
  destruct (Hsrc b Hb) as (zid' & z' & Hz' & -> & Hib).
  eapply joined_zone_name_of_id; try eassumption. congruence.
Qed.

(** C7.  The result is the projection of [ordered_zone_slots]; a pair of slot
    and zone name occurs at most once in it, and so does a pair of slot and
    zone id when [zones.id] is a key; the options are the active
    tables and combinations whose tables are all unoccupied at the slot; the
    row kept for a pair comes from an option of sufficient capacity that no
    other such option of the pair beats on zone priority, then capacity; every
    slot and zone with such an option has a row; and the rows are listed by
    slot time, then by zone priority. *)
Theorem one_row_per_slot_and_zone_in_priority_order :
  forall at_madrid (d : DB) (p_date : date) (p_guests p_duration_minutes : Z),
    let srs := slot_ranges at_madrid d p_date p_duration_minutes in
    let occ := occupied_tables d p_date srs in
    let opts := all_options d srs occ in
    let azps := ordered_zone_slots at_madrid d p_date p_guests p_duration_minutes in
    let out := get_available_time_slots_with_zones at_madrid d p_date p_guests
                 p_duration_minutes in
    out = map slot_row_of azps /\
    NoDup (map (fun r => (slot_time r, zone_name r)) out) /\
    (forall ao, In ao opts <->
                free_table_option d srs occ ao \/ free_combination_option d srs occ ao) /\
    (forall a, In a azps ->
       exists ao, In ao opts /\ p_guests <= ao_capacity ao /\ a = zone_slot_of ao /\
         forall ao', In ao' opts -> p_guests <= ao_capacity ao' ->
                     ao_slot_time ao' = ao_slot_time ao ->
                     ao_zone_name ao' = ao_zone_name ao ->
                     better_or_equal ao ao') /\
    (forall ao, In ao opts -> p_guests <= ao_capacity ao ->
       exists r, In r out /\ slot_time r = ao_slot_time ao /\ zone_name r = ao_zone_name ao) /\
    StronglySorted listed_before azps /\
    (NoDup (map z_id (zones d)) -> NoDup (map (fun r => (slot_time r, zone_id r)) out)).
Proof.
  intros at_madrid d p_date p_guests p_dur srs occ opts azps out.
  assert (Hpairs : NoDup (map (fun r => (slot_time r, zone_name r)) out)).
  { unfold out, get_available_time_slots_with_zones. rewrite map_map. simpl.
    unfold ordered_zone_slots. fold srs. fold occ. fold opts.
    eapply Permutation_NoDup.
    + apply Permutation_map, Permutation_sym, order_by_perm.
    + unfold available_zones_per_slot. rewrite map_map. simpl.
      apply (best_option_NoDup p_guests opts). }
  split; [reflexivity|]. split; [exact Hpairs|]. split; [|split; [|split; [|split]]].
  - intros ao. exact (all_options_In d srs occ ao).
  - intros a Ha. apply ordered_zone_slots_In in Ha. destruct Ha as (ao & Hin & ->).
    fold srs in Hin. fold occ in Hin. fold opts in Hin.
    exists ao. destruct (best_option_sub _ _ _ Hin) as [Ho Hc].
    split; [exact Ho|]. split; [exact Hc|]. split; [reflexivity|].
    apply best_option_least, Hin.
  - intros ao Hin Hcap.
    apply every_option_has_a_row; assumption.
  - apply ordered_zone_slots_sorted.
  - intros Hnd. apply (NoDup_map_coarser (fun r => (slot_time r, zone_name r))); [exact Hpairs|].
    assert (Hsrc : forall r, In r out ->
               exists ao, In ao opts /\ slot_time r = ao_slot_time ao /\
                          zone_name r = ao_zone_name ao /\ zone_id r = ao_zone_id ao).
    { intros r Hr. unfold out, get_available_time_slots_with_zones in Hr.
      apply in_map_iff in Hr. destruct Hr as (a & <- & Ha).
      apply ordered_zone_slots_In in Ha. destruct Ha as (ao & Hin & ->).
      apply best_option_sub in Hin. exists ao. simpl. tauto. }
    intros x y Hx Hy He. injection He as Hs Hi.
    destruct (Hsrc x Hx) as (a & Ha & Hxs & Hxn & Hxi).
    destruct (Hsrc y Hy) as (b & Hb & Hys & Hyn & Hyi).
    rewrite Hs, Hxn, Hyn. f_equal.
    apply (option_zone_name_of_id d srs occ a b Hnd Ha Hb). congruence.
Qed.

(** C6.  The slot grid consists of the configured time-slot points [t] with
    [opening_time <= t <= closing_time] for an active schedule of the date's
    weekday; in particular a configured point equal to the closing time is on
    the grid, and the result has a row for it whenever a table or combination
    of sufficient capacity is free at that slot. *)
Theorem slot_at_closing_time_is_offered :
  forall at_madrid (d : DB) (p_date : date) (p_guests p_duration_minutes : Z),
    let srs := slot_ranges at_madrid d p_date p_duration_minutes in
    let occ := occupied_tables d p_date srs in
    let out := get_available_time_slots_with_zones at_madrid d p_date p_guests
                 p_duration_minutes in
    (forall t, In t (slot_times d (extract_dow p_date)) <->
               (exists ts, In ts (time_slots d) /\ ts_time ts = t) /\
               (exists rs, In rs (restaurant_schedules d) /\
                           rs_day_of_week rs = extract_dow p_date /\
                           rs_is_active rs = true /\
                           rs_opening_time rs <= t <= rs_closing_time rs)) /\
    (forall sr, In sr srs <->
                In (sr_slot_time sr) (slot_times d (extract_dow p_date)) /\
                sr_start_at sr = at_madrid p_date (sr_slot_time sr) /\
                sr_end_at sr = at_madrid p_date (sr_slot_time sr) + p_duration_minutes * 60) /\
    (forall rs ts,
        In rs (restaurant_schedules d) -> rs_day_of_week rs = extract_dow p_date ->
        rs_is_active rs = true -> rs_opening_time rs <= rs_closing_time rs ->
        In ts (time_slots d) -> ts_time ts = rs_closing_time rs ->
        In (rs_closing_time rs) (slot_times d (extract_dow p_date)) /\
        forall ao,
          free_table_option d srs occ ao \/ free_combination_option d srs occ ao ->
          ao_slot_time ao = rs_closing_time rs -> p_guests <= ao_capacity ao ->
          exists r, In r out /\ slot_time r = rs_closing_time rs).
Proof.
  intros at_madrid d p_date p_guests p_dur srs occ out.
  split; [|split].
  - intros t. exact (slot_times_In d (extract_dow p_date) t).
  - intros sr. exact (slot_ranges_In at_madrid d p_date p_dur sr).
  - intros rs ts Hrs Hdow Hact Hle Hts Ht. split.
    + apply slot_times_In. split; [exists ts; auto|].
      exists rs. repeat split; auto. lia.
    + intros ao Hao Hslot Hcap.
      destruct (every_option_has_a_row at_madrid d p_date p_guests p_dur
                  ao) as (r & Hr & Hs & _).
      * apply all_options_In, Hao.
      * exact Hcap.
      * exists r. split; [exact Hr | congruence].
Qed.

(** * The admin table-status reporter *)









(** * The slot calculator as a read *)

(** C9.  The slot calculator reads the weekly schedule only: replacing the
    special closed days and the special schedule days by any others leaves
    its result unchanged.  So a slot can be listed for a date that is a
    special closed day, and for a time outside the special schedule of the
    date, while [create_reservation_with_assignment] rejects that date and
    time. *)
Theorem slots_ignore_special_days :
  (forall at_madrid (d : DB) (p_date : date) (p_guests p_duration_minutes : Z)
          (cl : list special_closed_day) (sp : list special_schedule_day),
      get_available_time_slots_with_zones at_madrid (set_special_days cl sp d)
        p_date p_guests p_duration_minutes
      = get_available_time_slots_with_zones at_madrid d p_date p_guests p_duration_minutes) /\
  (exists at_madrid check_diners_limit (d : DB) (p_date : date) (p_time : time) row m',
      existsb (closes p_date) (special_closed_days d) = true /\
      In row (get_available_time_slots_with_zones at_madrid d p_date 2 120) /\
      slot_time row = p_time /\
      create_reservation_with_assignment at_madrid check_diners_limit 100 7 p_date p_time 2
        None 120 None no_faults (mk_machine d 0 None)
      = (Returned (failure "Restaurant is closed on selected date"), m')) /\
  (exists at_madrid check_diners_limit (d : DB) (p_date : date) (p_time : time) s row m',
      In s (special_schedule_days d) /\ ssd_date s = p_date /\ ssd_is_active s = true /\
      ssd_closing_time s < p_time /\
      In row (get_available_time_slots_with_zones at_madrid d p_date 2 120) /\
      slot_time row = p_time /\
      create_reservation_with_assignment at_madrid check_diners_limit 100 7 p_date p_time 2
        None 120 None no_faults (mk_machine d 0 None)
      = (Returned (failure "Restaurant is closed at selected time"), m')).
Proof.
  split; [|split].
  - intros. reflexivity.
  - exists Scenario.madrid, Scenario.diners_ok, Scenario.closed_thursday,
      Scenario.thursday, Scenario.eight_pm.
    eexists _, _. split; [reflexivity|]. split; [left; reflexivity|].
    split; reflexivity.
  - exists Scenario.madrid, Scenario.diners_ok, Scenario.lunch_only_thursday,
      Scenario.thursday, Scenario.eight_pm, (mk_special Scenario.thursday true 43200 57600).
    eexists _, _. split; [left; reflexivity|]. split; [reflexivity|]. split; [reflexivity|].
    split; [reflexivity|]. split; [left; reflexivity|]. split; reflexivity.
Qed.



(** * The scenarios of the specification, run on the model *)

(** Without failing statements the allocator and the transaction return. *)
Lemma create_reservation_returns :
  forall at_madrid check_diners_limit new_id p_customer_id p_date p_time p_guests
         p_special_requests p_duration_minutes p_preferred_zone_id (m : machine (option uuid)),
  exists j m',
    create_reservation_with_assignment at_madrid check_diners_limit new_id p_customer_id
      p_date p_time p_guests p_special_requests p_duration_minutes p_preferred_zone_id
      no_faults m = (Returned j, m').
Proof.
  intros. unfold create_reservation_with_assignment.
  rewrite run_set_vars. unfold exception_block.
  match goal with
  | |- context [create_reservation_body ?a ?b ?c ?d ?e ?f ?g ?h ?i ?j ?flt ?mm] =>
      destruct (create_reservation_body a b c d e f g h i j flt mm) as [[j1|err] m1]
  end.
  - eauto.
  - unfold create_reservation_handler, bind, get_vars. simpl.
    destruct (m_vars m1); simpl; eexists _, _; reflexivity.
Qed.

(** Interior (priority 0) is booked from 20:00 to 21:30, Terraza (priority 1)
    is free from 20:00 on: a party of four at 20:00 gets the table of Terraza. *)
Example booked_zone_is_skipped :
  fst (assign_tables_to_reservation 100 Scenario.thursday
         (Scenario.madrid Scenario.thursday Scenario.eight_pm)
         (Scenario.madrid Scenario.thursday Scenario.eight_pm + 5400) 4 None
         no_faults (Scenario.fresh Scenario.interior_booked tt))
  = Returned [21].
Proof. vm_compute. reflexivity. Qed.

(** No single table seats six, the two tables for three combine. *)
Example combination_is_assigned :
  fst (assign_tables_to_reservation 100 Scenario.thursday
         (Scenario.madrid Scenario.thursday Scenario.eight_pm)
         (Scenario.madrid Scenario.thursday Scenario.eight_pm + 5400) 6 None
         no_faults (Scenario.fresh Scenario.small_tables tt))
  = Returned [12; 13].
Proof. vm_compute. reflexivity. Qed.

(** Terraza is preferred and fits: it is used although Interior ranks first. *)
Example preferred_zone_is_used :
  fst (assign_tables_to_reservation 100 Scenario.thursday
         (Scenario.madrid Scenario.thursday Scenario.eight_pm)
         (Scenario.madrid Scenario.thursday Scenario.eight_pm + 5400) 2 (Some 2)
         no_faults (Scenario.fresh Scenario.two_zones tt))
  = Returned [21].
Proof. vm_compute. reflexivity. Qed.

(** On a special closed day nothing is written. *)
Example closed_day_is_rejected :
  create_reservation_with_assignment Scenario.madrid Scenario.diners_ok 100 7
    Scenario.thursday Scenario.eight_pm 2 None 90 None
    no_faults (Scenario.fresh Scenario.closed_thursday None)
  = (Returned (failure "Restaurant is closed on selected date"),
     mk_machine Scenario.closed_thursday 1 None).
Proof. vm_compute. reflexivity. Qed.

(** The grid point 23:00 equals the closing time and is listed, once per zone
    that can seat two. *)
Example closing_time_is_listed :
  get_available_time_slots_with_zones Scenario.madrid Scenario.two_zones
    Scenario.thursday 2 120
  = [mk_slot_row Scenario.eight_pm "Interior" (Some 1);
     mk_slot_row Scenario.eight_pm "Terraza" (Some 2);
     mk_slot_row Scenario.eleven_pm "Interior" (Some 1);
     mk_slot_row Scenario.eleven_pm "Terraza" (Some 2)].
Proof. vm_compute. reflexivity. Qed.

(** At 20:00 the table of Interior is occupied and the table of Terraza,
    whose reservation ends at 20:00, is free. *)
Example touching_reservation_does_not_block :
  map (fun row => (st_table_id row, st_is_available row))
      (get_available_tables_for_reservation Scenario.madrid Scenario.interior_booked
         Scenario.thursday Scenario.eight_pm 90 None)
  = [(11, false); (21, true)].
Proof. vm_compute. reflexivity. Qed.

(** * More about the reservation transaction *)

Section CreateCases.
Variable at_madrid : date -> time -> timestamptz.
Variable check_diners_limit : DB -> date -> time -> Z -> json.
Variables (new_id p_customer_id : uuid) (p_date : date) (p_time : time)
          (p_guests : Z) (p_special_requests : option string)
          (p_duration_minutes : Z) (p_preferred_zone_id : option uuid).

Local Abbreviation body :=
  (create_reservation_body at_madrid check_diners_limit new_id p_customer_id p_date p_time
                           p_guests p_special_requests p_duration_minutes p_preferred_zone_id).
Local Abbreviation create :=
  (create_reservation_with_assignment at_madrid check_diners_limit new_id p_customer_id
     p_date p_time p_guests p_special_requests p_duration_minutes p_preferred_zone_id).
Local Abbreviation row :=
  (new_reservation at_madrid new_id p_customer_id p_date p_time p_guests
                   p_special_requests p_duration_minutes).
Local Abbreviation v_start_at := (at_madrid p_date p_time).
Local Abbreviation v_end_at := (at_madrid p_date p_time + p_duration_minutes * 60).

Local Abbreviation creation_succeeded :=
  (creation_succeeded at_madrid check_diners_limit new_id p_customer_id p_date p_time
     p_guests p_special_requests p_duration_minutes p_preferred_zone_id).

Ltac stop_here H :=
  match type of H with
  | (if ?f ?c then _ else _) = _ => destruct (f c); [discriminate|]
  end.

Lemma hours_test (lo hi t : Z) :
  negb ((t <? lo) || (t >? hi)) = true <-> lo <= t <= hi.
Proof.
  rewrite negb_true_iff, orb_false_iff, Z.ltb_ge, Z.gtb_ltb, Z.ltb_ge. tauto.
Qed.

Lemma regular_hours_test (d : DB) :
  existsb (fun rs => (rs_day_of_week rs =? extract_dow p_date) && rs_is_active rs
                     && (p_time >=? rs_opening_time rs) && (p_time <=? rs_closing_time rs))
          (restaurant_schedules d) = true <->
  exists rs, In rs (restaurant_schedules d) /\
             rs_day_of_week rs = extract_dow p_date /\ rs_is_active rs = true /\
             rs_opening_time rs <= p_time <= rs_closing_time rs.
Proof.
  rewrite existsb_exists. split.
  - intros (rs & Hin & Hc). rewrite !andb_true_iff, Z.eqb_eq, Z.geb_le, Z.leb_le in Hc.
    exists rs. tauto.
  - intros (rs & Hin & H1 & H2 & H3 & H4). exists rs. split; [exact Hin|].
    rewrite !andb_true_iff, Z.eqb_eq, Z.geb_le, Z.leb_le. tauto.
Qed.

(** Every way the body can return. *)
Lemma create_body_returns flt (m : machine (option uuid)) j m1 :
  body flt m = (Returned j, m1) ->
  (j_success j = Some false /\
   (m_db m1 = m_db m \/
    m_db m1 = delete_reservation new_id (insert_reservation row (m_db m)))) \/
  creation_succeeded (m_db m) j (m_db m1).
Proof.
  intros H. unfold create_reservation_body in H.
  rewrite run_select in H. stop_here H.
  destruct (existsb (closes p_date) (special_closed_days (m_db m))) eqn:Eclosed.
  { unfold ret in H. injection H as <- <-. left. simpl. auto. }
  rewrite run_select in H. simpl in H. stop_here H.
  assert (Hnext : forall (in_hours : bool) (m0 : machine (option uuid)),
             m_db m0 = m_db m ->
             (in_hours = true -> hours_open (m_db m) p_date p_time) ->
             (if negb in_hours then ret (failure "Restaurant is closed at selected time") else
              v_diners_check <- select_into (fun d => check_diners_limit d p_date p_time p_guests) ;;
              match j_success v_diners_check with
              | Some false => ret v_diners_check
              | _ =>
                execute (insert_reservation
                   (mk_reservation new_id p_customer_id p_date p_time p_guests "confirmed"
                      p_special_requests (at_madrid p_date p_time)
                      (at_madrid p_date p_time + p_duration_minutes * 60) p_duration_minutes)) ;;
                set_vars (Some new_id) ;;
                v_assigned_tables <-
                  call (assign_tables_to_reservation new_id p_date (at_madrid p_date p_time)
                          (at_madrid p_date p_time + p_duration_minutes * 60)
                          p_guests p_preferred_zone_id) tt ;;
                if (List.length v_assigned_tables =? 0)%nat then
                  execute (delete_reservation new_id) ;;
                  ret (failure "No hay mesas disponibles para esta capacidad en el horario solicitado")
                else
                  ret (mk_json (Some true) None (Some "Reserva creada exitosamente"%string)
                               (Some new_id) (Some v_assigned_tables))
              end) flt m0 = (Returned j, m1) ->
             (j_success j = Some false /\
              (m_db m1 = m_db m \/
               m_db m1 = delete_reservation new_id (insert_reservation row (m_db m)))) \/
             creation_succeeded (m_db m) j (m_db m1)).
  { clear H. intros in_hours m0 Hdb0 Hhours H.
    destruct in_hours; simpl in H.
    2:{ unfold ret in H. injection H as <- <-. left. simpl. auto. }
    specialize (Hhours eq_refl).
    rewrite run_select in H. stop_here H.
    assert (Hgo : j_success (check_diners_limit (m_db m) p_date p_time p_guests) <> Some false ->
                (execute (insert_reservation
                   (mk_reservation new_id p_customer_id p_date p_time p_guests "confirmed"
                      p_special_requests (at_madrid p_date p_time)
                      (at_madrid p_date p_time + p_duration_minutes * 60) p_duration_minutes)) ;;
                set_vars (Some new_id) ;;
                v_assigned_tables <-
                  call (assign_tables_to_reservation new_id p_date (at_madrid p_date p_time)
                          (at_madrid p_date p_time + p_duration_minutes * 60)
                          p_guests p_preferred_zone_id) tt ;;
                if (List.length v_assigned_tables =? 0)%nat then
                  execute (delete_reservation new_id) ;;
                  ret (failure "No hay mesas disponibles para esta capacidad en el horario solicitado")
                else
                  ret (mk_json (Some true) None (Some "Reserva creada exitosamente"%string)
                               (Some new_id) (Some v_assigned_tables))) flt (tick m0)
                = (Returned j, m1) ->
             (j_success j = Some false /\
              (m_db m1 = m_db m \/
               m_db m1 = delete_reservation new_id (insert_reservation row (m_db m)))) \/
             creation_succeeded (m_db m) j (m_db m1)).
    { clear H. intros Hdiners H.
      rewrite run_execute in H. stop_here H.
      rewrite run_set_vars in H. rewrite run_call in H. simpl in H.
      match type of H with
      | match ?c with _ => _ end = _ => destruct c as [[ids|e] m2] eqn:Ha
      end; [|discriminate].
      destruct ids as [|i ids]; simpl in H.
      - apply assign_returns_nothing in Ha. simpl in Ha.
        rewrite run_execute in H. simpl in H. stop_here H.
        unfold ret in H. injection H as <- <-. left. simpl. split; [reflexivity|].
        right. rewrite Ha, Hdb0. reflexivity.
      - unfold ret in H. injection H as <- <-. right. simpl.
        pose proof (assign_returns _ _ _ _ _ _ _ _ _ _ Ha) as (_ & Hdb & _).
        pose proof (assign_loop_outcome _ _ _ _ _ _ _ _ _ _ Ha) as (n & Hout & _).
        simpl in Hdb, Hout. rewrite Hdb0 in Hdb, Hout.
        exists (i :: ids), n. repeat split; try assumption; discriminate. }
    rewrite Hdb0 in H.
    destruct (j_success (check_diners_limit (m_db m) p_date p_time p_guests))
      as [[|]|] eqn:Ej.
    - apply Hgo; [discriminate | exact H].
    - unfold ret in H. injection H as <- <-. left. simpl. rewrite Hdb0. auto.
    - apply Hgo; [discriminate | exact H]. }
  unfold hours_open in Hnext.
  destruct (limit_1 (filter (fun s => (ssd_date s =? p_date) && ssd_is_active s)
                            (special_schedule_days (m_db m)))) as [s|].
  - rewrite run_ret in H. eapply Hnext; [| |exact H]; [reflexivity|].
    intros Hh. apply hours_test, Hh.
  - rewrite run_select in H. simpl in H. stop_here H.
    eapply Hnext; [| |exact H]; [reflexivity|].
    intros Hh. apply regular_hours_test, Hh.
Qed.

(** Every way the function can return, when the generated id is new: a
    failure that leaves the database as it was, or a success. *)
Lemma create_returns_cases flt (m : machine (option uuid)) j m' :
  (forall r, In r (reservations (m_db m)) -> r_id r <> new_id) ->
  create flt m = (Returned j, m') ->
  (j_success j = Some false /\ m_db m' = m_db m) \/
  creation_succeeded (m_db m) j (m_db m').
Proof.
  intros Hfresh Hrun. unfold create_reservation_with_assignment in Hrun.
  rewrite run_set_vars in Hrun. unfold exception_block in Hrun.
  match type of Hrun with
  | match ?c with _ => _ end = _ => destruct c as [[j1|e] m1] eqn:Hbody
  end.
  - injection Hrun as <- <-. apply create_body_returns in Hbody. simpl in Hbody.
    destruct Hbody as [[Hf [Hdb|Hdb]]|Hs]; [left; auto | left | right; exact Hs].
    split; [exact Hf|]. rewrite Hdb.
    apply (delete_inserted_reservation row). exact Hfresh.
  - left. apply create_body_outcome in Hbody; [|reflexivity|exact Hfresh].
    destruct Hbody as [Hvars _]. simpl in Hrun.
    unfold create_reservation_handler in Hrun.
    unfold bind at 1 in Hrun. unfold bind at 1 in Hrun. unfold get_vars in Hrun.
    simpl in Hrun.
    destruct Hvars as [Hv|Hv]; rewrite Hv in Hrun.
    + unfold ret in Hrun. injection Hrun as <- <-. auto.
    + unfold execute, statement in Hrun. simpl in Hrun.
      destruct (flt (m_count m1)); [discriminate|].
      unfold ret in Hrun. injection Hrun as <- <-. simpl. split; [reflexivity|].
      apply delete_reservation_fresh, Hfresh.
Qed.

(** A success can only come from the body: the handler answers with a failure. *)
Lemma create_success_comes_from_body flt (m : machine (option uuid)) j m' :
  create flt m = (Returned j, m') ->
  j_success j = Some true ->
  creation_succeeded (m_db m) j (m_db m').
Proof.
  intros Hrun Hok. unfold create_reservation_with_assignment in Hrun.
  rewrite run_set_vars in Hrun. unfold exception_block in Hrun.
  match type of Hrun with
  | match ?c with _ => _ end = _ => destruct c as [[j1|e] m1] eqn:Hbody
  end.
  - injection Hrun as <- <-. apply create_body_returns in Hbody. simpl in Hbody.
    destruct Hbody as [[Hf _]|Hs]; [congruence | exact Hs].
  - exfalso. simpl in Hrun. unfold create_reservation_handler in Hrun.
    unfold bind at 1 in Hrun. unfold bind at 1 in Hrun. unfold get_vars in Hrun.
    simpl in Hrun.
    destruct (m_vars m1) as [id|].
    + unfold execute, statement in Hrun. simpl in Hrun.
      destruct (flt (m_count m1)); [discriminate|].
      unfold ret in Hrun. injection Hrun as <- <-. discriminate.
    + unfold ret in Hrun. injection Hrun as <- <-. discriminate.
Qed.
End CreateCases.

(** A reservation without assignment rows does not change the availability
    of any table. *)
Lemma is_table_available_insert (r : reservation) (d : DB) (tid : uuid) (p_date : date)
      (p_start_at p_end_at : timestamptz) (p_exclude : option uuid) :
  (forall a, In a (reservation_table_assignments d) -> rta_reservation_id a <> r_id r) ->
  is_table_available (insert_reservation r d) tid p_date p_start_at p_end_at p_exclude
  = is_table_available d tid p_date p_start_at p_end_at p_exclude.
Proof.
  intros Hnone. unfold is_table_available. simpl. rewrite existsb_app. simpl.
  replace (existsb (fun a => uuid_eqb (rta_reservation_id a) (r_id r)
                             && uuid_eqb (rta_table_id a) tid)
                   (reservation_table_assignments d)) with false.
  - simpl. rewrite !orb_false_r. reflexivity.
  - symmetry. apply not_true_is_false. intros He. apply existsb_exists in He.
    destruct He as (a & Hin & Ha). apply andb_true_iff in Ha. destruct Ha as [Ha _].
    apply uuid_eqb_eq in Ha. exact (Hnone a Hin Ha).
Qed.

(** The tables a loop outcome returns passed the availability check. *)
Lemma loop_outcome_available rid p_date p_start_at p_end_at p_guests d zs ids d' n :
  loop_outcome rid p_date p_start_at p_end_at p_guests d zs ids d' n ->
  Forall (fun id => is_table_available d id p_date p_start_at p_end_at None = true) ids.
Proof.
  intros Hout.
  inversion Hout as [Hall|b a z t Heq Hall Hin Hfit|b a z tc Heq Hall Hno Hin Hfit Hav]; subst.
  - constructor.
  - apply table_fits_true in Hfit. constructor; [tauto | constructor].
  - exact Hav.
Qed.

(** X1.  A successful creation has appended exactly one reservation row,
    confirmed, with [end_at = start_at + duration], and one assignment row
    per returned table; the returned list is not empty, every table in it was
    available for the window, and nothing else has changed. *)
Theorem successful_creation_appends_the_booking :
  forall at_madrid check_diners_limit new_id p_customer_id p_date p_time p_guests
         p_special_requests p_duration_minutes p_preferred_zone_id
         flt (m : machine (option uuid)) j m',
    (forall a, In a (reservation_table_assignments (m_db m)) ->
               rta_reservation_id a <> new_id) ->
    create_reservation_with_assignment at_madrid check_diners_limit new_id p_customer_id
      p_date p_time p_guests p_special_requests p_duration_minutes p_preferred_zone_id flt m
    = (Returned j, m') ->
    j_success j = Some true ->
    exists ids,
      ids <> [] /\ j = created new_id ids /\
      m_db m' =
        set_assignments
          (reservation_table_assignments (m_db m) ++ map (mk_assignment new_id) ids)
          (insert_reservation
             (new_reservation at_madrid new_id p_customer_id p_date p_time p_guests
                              p_special_requests p_duration_minutes) (m_db m)) /\
      Forall (fun id => is_table_available (m_db m) id p_date (at_madrid p_date p_time)
                          (at_madrid p_date p_time + p_duration_minutes * 60) None = true)
             ids.
Proof.
  intros at_madrid check_diners_limit new_id p_customer_id p_date p_time p_guests
         p_special_requests p_duration_minutes p_preferred_zone_id flt m j m'
         Hnone Hrun Hok.
  apply create_success_comes_from_body in Hrun; [|exact Hok].
  destruct Hrun as (ids & n & Hne & Hj & _ & _ & _ & Hdb & Hout).
  exists ids. repeat split; try assumption.
  apply loop_outcome_available in Hout.
  eapply Forall_impl; [|exact Hout]. intros id Hid.
  rewrite <- (is_table_available_insert
                (new_reservation at_madrid new_id p_customer_id p_date p_time p_guests
                                 p_special_requests p_duration_minutes) (m_db m));
    [exact Hid | exact Hnone].
Qed.

Lemma successful_creation_appends_the_booking_witness :
  let m := Scenario.fresh Scenario.small_tables (@None uuid) in
  exists j m' ids,
    create_reservation_with_assignment Scenario.madrid Scenario.diners_ok 100 7
      Scenario.thursday Scenario.eight_pm 6 None 90 None no_faults m = (Returned j, m') /\
    ids <> [] /\ j = created 100 ids /\
    m_db m' =
      set_assignments
        (reservation_table_assignments (m_db m) ++ map (mk_assignment 100) ids)
        (insert_reservation
           (new_reservation Scenario.madrid 100 7 Scenario.thursday Scenario.eight_pm 6
                            None 90) (m_db m)) /\
    Forall (fun id => is_table_available (m_db m) id Scenario.thursday
                        (Scenario.madrid Scenario.thursday Scenario.eight_pm)
                        (Scenario.madrid Scenario.thursday Scenario.eight_pm + 90 * 60)
                        None = true)
           ids.
Proof.
  intros m.
  destruct (successful_creation_appends_the_booking Scenario.madrid Scenario.diners_ok 100 7
              Scenario.thursday Scenario.eight_pm 6 None 90 None no_faults m
              (created 100 [12; 13])
              (snd (create_reservation_with_assignment Scenario.madrid Scenario.diners_ok
                      100 7 Scenario.thursday Scenario.eight_pm 6 None 90 None no_faults m)))
    as (ids & H).
  - simpl. intros a [].
  - vm_compute. reflexivity.
  - reflexivity.
  - eexists _, _, ids. split; [vm_compute; reflexivity | exact H].
Defined.

(** X2.  A creation succeeds only when no special closed day covers the date,
    the time lies within the opening hours in force (those of the special
    schedule of the date when there is an active one, else those of an active
    weekly schedule of the weekday, bounds included) and the diners-limit
    check did not answer [success = false]. *)
Theorem successful_creation_passed_the_checks :
  forall at_madrid check_diners_limit new_id p_customer_id p_date p_time p_guests
         p_special_requests p_duration_minutes p_preferred_zone_id
         flt (m : machine (option uuid)) j m',
    create_reservation_with_assignment at_madrid check_diners_limit new_id p_customer_id
      p_date p_time p_guests p_special_requests p_duration_minutes p_preferred_zone_id flt m
    = (Returned j, m') ->
    j_success j = Some true ->
    (forall scd, In scd (special_closed_days (m_db m)) -> closes p_date scd = false) /\
    hours_open (m_db m) p_date p_time /\
    j_success (check_diners_limit (m_db m) p_date p_time p_guests) <> Some false.
Proof.
  intros at_madrid check_diners_limit new_id p_customer_id p_date p_time p_guests
         p_special_requests p_duration_minutes p_preferred_zone_id flt m j m' Hrun Hok.
  apply create_success_comes_from_body in Hrun; [|exact Hok].
  destruct Hrun as (ids & n & _ & _ & Hclosed & Hhours & Hdiners & _).
  split; [|split; assumption].
  intros scd Hin. destruct (closes p_date scd) eqn:E; [|reflexivity].
  assert (Ht : existsb (closes p_date) (special_closed_days (m_db m)) = true)
    by (apply existsb_exists; eauto).
  congruence.
Qed.

Lemma successful_creation_passed_the_checks_witness :
  let m := Scenario.fresh Scenario.small_tables (@None uuid) in
  (forall scd, In scd (special_closed_days (m_db m)) ->
               closes Scenario.thursday scd = false) /\
  hours_open (m_db m) Scenario.thursday Scenario.eight_pm /\
  j_success (Scenario.diners_ok (m_db m) Scenario.thursday Scenario.eight_pm 6) <> Some false.
Proof.
  intros m.
  apply (successful_creation_passed_the_checks Scenario.madrid Scenario.diners_ok 100 7
           Scenario.thursday Scenario.eight_pm 6 None 90 None no_faults m
           (created 100 [12; 13])
           (snd (create_reservation_with_assignment Scenario.madrid Scenario.diners_ok
                   100 7 Scenario.thursday Scenario.eight_pm 6 None 90 None no_faults m))).
  - vm_compute. reflexivity.
  - reflexivity.
Defined.

(** An unavailable table: some active reservation of the date holds it
    during the window. *)
Lemma held_table_is_unavailable (d : DB) (tid : uuid) (p_date : date)
      (p_start_at p_end_at : timestamptz) (r : reservation) (rta : assignment) :
  In r (reservations d) -> In rta (reservation_table_assignments d) ->
  holds_table p_date p_start_at p_end_at None tid r rta ->
  is_table_available d tid p_date p_start_at p_end_at None = false.
Proof.
  intros Hr Hrta Hh. apply is_table_available_not_occupied, occupied_for_window_In.
  exists r, rta. auto.
Qed.

(** X3.  Creating a reservation keeps the floor free of double bookings: when
    no two active reservations of the same date share a table over
    overlapping intervals before the call, none do after it, whatever the
    result and whatever statements failed.  The generated id is new: no
    reservation and no assignment row carries it. *)
Theorem creation_keeps_tables_single_booked :
  forall at_madrid check_diners_limit new_id p_customer_id p_date p_time p_guests
         p_special_requests p_duration_minutes p_preferred_zone_id
         flt (m : machine (option uuid)) j m',
    (forall r, In r (reservations (m_db m)) -> r_id r <> new_id) ->
    (forall a, In a (reservation_table_assignments (m_db m)) ->
               rta_reservation_id a <> new_id) ->
    no_double_booking (m_db m) ->
    create_reservation_with_assignment at_madrid check_diners_limit new_id p_customer_id
      p_date p_time p_guests p_special_requests p_duration_minutes p_preferred_zone_id flt m
    = (Returned j, m') ->
    no_double_booking (m_db m').
Proof.
  intros at_madrid check_diners_limit new_id p_customer_id p_date p_time p_guests
         p_special_requests p_duration_minutes p_preferred_zone_id flt m j m'
         Hfresh Hnone Hinv Hrun.
  apply create_returns_cases in Hrun; [|exact Hfresh].
  destruct Hrun as [[_ ->]|Hs]; [exact Hinv|].
  destruct Hs as (ids & n & _ & _ & _ & _ & _ & Hdb & Hout).
  apply loop_outcome_available in Hout.
  set (row := new_reservation at_madrid new_id p_customer_id p_date p_time p_guests
                              p_special_requests p_duration_minutes) in *.
  assert (Havail : forall id, In id ids ->
             is_table_available (m_db m) id p_date (r_start_at row) (r_end_at row) None = true).
  { intros id Hid. rewrite Forall_forall in Hout. specialize (Hout id Hid).
    rewrite is_table_available_insert in Hout; [exact Hout | exact Hnone]. }
  clear Hout. rewrite Hdb. clear Hdb.
  (* where a reservation and an assignment row of the new state come from *)
  assert (Hres : forall r, In r (reservations (m_db m) ++ [row]) ->
             (In r (reservations (m_db m)) /\ r_id r <> new_id) \/ r = row).
  { intros r Hr. apply in_app_iff in Hr. destruct Hr as [Hr|[<-|[]]]; [left|right]; auto. }
  assert (Hasg : forall a, In a (reservation_table_assignments (m_db m)
                                   ++ map (mk_assignment new_id) ids) ->
             (In a (reservation_table_assignments (m_db m)) /\ rta_reservation_id a <> new_id)
             \/ (rta_reservation_id a = new_id /\ In (rta_table_id a) ids)).
  { intros a Ha. apply in_app_iff in Ha. destruct Ha as [Ha|Ha]; [left; auto|right].
    apply in_map_iff in Ha. destruct Ha as (id & <- & Hid). simpl. auto. }
  (* an old active reservation cannot overlap the new row on a returned table *)
  assert (Hclash : forall r a,
             In r (reservations (m_db m)) -> In a (reservation_table_assignments (m_db m)) ->
             rta_reservation_id a = r_id r -> In (rta_table_id a) ids ->
             r_date r = r_date row -> is_active_reservation r ->
             r_start_at r < r_end_at row -> r_start_at row < r_end_at r -> False).
  { intros r a Hr Ha Hid Hin Hd Hact H1 H2.
    pose proof (Havail _ Hin) as Hav.
    rewrite (held_table_is_unavailable (m_db m) (rta_table_id a) p_date
               (r_start_at row) (r_end_at row) r a Hr Ha) in Hav; [discriminate|].
    unfold holds_table. repeat split; try assumption; try lia.
    intros x Hx. discriminate. }
  intros r1 r2 a1 a2 (Hr1 & Hr2 & Ha1 & Ha2 & Hi1 & Hi2 & Hneq & Ht & Hd & Hact1 & Hact2 & Ho1 & Ho2).
  simpl in Hr1, Hr2, Ha1, Ha2.
  apply Hres in Hr1, Hr2. apply Hasg in Ha1, Ha2.
  destruct Hr1 as [[Hr1 Hn1]| ->], Hr2 as [[Hr2 Hn2]| ->].
  - (* both reservations are old, so are their assignment rows *)
    destruct Ha1 as [[Ha1 _]|[He _]]; [|congruence].
    destruct Ha2 as [[Ha2 _]|[He _]]; [|congruence].
    apply (Hinv r1 r2 a1 a2). unfold double_booked. auto 15.
  - (* the second one is the new row *)
    destruct Ha1 as [[Ha1 _]|[He _]]; [|congruence].
    destruct Ha2 as [[_ Hc]|[_ Hin]]; [simpl in Hi2; congruence|].
    apply (Hclash r1 a1); auto. rewrite Ht. exact Hin.
  - (* the first one is the new row *)
    destruct Ha2 as [[Ha2 _]|[He _]]; [|congruence].
    destruct Ha1 as [[_ Hc]|[_ Hin]]; [simpl in Hi1; congruence|].
    apply (Hclash r2 a2); auto. rewrite <- Ht. exact Hin.
  - apply Hneq. reflexivity.
Qed.

(** The booked floor of the scenario has no double booking. *)
Lemma interior_booked_is_single_booked : no_double_booking Scenario.interior_booked.
Proof.
  intros r1 r2 a1 a2 (Hr1 & Hr2 & Ha1 & Ha2 & Hi1 & Hi2 & Hneq & Ht & _).
  simpl in Hr1, Hr2, Ha1, Ha2.
  destruct Ha1 as [<-|[<-|[]]], Ha2 as [<-|[<-|[]]]; simpl in Hi1, Hi2, Ht;
    try discriminate; congruence.
Qed.

Lemma creation_keeps_tables_single_booked_witness :
  let m := Scenario.fresh Scenario.interior_booked (@None uuid) in
  exists j m',
    create_reservation_with_assignment Scenario.madrid Scenario.diners_ok 100 7
      Scenario.thursday Scenario.eight_pm 4 None 90 None no_faults m = (Returned j, m') /\
    j_success j = Some true /\
    no_double_booking (m_db m').
Proof.
  intros m. eexists _, _. split; [vm_compute; reflexivity|]. split; [reflexivity|].
  eapply (creation_keeps_tables_single_booked Scenario.madrid Scenario.diners_ok 100 7
            Scenario.thursday Scenario.eight_pm 4 None 90 None no_faults m).
  - simpl. intros r [<-|[<-|[]]]; discriminate.
  - simpl. intros a [<-|[<-|[]]]; discriminate.
  - exact interior_booked_is_single_booked.
  - vm_compute. reflexivity.
Defined.

(** * More about the allocator *)

Lemma zone_order_none (a b : zone) :
  zone_order None a b = not_after (z_priority_order a ?= z_priority_order b).
Proof. reflexivity. Qed.

Lemma filter_ext_eq {A : Type} (f g : A -> bool) (l : list A) :
  (forall x, f x = g x) -> filter f l = filter g l.
Proof.
  intros H. induction l as [|x r IH]; simpl; [reflexivity|]. rewrite H, IH. reflexivity.
Qed.

(** X4.  Without a preferred zone the loop visits every active zone, each
    once per row, in ascending order of [priority_order]. *)
Theorem zones_are_searched_by_ascending_priority :
  forall (d : DB),
    Permutation (zones_to_search None d) (filter z_is_active (zones d)) /\
    StronglySorted (fun a b => z_priority_order a <= z_priority_order b)
                   (zones_to_search None d).
Proof.
  intros d. unfold zones_to_search. split.
  - rewrite (filter_ext_eq (zone_filter None) z_is_active).
    + apply order_by_perm.
    + intros z. unfold zone_filter. apply andb_true_r.
  - eapply StronglySorted_weaken;
      [| apply (order_by_key_sorted z_priority_order Z.compare Z_order)].
    intros a b H. simpl in H. unfold not_after in H.
    destruct (z_priority_order a ?= z_priority_order b) eqn:E; try discriminate.
    + rewrite Z.compare_eq_iff in E. lia.
    + rewrite Z.compare_lt_iff in E. lia.
Qed.

Lemma table_fits_same_zone_id p_date p_start_at p_end_at p_guests (d : DB) (z z' : zone)
      (t : table) :
  z_id z = z_id z' ->
  table_fits p_date p_start_at p_end_at p_guests d z t
  = table_fits p_date p_start_at p_end_at p_guests d z' t.
Proof. intros H. unfold table_fits. rewrite H. reflexivity. Qed.

(** X5.  When the preferred zone is active and one of its tables fits, the
    allocator returns a single table of that zone, the smallest that fits,
    whatever the priority of the zone and whatever the other zones offer. *)
Theorem preferred_zone_with_a_fitting_table_is_used :
  forall rid p_date p_start_at p_end_at p_guests p flt (m : machine unit) ids m' z t,
    In z (zones (m_db m)) -> z_id z = p -> z_is_active z = true ->
    In t (tables (m_db m)) ->
    table_fits p_date p_start_at p_end_at p_guests (m_db m) z t = true ->
    assign_tables_to_reservation rid p_date p_start_at p_end_at p_guests (Some p) flt m
    = (Returned ids, m') ->
    exists t',
      ids = [t_id t'] /\ In t' (tables (m_db m)) /\
      t_zone_id t' = Some p /\ t_is_active t' = true /\
      p_guests <= t_capacity t' <= t_capacity t /\
      is_table_available (m_db m) (t_id t') p_date p_start_at p_end_at None = true /\
      reservation_table_assignments (m_db m')
      = reservation_table_assignments (m_db m) ++ [mk_assignment rid (t_id t')].
Proof.
  intros rid p_date p_start_at p_end_at p_guests p flt m ids m' z t
         Hz Hid Hact Ht Hfit Hrun.
  assert (Hzs : forall z0, In z0 (zones_to_search (Some p) (m_db m)) -> z_id z0 = p).
  { intros z0 H0. apply zones_to_search_In in H0. destruct H0 as [_ Hf].
    unfold zone_filter in Hf. apply andb_true_iff in Hf. destruct Hf as [_ He].
    apply uuid_eqb_eq in He. exact He. }
  assert (Hzin : In z (zones_to_search (Some p) (m_db m))).
  { apply zones_to_search_In. split; [exact Hz|]. unfold zone_filter.
    rewrite Hact. simpl. apply uuid_eqb_eq. exact Hid. }
  assert (Hfits : forall z0, In z0 (zones_to_search (Some p) (m_db m)) ->
                    table_fits p_date p_start_at p_end_at p_guests (m_db m) z0 t = true).
  { intros z0 H0. rewrite (table_fits_same_zone_id _ _ _ _ _ z0 z); [exact Hfit|].
    rewrite (Hzs z0 H0). symmetry. exact Hid. }
  apply assign_returns in Hrun. destruct Hrun as (Hids & Hdb & _).
  pose proof (search_cases p_date p_start_at p_end_at p_guests (m_db m)
                (zones_to_search (Some p) (m_db m))) as Hs.
  destruct (search p_date p_start_at p_end_at p_guests (m_db m)
              (zones_to_search (Some p) (m_db m))) as [|z1 t1|z1 tc1]; simpl in Hids.
  - exfalso. destruct Hs as [Hall _]. rewrite Forall_forall in Hall.
    destruct (Hall z Hzin) as [Hnt _]. rewrite (Hnt t Ht) in Hfit. discriminate.
  - destruct Hs as (b1 & a1 & Heq1 & _ & Hq & _).
    assert (Hz1 : In z1 (zones_to_search (Some p) (m_db m))) by (rewrite Heq1; apply in_elt).
    apply single_table_query_some in Hq. destruct Hq as (Hin1 & Hfit1 & Hmin).
    pose proof (proj1 (table_fits_true _ _ _ _ _ _ _) Hfit1) as (Ha & Hzid & Hcap & Hav).
    exists t1. split; [exact Hids|]. split; [exact Hin1|].
    split; [rewrite Hzid, (Hzs z1 Hz1); reflexivity|]. split; [exact Ha|].
    split; [split; [exact Hcap | apply Hmin; [exact Ht | apply Hfits, Hz1]]|].
    split; [exact Hav|].
    rewrite Hdb, Hids. reflexivity.
  - exfalso. destruct Hs as (b1 & a1 & Heq1 & _ & Hq1 & _).
    assert (Hz1 : In z1 (zones_to_search (Some p) (m_db m))) by (rewrite Heq1; apply in_elt).
    rewrite single_table_query_none in Hq1.
    specialize (Hfits z1 Hz1). rewrite (Hq1 t Ht) in Hfits. discriminate.
Qed.

Lemma preferred_zone_with_a_fitting_table_is_used_witness :
  let m := Scenario.fresh Scenario.two_zones tt in
  exists m' t',
    assign_tables_to_reservation 100 0 0 5400 2 (Some 2) no_faults m = (Returned [21], m') /\
    [21] = [t_id t'] /\ In t' (tables (m_db m)) /\
    t_zone_id t' = Some 2 /\ t_is_active t' = true /\
    2 <= t_capacity t' <= 4 /\
    is_table_available (m_db m) (t_id t') 0 0 5400 None = true /\
    reservation_table_assignments (m_db m')
    = reservation_table_assignments (m_db m) ++ [mk_assignment 100 (t_id t')].
Proof.
  intros m.
  destruct (preferred_zone_with_a_fitting_table_is_used 100 0 0 5400 2 2 no_faults m [21]
              (snd (assign_tables_to_reservation 100 0 0 5400 2 (Some 2) no_faults m))
              Scenario.terraza (mk_table 21 "T1" 4 (Some 1) (Some 2) true))
    as (t' & H).
  - right. left. reflexivity.
  - reflexivity.
  - reflexivity.
  - right. left. reflexivity.
  - vm_compute. reflexivity.
  - vm_compute. reflexivity.
  - eexists _, t'. split; [vm_compute; reflexivity | exact H].
Defined.

(** X6.  When no zone is eligible (no zone is active, or a zone is preferred
    and no active zone has its id) the allocator returns the empty list after
    the zone query alone, and writes nothing. *)
Theorem no_eligible_zone_no_assignment :
  forall rid p_date p_start_at p_end_at p_guests pref flt (m : machine unit) ids m',
    (forall z, In z (zones (m_db m)) -> z_is_active z = true ->
               exists p, pref = Some p /\ z_id z <> p) ->
    assign_tables_to_reservation rid p_date p_start_at p_end_at p_guests pref flt m
    = (Returned ids, m') ->
    ids = [] /\ m_db m' = m_db m /\ m_count m' = S (m_count m).
Proof.
  intros rid p_date p_start_at p_end_at p_guests pref flt m ids m' Hnone Hrun.
  assert (Hzs : zones_to_search pref (m_db m) = []).
  { destruct (zones_to_search pref (m_db m)) as [|z r] eqn:E; [reflexivity|].
    assert (Hin : In z (zones_to_search pref (m_db m))) by (rewrite E; left; reflexivity).
    apply zones_to_search_In in Hin. destruct Hin as [Hin Hf].
    unfold zone_filter in Hf. apply andb_true_iff in Hf. destruct Hf as [Ha Hp].
    destruct (Hnone z Hin Ha) as (p & -> & Hneq).
    apply uuid_eqb_eq in Hp. contradiction. }
  apply assign_returns in Hrun. rewrite Hzs in Hrun. simpl in Hrun.
  destruct Hrun as (-> & Hdb & Hc). split; [reflexivity|]. split.
  - rewrite Hdb. simpl. rewrite app_nil_r. apply set_assignments_same.
  - lia.
Qed.

Lemma no_eligible_zone_no_assignment_witness :
  let m := Scenario.fresh Scenario.two_zones tt in
  exists m',
    assign_tables_to_reservation 100 0 0 5400 2 (Some 3) no_faults m = (Returned [], m') /\
    @nil uuid = [] /\ m_db m' = m_db m /\ m_count m' = S (m_count m).
Proof.
  intros m. eexists. split; [vm_compute; reflexivity|].
  apply (no_eligible_zone_no_assignment 100 0 0 5400 2 (Some 3) no_faults m []).
  - intros z Hin _. exists 3. split; [reflexivity|].
    simpl in Hin. destruct Hin as [<-|[<-|[]]]; simpl; lia.
  - vm_compute. reflexivity.
Defined.




(** * More about the slot calculator and the reporter *)

Lemma is_occupied_In (occ : list (time * uuid)) (st : time) (tid : uuid) :
  is_occupied occ st tid = true <-> In (st, tid) occ.
Proof.
  unfold is_occupied. rewrite existsb_exists. split.
  - intros ([s i] & Hin & Hc). simpl in Hc. apply andb_true_iff in Hc.
    destruct Hc as [Hs Hi]. apply Z.eqb_eq in Hs. apply uuid_eqb_eq in Hi. subst. exact Hin.
  - intros Hin. exists (st, tid). split; [exact Hin|]. simpl.
    rewrite Z.eqb_refl. apply uuid_eqb_eq. reflexivity.
Qed.

Lemma slot_range_of_slot_time at_madrid (d : DB) (p_date : date) (p_dur : Z) (st : time) :
  In st (slot_times d (extract_dow p_date)) ->
  In (mk_slot_range st (at_madrid p_date st) (at_madrid p_date st + p_dur * 60))
     (slot_ranges at_madrid d p_date p_dur).
Proof. intros H. apply slot_ranges_In. simpl. auto. Qed.

Lemma slot_occupancy_is_window_occupancy at_madrid (d : DB) (p_date : date)
      (p_dur : Z) (st : time) (tid : uuid) :
  In st (slot_times d (extract_dow p_date)) ->
  (In (st, tid) (occupied_tables d p_date (slot_ranges at_madrid d p_date p_dur))
   <->
   In tid (occupied_for_window d p_date (at_madrid p_date st)
             (at_madrid p_date st + p_dur * 60) None)).
Proof.
  intros Hst.
  rewrite occupied_tables_In, occupied_for_window_In. split.
  - intros (sr & r & rta & Hsr & Hs & Hr & Hrta & Hh).
    apply slot_ranges_In in Hsr. destruct Hsr as (_ & Hstart & Hend).
    rewrite Hstart, Hend, Hs in Hh. eauto.
  - intros (r & rta & Hr & Hrta & Hh).
    exists (mk_slot_range st (at_madrid p_date st) (at_madrid p_date st + p_dur * 60)), r, rta.
    split; [apply slot_range_of_slot_time, Hst|]. simpl. auto.
Qed.

(** X8.  For a slot of the grid, the slot calculator and the reporter agree on
    which tables are occupied: the reporter asked for the slot time and the
    same duration, without exclusion, marks a table occupied exactly when the
    calculator holds it occupied at that slot. *)
Theorem calculator_and_reporter_agree_on_occupancy :
  forall at_madrid (d : DB) (p_date : date) (p_duration_minutes : Z) (st : time) (tid : uuid),
    In st (slot_times d (extract_dow p_date)) ->
    (In (st, tid) (occupied_tables d p_date (slot_ranges at_madrid d p_date p_duration_minutes))
     <->
     In tid (occupied_for_window d p_date (at_madrid p_date st)
               (at_madrid p_date st + p_duration_minutes * 60) None)).
Proof.
  intros at_madrid d p_date p_dur st tid Hst.
  apply slot_occupancy_is_window_occupancy, Hst.
Qed.

Lemma calculator_and_reporter_agree_on_occupancy_witness :
  In (Scenario.eight_pm, 11)
     (occupied_tables Scenario.interior_booked Scenario.thursday
        (slot_ranges Scenario.madrid Scenario.interior_booked Scenario.thursday 90))
  <->
  In 11 (occupied_for_window Scenario.interior_booked Scenario.thursday
           (Scenario.madrid Scenario.thursday Scenario.eight_pm)
           (Scenario.madrid Scenario.thursday Scenario.eight_pm + 90 * 60) None).
Proof.
  apply (calculator_and_reporter_agree_on_occupancy Scenario.madrid Scenario.interior_booked
           Scenario.thursday 90 Scenario.eight_pm 11).
  vm_compute. left. reflexivity.
Defined.

(** At a slot of the grid, the calculator holds a table occupied exactly when
    the availability check of the allocator refuses it for the window of the
    slot. *)
Lemma calculator_occupied_iff_unavailable at_madrid (d : DB) (p_date : date) (p_dur : Z)
      (st : time) (tid : uuid) :
  In st (slot_times d (extract_dow p_date)) ->
  is_occupied (occupied_tables d p_date (slot_ranges at_madrid d p_date p_dur)) st tid
  = negb (is_table_available d tid p_date (at_madrid p_date st)
            (at_madrid p_date st + p_dur * 60) None).
Proof.
  intros Hst.
  pose proof (slot_occupancy_is_window_occupancy at_madrid d p_date p_dur st tid Hst)
    as Hagree.
  rewrite <- is_occupied_In, <- is_table_available_not_occupied in Hagree.
  destruct (is_occupied _ st tid), (is_table_available d tid p_date _ _ None);
    simpl; try reflexivity.
  - destruct Hagree as [H _]. specialize (H eq_refl). discriminate.
  - destruct Hagree as [_ H]. specialize (H eq_refl). discriminate.
Qed.

Lemma left_join_zones_complete (d : DB) (z : zone) :
  In z (zones d) -> In (Some z) (left_join_zones d (Some (z_id z))).
Proof.
  intros Hz. unfold left_join_zones.
  assert (Hf : In z (filter (fun z0 => null_eqb (Some (z_id z)) (z_id z0)) (zones d))).
  { apply filter_In. split; [exact Hz|]. simpl. apply uuid_eqb_eq. reflexivity. }
  destruct (filter (fun z0 => null_eqb (Some (z_id z)) (z_id z0)) (zones d)) as [|h r].
  - destruct Hf.
  - apply (in_map Some). exact Hf.
Qed.

(** A row of the result, traced back to the option it was kept for. *)
Lemma listed_row_has_an_option at_madrid (d : DB) (p_date : date) (p_guests p_dur : Z)
      (row : slot_row) :
  In row (get_available_time_slots_with_zones at_madrid d p_date p_guests p_dur) ->
  exists ao,
    In ao (all_options d (slot_ranges at_madrid d p_date p_dur)
             (occupied_tables d p_date (slot_ranges at_madrid d p_date p_dur))) /\
    p_guests <= ao_capacity ao /\
    slot_time row = ao_slot_time ao /\ zone_name row = ao_zone_name ao /\
    zone_id row = ao_zone_id ao.
Proof.
  intros Hr. unfold get_available_time_slots_with_zones in Hr.
  apply in_map_iff in Hr. destruct Hr as (a & <- & Ha).
  apply ordered_zone_slots_In in Ha. destruct Ha as (ao & Hin & ->).
  apply best_option_sub in Hin. exists ao. simpl. tauto.
Qed.

(** X9.  Asking for fewer guests never removes a slot: a slot and zone name
    listed for a party is listed for every smaller party. *)
Theorem smaller_party_sees_every_slot_of_a_larger_one :
  forall at_madrid (d : DB) (p_date : date) (p_guests p_guests' p_duration_minutes : Z)
         (row : slot_row),
    p_guests' <= p_guests ->
    In row (get_available_time_slots_with_zones at_madrid d p_date p_guests
              p_duration_minutes) ->
    exists row',
      In row' (get_available_time_slots_with_zones at_madrid d p_date p_guests'
                 p_duration_minutes) /\
      slot_time row' = slot_time row /\ zone_name row' = zone_name row.
Proof.
  intros at_madrid d p_date g g' p_dur row Hle Hr.
  apply listed_row_has_an_option in Hr.
  destruct Hr as (ao & Hin & Hcap & Hs & Hn & _).
  destruct (every_option_has_a_row at_madrid d p_date g' p_dur ao Hin) as (r' & Hr' & Hs' & Hn').
  - lia.
  - exists r'. split; [exact Hr'|]. split; congruence.
Qed.

Lemma smaller_party_sees_every_slot_of_a_larger_one_witness :
  exists row',
    In row' (get_available_time_slots_with_zones Scenario.madrid Scenario.two_zones
               Scenario.thursday 2 120) /\
    slot_time row' = Scenario.eleven_pm /\ zone_name row' = "Terraza"%string.
Proof.
  apply (smaller_party_sees_every_slot_of_a_larger_one Scenario.madrid Scenario.two_zones
           Scenario.thursday 4 2 120
           (mk_slot_row Scenario.eleven_pm "Terraza" (Some 2))).
  - lia.
  - vm_compute. right. left. reflexivity.
Defined.

(** X10.  On a weekday without an active schedule the result is empty,
    whatever the tables and the reservations. *)
Theorem no_active_schedule_no_slot :
  forall at_madrid (d : DB) (p_date : date) (p_guests p_duration_minutes : Z),
    (forall rs, In rs (restaurant_schedules d) ->
                rs_day_of_week rs = extract_dow p_date -> rs_is_active rs = false) ->
    get_available_time_slots_with_zones at_madrid d p_date p_guests p_duration_minutes = [].
Proof.
  intros at_madrid d p_date g p_dur Hnone.
  destruct (get_available_time_slots_with_zones at_madrid d p_date g p_dur) as [|row rest] eqn:E;
    [reflexivity|].
  exfalso.
  assert (Hr : In row (get_available_time_slots_with_zones at_madrid d p_date g p_dur))
    by (rewrite E; left; reflexivity).
  apply listed_row_has_an_option in Hr. destruct Hr as (ao & Hin & _).
  assert (Hsr : exists sr, In sr (slot_ranges at_madrid d p_date p_dur)).
  { apply all_options_In in Hin.
    destruct Hin as [(sr & _ & _ & Hsr & _)|(sr & _ & _ & Hsr & _)]; eauto. }
  destruct Hsr as (sr & Hsr). apply slot_ranges_In in Hsr. destruct Hsr as (Hst & _).
  apply slot_times_In in Hst. destruct Hst as (_ & rs & Hrs & Hd & Ha & _).
  rewrite (Hnone rs Hrs Hd) in Ha. discriminate.
Qed.

Lemma no_active_schedule_no_slot_witness :
  get_available_time_slots_with_zones Scenario.madrid Scenario.two_zones 1 2 120 = [].
Proof.
  apply (no_active_schedule_no_slot Scenario.madrid Scenario.two_zones 1 2 120).
  intros rs [<-|[]] Hd. vm_compute in Hd. discriminate.
Defined.

(** X11.  A listed slot can be served: when the result has a row for a slot
    and a zone id, the zone of that id carries the listed name and has, for
    the window of the slot, a table or a combination that passes the
    allocator's test ([table_fits], [combination_fits]) for the party. *)
Theorem listed_slot_has_a_fit_in_its_zone :
  forall at_madrid (d : DB) (p_date : date) (p_guests p_duration_minutes : Z)
         (row : slot_row) (p : uuid),
    In row (get_available_time_slots_with_zones at_madrid d p_date p_guests
              p_duration_minutes) ->
    zone_id row = Some p ->
    exists z,
      In z (zones d) /\ z_id z = p /\ z_name z = zone_name row /\
      ((exists t, In t (tables d) /\
                  table_fits p_date (at_madrid p_date (slot_time row))
                             (at_madrid p_date (slot_time row) + p_duration_minutes * 60)
                             p_guests d z t = true) \/
       (exists tc, In tc (table_combinations d) /\
                   combination_fits p_date (at_madrid p_date (slot_time row))
                                    (at_madrid p_date (slot_time row) + p_duration_minutes * 60)
                                    p_guests d z tc = true)).
Proof.
  intros at_madrid d p_date g p_dur row p Hr Hp.
  apply listed_row_has_an_option in Hr.
  destruct Hr as (ao & Hin & Hcap & Hs & Hn & Hi).
  apply all_options_In in Hin.
  assert (Hzone : forall zo zid, In zo (left_join_zones d zid) ->
                    option_map z_id zo = Some p ->
                    exists z, zo = Some z /\ In z (zones d) /\ z_id z = p /\ zid = Some (z_id z)).
  { intros zo zid Hzo He. apply left_join_zones_In in Hzo.
    destruct zo as [z|]; simpl in He; [|discriminate].
    injection He as He. destruct Hzo as [Hz Hzid]. exists z. auto. }
  assert (Hfree : forall sr id,
             In sr (slot_ranges at_madrid d p_date p_dur) -> sr_slot_time sr = slot_time row ->
             is_occupied (occupied_tables d p_date (slot_ranges at_madrid d p_date p_dur))
                         (sr_slot_time sr) id = false ->
             is_table_available d id p_date (at_madrid p_date (slot_time row))
                                (at_madrid p_date (slot_time row) + p_dur * 60) None = true).
  { intros sr id Hsr Hst Hocc. apply slot_ranges_In in Hsr. destruct Hsr as (Hgrid & _).
    rewrite (calculator_occupied_iff_unavailable at_madrid d p_date p_dur _ id Hgrid) in Hocc.
    apply negb_false_iff in Hocc. rewrite Hst in Hocc. exact Hocc. }
  destruct Hin as [(sr & t & zo & Hsr & Ht & Hzo & Ha & Hocc & ->)
                  |(sr & tc & zo & Hsr & Ht & Hzo & Ha & Hocc & ->)];
    simpl in Hcap, Hs, Hn, Hi; rewrite Hp in Hi; symmetry in Hi;
    destruct (Hzone zo _ Hzo Hi) as (z & -> & Hz & Hzp & Hzid);
    exists z; (split; [exact Hz|]); (split; [exact Hzp|]); (split; [symmetry; exact Hn|]).
  - left. exists t. split; [exact Ht|]. apply table_fits_true.
    repeat split; auto. apply (Hfree sr); auto.
  - right. exists tc. split; [exact Ht|]. apply combination_fits_true.
    repeat split; auto.
    eapply Forall_impl; [|exact Hocc]. intros id Hid. apply (Hfree sr); auto.
Qed.

Lemma listed_slot_has_a_fit_in_its_zone_witness :
  exists z,
    In z (zones Scenario.small_tables) /\ z_id z = 1 /\ z_name z = "Interior"%string /\
    ((exists t, In t (tables Scenario.small_tables) /\
                table_fits Scenario.thursday
                           (Scenario.madrid Scenario.thursday Scenario.eight_pm)
                           (Scenario.madrid Scenario.thursday Scenario.eight_pm + 90 * 60)
                           6 Scenario.small_tables z t = true) \/
     (exists tc, In tc (table_combinations Scenario.small_tables) /\
                 combination_fits Scenario.thursday
                           (Scenario.madrid Scenario.thursday Scenario.eight_pm)
                           (Scenario.madrid Scenario.thursday Scenario.eight_pm + 90 * 60)
                           6 Scenario.small_tables z tc = true)).
Proof.
  apply (listed_slot_has_a_fit_in_its_zone Scenario.madrid Scenario.small_tables
           Scenario.thursday 6 90 (mk_slot_row Scenario.eight_pm "Interior" (Some 1)) 1).
  - vm_compute. left. reflexivity.
  - reflexivity.
Defined.

(** X12.  A slot that can be served is listed: for a slot of the grid, when a
    table or a combination of a zone passes the allocator's test for the
    window of the slot, the result has a row for the slot under the name of
    the zone. *)
Theorem slot_with_a_fit_is_listed :
  forall at_madrid (d : DB) (p_date : date) (p_guests p_duration_minutes : Z)
         (st : time) (z : zone),
    In st (slot_times d (extract_dow p_date)) ->
    In z (zones d) ->
    ((exists t, In t (tables d) /\
                table_fits p_date (at_madrid p_date st)
                           (at_madrid p_date st + p_duration_minutes * 60)
                           p_guests d z t = true) \/
     (exists tc, In tc (table_combinations d) /\
                 combination_fits p_date (at_madrid p_date st)
                                  (at_madrid p_date st + p_duration_minutes * 60)
                                  p_guests d z tc = true)) ->
    exists row,
      In row (get_available_time_slots_with_zones at_madrid d p_date p_guests
                p_duration_minutes) /\
      slot_time row = st /\ zone_name row = z_name z.
Proof.
  intros at_madrid d p_date g p_dur st z Hst Hz Hfit.
  pose (sr := mk_slot_range st (at_madrid p_date st) (at_madrid p_date st + p_dur * 60)).
  assert (Hsr : In sr (slot_ranges at_madrid d p_date p_dur))
    by (apply slot_range_of_slot_time, Hst).
  assert (Hocc : forall id,
             is_table_available d id p_date (at_madrid p_date st)
                                (at_madrid p_date st + p_dur * 60) None = true ->
             is_occupied (occupied_tables d p_date (slot_ranges at_madrid d p_date p_dur))
                         st id = false).
  { intros id Hav.
    rewrite (calculator_occupied_iff_unavailable at_madrid d p_date p_dur st id Hst), Hav.
    reflexivity. }
  assert (Hrow : forall ao,
             In ao (all_options d (slot_ranges at_madrid d p_date p_dur)
                      (occupied_tables d p_date (slot_ranges at_madrid d p_date p_dur))) ->
             g <= ao_capacity ao -> ao_slot_time ao = st -> ao_zone_name ao = z_name z ->
             exists row,
               In row (get_available_time_slots_with_zones at_madrid d p_date g p_dur) /\
               slot_time row = st /\ zone_name row = z_name z).
  { intros ao Hin Hcap Hs Hn.
    destruct (every_option_has_a_row at_madrid d p_date g p_dur ao Hin Hcap)
      as (row & Hr & Hrs & Hrn).
    exists row. split; [exact Hr|]. split; congruence. }
  destruct Hfit as [(t & Ht & Hf)|(tc & Ht & Hf)].
  - apply table_fits_true in Hf. destruct Hf as (Ha & Hzid & Hcap & Hav).
    apply (Hrow (mk_option st (t_capacity t) (z_name z) (z_priority_order z) (Some (z_id z))));
      try reflexivity; [|exact Hcap].
    apply all_options_In. left. exists sr, t, (Some z).
    split; [exact Hsr|]. split; [exact Ht|].
    split; [rewrite Hzid; apply left_join_zones_complete, Hz|].
    split; [exact Ha|]. split; [apply Hocc, Hav | reflexivity].
  - apply combination_fits_true in Hf. destruct Hf as (Ha & Hzid & Hcap & Hav).
    apply (Hrow (mk_option st (tc_total_capacity tc) (z_name z) (z_priority_order z)
                           (Some (z_id z))));
      try reflexivity; [|exact Hcap].
    apply all_options_In. right. exists sr, tc, (Some z).
    split; [exact Hsr|]. split; [exact Ht|].
    split; [rewrite Hzid; apply left_join_zones_complete, Hz|].
    split; [exact Ha|]. split; [|reflexivity].
    eapply Forall_impl; [|exact Hav]. intros id Hid. apply Hocc, Hid.
Qed.

Lemma slot_with_a_fit_is_listed_witness :
  exists row,
    In row (get_available_time_slots_with_zones Scenario.madrid Scenario.small_tables
              Scenario.thursday 6 90) /\
    slot_time row = Scenario.eight_pm /\ zone_name row = z_name Scenario.interior.
Proof.
  apply (slot_with_a_fit_is_listed Scenario.madrid Scenario.small_tables Scenario.thursday
           6 90 Scenario.eight_pm Scenario.interior).
  - vm_compute. left. reflexivity.
  - left. reflexivity.
  - right. exists (mk_comb 51 [12; 13] 6 (Some 1) true). split; [left; reflexivity|].
    vm_compute. reflexivity.
Defined.

Lemma flat_map_filter_irrelevant {A B : Type} (keep : A -> bool) (f : A -> list B) (l : list A) :
  (forall x, keep x = false -> f x = []) ->
  flat_map f (filter keep l) = flat_map f l.
Proof.
  intros H. induction l as [|x r IH]; simpl; [reflexivity|].
  destruct (keep x) eqn:E; simpl; rewrite IH; [reflexivity|].
  rewrite (H x E). reflexivity.
Qed.

Lemma flat_map_ext_eq {A B : Type} (f g : A -> list B) (l : list A) :
  (forall x, f x = g x) -> flat_map f l = flat_map g l.
Proof.
  intros H. induction l as [|x r IH]; simpl; [reflexivity|]. rewrite H, IH. reflexivity.
Qed.

Lemma flat_map_nil_when {A B : Type} (f : A -> list B) (l : list A) :
  (forall x, f x = []) -> flat_map f l = [].
Proof.
  intros H. induction l as [|x r IH]; simpl; [reflexivity|]. rewrite H, IH. reflexivity.
Qed.

(** X13.  Only the confirmed and arrived reservations of the requested date
    count: removing every other reservation from the database changes neither
    the slot list nor the table-status report. *)
Theorem other_reservations_do_not_count :
  forall at_madrid (d : DB) (p_date : date) (p_time : time)
         (p_guests p_duration_minutes : Z) (p_exclude : option uuid),
    let d' := set_reservations
                (filter (fun r => (r_date r =? p_date) && active_status (r_status r))
                        (reservations d)) d in
    get_available_time_slots_with_zones at_madrid d' p_date p_guests p_duration_minutes
    = get_available_time_slots_with_zones at_madrid d p_date p_guests p_duration_minutes /\
    get_available_tables_for_reservation at_madrid d' p_date p_time p_duration_minutes p_exclude
    = get_available_tables_for_reservation at_madrid d p_date p_time p_duration_minutes p_exclude.
Proof.
  intros at_madrid d p_date p_time g p_dur p_exclude d'.
  assert (Hocc : forall srs, occupied_tables d' p_date srs = occupied_tables d p_date srs).
  { intros srs. unfold occupied_tables. f_equal. apply flat_map_ext_eq. intros sr.
    unfold d'. simpl. apply flat_map_filter_irrelevant. intros r Hr.
    apply flat_map_nil_when. intros rta.
    apply andb_false_iff in Hr.
    destruct (uuid_eqb (r_id r) (rta_reservation_id rta)); simpl; [|reflexivity].
    destruct Hr as [-> | ->]; simpl; [reflexivity|].
    destruct (r_date r =? p_date); reflexivity. }
  split.
  - unfold get_available_time_slots_with_zones, ordered_zone_slots.
    change (slot_ranges at_madrid d' p_date p_dur) with (slot_ranges at_madrid d p_date p_dur).
    rewrite Hocc. reflexivity.
  - assert (Hw : forall s e,
               occupied_for_window d' p_date s e p_exclude
               = occupied_for_window d p_date s e p_exclude).
    { intros s e. unfold occupied_for_window. f_equal. unfold d'. simpl.
      apply flat_map_filter_irrelevant. intros r Hr.
      apply flat_map_nil_when. intros rta.
      apply andb_false_iff in Hr.
      destruct (uuid_eqb (r_id r) (rta_reservation_id rta)); simpl; [|reflexivity].
      destruct Hr as [-> | ->]; simpl; [reflexivity|].
      destruct (r_date r =? p_date); reflexivity. }
    unfold get_available_tables_for_reservation. rewrite Hw. reflexivity.
Qed.

(** * The public functions *)

Lemma run_api_select {A B} (q : DB -> api_tables -> A) (k : A -> api B) flt m :
  (x <- api_select q ;; k x) flt m =
  if flt (m_count m) then (Raised "statement failed", tick m)
  else k (q (m_db m) (m_vars m)) flt (tick m).
Proof.
  unfold bind, api_select, api_statement, tick. destruct (flt (m_count m)); [reflexivity|].
  simpl. destruct m; reflexivity.
Qed.

Lemma run_api_execute {B} (w : DB -> api_tables -> DB * api_tables) (k : api B) flt m :
  (api_execute w ;; k) flt m =
  if flt (m_count m) then (Raised "statement failed", tick m)
  else k flt (mk_machine (fst (w (m_db m) (m_vars m))) (S (m_count m))
                         (snd (w (m_db m) (m_vars m)))).
Proof.
  unfold bind, api_execute, api_statement, tick. destruct (flt (m_count m)); reflexivity.
Qed.

(** ** public_cancel_reservation *)

Lemma limit_1_map {A B : Type} (f : A -> B) (l : list A) :
  limit_1 (map f l) = option_map f (limit_1 l).
Proof. destruct l; reflexivity. Qed.

Lemma time_order_total (a b : reservation * customer) :
  not_after (r_time (fst a) ?= r_time (fst b)) = false ->
  not_after (r_time (fst b) ?= r_time (fst a)) = true.
Proof. apply (key_leb_total (fun rc => r_time (fst rc)) Z.compare Z_order). Qed.

Lemma time_order_trans (a b c : reservation * customer) :
  not_after (r_time (fst a) ?= r_time (fst b)) = true ->
  not_after (r_time (fst b) ?= r_time (fst c)) = true ->
  not_after (r_time (fst a) ?= r_time (fst c)) = true.
Proof. apply (key_leb_trans (fun rc => r_time (fst rc)) Z.compare Z_order). Qed.

Lemma cancel_matches_true (p_phone : string) (p_date : date) (p_time : option time)
      (r : reservation) (c : customer) :
  cancel_matches p_phone p_date p_time r c = true <->
  r_customer_id r = c_id c /\ c_phone c = p_phone /\ r_date r = p_date /\
  (forall t, p_time = Some t -> r_time r = t) /\ is_active_reservation r.
Proof.
  unfold cancel_matches, is_active_reservation.
  rewrite !andb_true_iff, uuid_eqb_eq, String.eqb_eq, Z.eqb_eq, active_status_true.
  destruct p_time as [t|].
  - rewrite Z.eqb_eq. split.
    + intros ((((H1 & H2) & H3) & H4) & H5). repeat split; auto.
      intros t' Ht. injection Ht as <-. exact H4.
    + intros (H1 & H2 & H3 & H4 & H5). repeat split; auto.
  - split.
    + intros ((((H1 & H2) & H3) & _) & H5). repeat split; auto. intros t Ht. discriminate.
    + intros (H1 & H2 & H3 & _ & H5). repeat split; auto.
Qed.

Lemma cancel_candidates_In (p_phone : string) (p_date : date) (p_time : option time)
      (d : DB) (s : api_tables) (r : reservation) (c : customer) :
  In (r, c) (flat_map (fun r =>
               flat_map (fun c => if cancel_matches p_phone p_date p_time r c
                                  then [(r, c)] else [])
                        (customers s))
             (reservations d)) <->
  In r (reservations d) /\ In c (customers s) /\
  cancel_matches p_phone p_date p_time r c = true.
Proof.
  rewrite in_flat_map. split.
  - intros (r' & Hr & Hin). apply in_flat_map in Hin. destruct Hin as (c' & Hc & Hin).
    destruct (cancel_matches p_phone p_date p_time r' c') eqn:E; [|destruct Hin].
    destruct Hin as [Heq|[]]. injection Heq as -> ->. auto.
  - intros (Hr & Hc & Hm). exists r. split; [exact Hr|].
    apply in_flat_map. exists c. split; [exact Hc|]. rewrite Hm. left; reflexivity.
Qed.

(** The reservation the query picks: a match with the earliest time. *)
Lemma cancel_query_some (p_phone : string) (p_date : date) (p_time : option time)
      (d : DB) (s : api_tables) (r : reservation) :
  cancel_query p_phone p_date p_time d s = Some r ->
  In r (reservations d) /\
  (exists c, In c (customers s) /\ cancel_matches p_phone p_date p_time r c = true) /\
  (forall r' c', In r' (reservations d) -> In c' (customers s) ->
                 cancel_matches p_phone p_date p_time r' c' = true ->
                 r_time r <= r_time r').
Proof.
  unfold cancel_query. rewrite limit_1_map. intros H.
  match type of H with
  | option_map fst (limit_1 ?l) = _ => destruct (limit_1 l) as [[r0 c0]|] eqn:E
  end; [|discriminate].
  simpl in H. injection H as ->.
  apply limit_1_order_by_least in E; [|apply time_order_total|apply time_order_trans].
  destruct E as [Hin Hmin]. apply cancel_candidates_In in Hin.
  destruct Hin as (Hr & Hc & Hm).
  split; [exact Hr|]. split; [exists c0; auto|].
  intros r' c' Hr' Hc' Hm'.
  assert (Hin' : In (r', c') (flat_map (fun r =>
               flat_map (fun c => if cancel_matches p_phone p_date p_time r c
                                  then [(r, c)] else [])
                        (customers s)) (reservations d)))
    by (apply cancel_candidates_In; auto).
  specialize (Hmin _ Hin'). simpl in Hmin. unfold not_after in Hmin.
  destruct (r_time r ?= r_time r') eqn:Ec; try discriminate.
  - rewrite Z.compare_eq_iff in Ec. lia.
  - rewrite Z.compare_lt_iff in Ec. lia.
Qed.

Lemma cancel_query_none (p_phone : string) (p_date : date) (p_time : option time)
      (d : DB) (s : api_tables) :
  cancel_query p_phone p_date p_time d s = None <->
  (forall r c, In r (reservations d) -> In c (customers s) ->
               cancel_matches p_phone p_date p_time r c = false).
Proof.
  unfold cancel_query. rewrite limit_1_map. split.
  - intros H r c Hr Hc. destruct (cancel_matches p_phone p_date p_time r c) eqn:E;
      [|reflexivity].
    match type of H with
    | option_map fst (limit_1 ?l) = _ => destruct (limit_1 l) as [x|] eqn:El
    end; [discriminate|].
    apply limit_1_order_by_none in El.
    assert (Hin : In (r, c) (flat_map (fun r =>
               flat_map (fun c => if cancel_matches p_phone p_date p_time r c
                                  then [(r, c)] else [])
                        (customers s)) (reservations d)))
      by (apply cancel_candidates_In; auto).
    rewrite El in Hin. destruct Hin.
  - intros H.
    match goal with
    | |- option_map fst (limit_1 (order_by ?leb ?l)) = _ =>
        destruct l as [|[r c] rest] eqn:El; [reflexivity|]
    end.
    assert (Hin : In (r, c) (flat_map (fun r =>
               flat_map (fun c => if cancel_matches p_phone p_date p_time r c
                                  then [(r, c)] else [])
                        (customers s)) (reservations d)))
      by (rewrite El; left; reflexivity).
    apply cancel_candidates_In in Hin. destruct Hin as (Hr & Hc & Hm).
    rewrite (H r c Hr Hc) in Hm. discriminate.
Qed.

(** Every way the function can end: it never raises. *)
Lemma cancel_cases now p_phone p_date p_time p_reason flt (m : machine api_tables) :
  exists j m',
    public_cancel_reservation now p_phone p_date p_time p_reason flt m = (Returned j, m') /\
    ((j_success j = Some false /\ j_reservation_id j = None /\
      m_db m' = m_db m /\ m_vars m' = m_vars m /\
      (flt (m_count m) = false ->
       cancel_query p_phone p_date p_time (m_db m) (m_vars m) = None /\ j = not_found \/
       exists r, cancel_query p_phone p_date p_time (m_db m) (m_vars m) = Some r /\
                 flt (S (m_count m)) = true)) \/
     (exists r,
         cancel_query p_phone p_date p_time (m_db m) (m_vars m) = Some r /\
         j = cancelled (r_id r) /\
         m_db m' = cancel_rows (r_id r) (m_db m) /\
         m_vars m' = stamp_reservation now (r_id r) (m_db m) (m_vars m))).
Proof.
  unfold public_cancel_reservation, api_block. rewrite run_api_select.
  destruct (flt (m_count m)) eqn:E0.
  - eexists _, _. split; [reflexivity|]. left. simpl. repeat split; auto. discriminate.
  - destruct (cancel_query p_phone p_date p_time (m_db m) (m_vars m)) as [r|] eqn:Eq.
    + rewrite run_api_execute. simpl. destruct (flt (S (m_count m))) eqn:E1.
      * eexists _, _. split; [reflexivity|]. left. simpl. repeat split; auto.
        intros _. right. exists r. auto.
      * eexists _, _. split; [reflexivity|]. right. exists r. simpl. auto.
    + eexists _, _. split; [reflexivity|]. left. simpl. repeat split; auto.
Qed.

Lemma cancelled_is_not_active (r : reservation) :
  ~ is_active_reservation (set_status "cancelled" r).
Proof. intros [H|H]; simpl in H; discriminate. Qed.

(** The rows of the reservations after a cancellation. *)
Lemma cancel_rows_In (id : uuid) (d : DB) (r' : reservation) :
  In r' (reservations (cancel_rows id d)) <->
  exists r, In r (reservations d) /\
            ((r_id r = id /\ r' = set_status "cancelled" r) \/ (r_id r <> id /\ r' = r)).
Proof.
  unfold cancel_rows. simpl. rewrite in_map_iff. split.
  - intros (r & He & Hr). exists r. split; [exact Hr|].
    destruct (uuid_eqb (r_id r) id) eqn:E.
    + apply uuid_eqb_eq in E. left. auto.
    + apply Z.eqb_neq in E. right. auto.
  - intros (r & Hr & [[Hid ->]|[Hid ->]]); exists r; split; try exact Hr.
    + apply uuid_eqb_eq in Hid. rewrite Hid. reflexivity.
    + apply Z.eqb_neq in Hid. unfold uuid_eqb. rewrite Hid. reflexivity.
Qed.

(** After a cancellation a table is occupied exactly when a reservation
    other than the cancelled one held it before. *)
Lemma occupied_after_cancel (id : uuid) (d : DB) (p_date : date) (s e : timestamptz)
      (tid : uuid) :
  In tid (occupied_for_window (cancel_rows id d) p_date s e None) <->
  In tid (occupied_for_window d p_date s e (Some id)).
Proof.
  rewrite !occupied_for_window_In. split.
  - intros (r' & rta & Hr' & Hrta & Hh). apply cancel_rows_In in Hr'.
    destruct Hr' as (r & Hr & [[Hid ->]|[Hid ->]]).
    + exfalso. destruct Hh as (_ & _ & _ & Hact & _).
      apply (cancelled_is_not_active r). exact Hact.
    + exists r, rta. split; [exact Hr|]. split; [exact Hrta|].
      unfold holds_table in *. repeat split; try tauto.
      intros x Hx. injection Hx as <-. exact Hid.
  - intros (r & rta & Hr & Hrta & Hh). exists r, rta.
    assert (Hid : r_id r <> id).
    { destruct Hh as (_ & _ & _ & _ & _ & _ & Hx). apply Hx. reflexivity. }
    split; [apply cancel_rows_In; exists r; auto|]. split; [exact Hrta|].
    unfold holds_table in *. repeat split; try tauto. intros x Hx. discriminate.
Qed.

Lemma status_row_same_occupancy (occ occ' : list uuid) (tz : table * option zone) :
  (forall tid, In tid occ <-> In tid occ') -> status_row occ tz = status_row occ' tz.
Proof.
  intros H. destruct tz as [t z]. unfold status_row. f_equal. f_equal.
  destruct (existsb (fun ot => uuid_eqb ot (t_id t)) occ) eqn:E1,
           (existsb (fun ot => uuid_eqb ot (t_id t)) occ') eqn:E2; try reflexivity.
  - apply existsb_exists in E1. destruct E1 as (x & Hx & He). apply uuid_eqb_eq in He. subst x.
    apply H in Hx.
    assert (Ht : existsb (fun ot => uuid_eqb ot (t_id t)) occ' = true).
    { apply existsb_exists. exists (t_id t). split; [exact Hx | apply uuid_eqb_eq; reflexivity]. }
    congruence.
  - apply existsb_exists in E2. destruct E2 as (x & Hx & He). apply uuid_eqb_eq in He. subst x.
    apply H in Hx.
    assert (Ht : existsb (fun ot => uuid_eqb ot (t_id t)) occ = true).
    { apply existsb_exists. exists (t_id t). split; [exact Hx | apply uuid_eqb_eq; reflexivity]. }
    congruence.
Qed.

Lemma map_ext_in_eq {A B : Type} (f g : A -> B) (l : list A) :
  (forall x, In x l -> f x = g x) -> map f l = map g l.
Proof.
  intros H. induction l as [|x r IH]; simpl; [reflexivity|].
  rewrite H by (left; reflexivity). rewrite IH; [reflexivity|].
  intros y Hy. apply H. right. exact Hy.
Qed.

Lemma report_after_cancel at_madrid (id : uuid) (d : DB) (p_date : date) (p_time : time)
      (p_dur : Z) :
  get_available_tables_for_reservation at_madrid (cancel_rows id d) p_date p_time p_dur None
  = get_available_tables_for_reservation at_madrid d p_date p_time p_dur (Some id).
Proof.
  unfold get_available_tables_for_reservation.
  change (joined_tables (cancel_rows id d)) with (joined_tables d).
  apply map_ext_in_eq. intros tz _. apply status_row_same_occupancy.
  intros tid. apply occupied_after_cancel.
Qed.


(** X15.  A successful cancellation concerns one reservation: a confirmed or
    arrived reservation of the given date (and time, when one is given), of a
    customer with the given phone, the earliest by time among those.  The
    rows with its id get status cancelled, no other row of any relation
    changes, and the customers are left alone. *)
Theorem successful_cancellation_cancels_the_earliest_match :
  forall now p_phone p_date p_time p_reason flt (m : machine api_tables) j m',
    public_cancel_reservation now p_phone p_date p_time p_reason flt m = (Returned j, m') ->
    j_success j = Some true ->
    exists r c,
      j = cancelled (r_id r) /\
      In r (reservations (m_db m)) /\ In c (customers (m_vars m)) /\
      r_customer_id r = c_id c /\ c_phone c = p_phone /\ r_date r = p_date /\
      (forall t, p_time = Some t -> r_time r = t) /\ is_active_reservation r /\
      (forall r' c', In r' (reservations (m_db m)) -> In c' (customers (m_vars m)) ->
                     cancel_matches p_phone p_date p_time r' c' = true ->
                     r_time r <= r_time r') /\
      m_db m' = cancel_rows (r_id r) (m_db m) /\
      customers (m_vars m') = customers (m_vars m).
Proof.
  intros now p_phone p_date p_time p_reason flt m j m' Hrun Hok.
  destruct (cancel_cases now p_phone p_date p_time p_reason flt m) as (j0 & m0 & Hrun0 & Hc).
  rewrite Hrun in Hrun0. injection Hrun0 as <- <-.
  destruct Hc as [(Hf & _)|(r & Hq & -> & Hdb & Hv)]; [congruence|].
  apply cancel_query_some in Hq. destruct Hq as (Hr & (c & Hc & Hm) & Hmin).
  apply cancel_matches_true in Hm. destruct Hm as (H1 & H2 & H3 & H4 & H5).
  exists r, c. repeat split; auto.
  rewrite Hv. unfold stamp_reservation.
  destruct (existsb (fun r0 => uuid_eqb (r_id r0) (r_id r)) (reservations (m_db m)));
    reflexivity.
Qed.

Lemma successful_cancellation_cancels_the_earliest_match_witness :
  exists j m' r c,
    public_cancel_reservation Guests.early "600111222" Scenario.thursday None
      "Cancelada por el cliente" no_faults Guests.booked = (Returned j, m') /\
    j = cancelled (r_id r) /\ r_id r = 900 /\
    In r (reservations (m_db Guests.booked)) /\ In c (customers (m_vars Guests.booked)) /\
    c_phone c = "600111222"%string /\
    m_db m' = cancel_rows (r_id r) (m_db Guests.booked).
Proof.
  destruct (successful_cancellation_cancels_the_earliest_match Guests.early "600111222"
              Scenario.thursday None "Cancelada por el cliente" no_faults Guests.booked
              (cancelled 900)
              (snd (public_cancel_reservation Guests.early "600111222" Scenario.thursday None
                      "Cancelada por el cliente" no_faults Guests.booked)))
    as (r & c & Hj & Hr & Hc & _ & Hp & _ & _ & _ & _ & Hdb & _).
  - vm_compute. reflexivity.
  - reflexivity.
  - exists (cancelled 900),
      (snd (public_cancel_reservation Guests.early "600111222" Scenario.thursday None
              "Cancelada por el cliente" no_faults Guests.booked)), r, c.
    split; [vm_compute; reflexivity|].
    split; [exact Hj|]. split; [injection Hj; auto|]. auto.
Defined.

(** X16.  When no customer with the given phone has a confirmed or arrived
    reservation on the given date (at the given time, when one is given) the
    answer is a failure, the not-found message unless the query itself
    failed, and nothing is written. *)
Theorem cancellation_of_nothing_is_refused :
  forall now p_phone p_date p_time p_reason flt (m : machine api_tables) j m',
    (forall r c, In r (reservations (m_db m)) -> In c (customers (m_vars m)) ->
                 r_customer_id r = c_id c -> c_phone c = p_phone -> r_date r = p_date ->
                 (forall t, p_time = Some t -> r_time r = t) ->
                 ~ is_active_reservation r) ->
    public_cancel_reservation now p_phone p_date p_time p_reason flt m = (Returned j, m') ->
    j_success j = Some false /\ m_db m' = m_db m /\ m_vars m' = m_vars m /\
    (flt (m_count m) = false -> j = not_found).
Proof.
  intros now p_phone p_date p_time p_reason flt m j m' Hnone Hrun.
  assert (Hq : cancel_query p_phone p_date p_time (m_db m) (m_vars m) = None).
  { apply cancel_query_none. intros r c Hr Hc.
    destruct (cancel_matches p_phone p_date p_time r c) eqn:E; [|reflexivity].
    apply cancel_matches_true in E. destruct E as (H1 & H2 & H3 & H4 & H5).
    exfalso. exact (Hnone r c Hr Hc H1 H2 H3 H4 H5). }
  destruct (cancel_cases now p_phone p_date p_time p_reason flt m) as (j0 & m0 & Hrun0 & Hc).
  rewrite Hrun in Hrun0. injection Hrun0 as <- <-.
  destruct Hc as [(Hf & _ & Hdb & Hv & Hwhy)|(r & Hq' & _)]; [|congruence].
  repeat split; auto. intros Hflt.
  destruct (Hwhy Hflt) as [[_ Hj]|(r & Hq' & _)]; [exact Hj | congruence].
Qed.

Lemma cancellation_of_nothing_is_refused_witness :
  exists m',
    public_cancel_reservation Guests.early "699000000" Scenario.thursday None
      "Cancelada por el cliente" no_faults Guests.booked = (Returned not_found, m') /\
    m_db m' = m_db Guests.booked /\ m_vars m' = m_vars Guests.booked.
Proof.
  eexists. split; [vm_compute; reflexivity|].
  destruct (cancellation_of_nothing_is_refused Guests.early "699000000" Scenario.thursday
              None "Cancelada por el cliente" no_faults Guests.booked not_found
              (snd (public_cancel_reservation Guests.early "699000000" Scenario.thursday None
                      "Cancelada por el cliente" no_faults Guests.booked)))
    as (_ & Hdb & Hv & _).
  - intros r c _ Hc _ Hp. simpl in Hc. destruct Hc as [<-|[<-|[]]]; simpl in Hp; discriminate.
  - vm_compute. reflexivity.
  - split; assumption.
Defined.

(** X17.  Cancelling a reservation and excluding it are the same to the
    reporter: after a successful cancellation the table-status report, for
    any date, time and duration, is the report of the earlier database with
    the cancelled reservation excluded. *)
Theorem report_after_cancellation_is_report_with_exclusion :
  forall at_madrid now p_phone p_date p_time p_reason flt (m : machine api_tables) j m' id,
    public_cancel_reservation now p_phone p_date p_time p_reason flt m = (Returned j, m') ->
    j_success j = Some true -> j_reservation_id j = Some id ->
    forall q_date q_time q_duration_minutes,
      get_available_tables_for_reservation at_madrid (m_db m') q_date q_time
        q_duration_minutes None
      = get_available_tables_for_reservation at_madrid (m_db m) q_date q_time
          q_duration_minutes (Some id).
Proof.
  intros at_madrid now p_phone p_date p_time p_reason flt m j m' id Hrun Hok Hid
         q_date q_time q_dur.
  destruct (cancel_cases now p_phone p_date p_time p_reason flt m) as (j0 & m0 & Hrun0 & Hc).
  rewrite Hrun in Hrun0. injection Hrun0 as <- <-.
  destruct Hc as [(Hf & _)|(r & _ & -> & Hdb & _)]; [congruence|].
  simpl in Hid. injection Hid as <-. rewrite Hdb. apply report_after_cancel.
Qed.

Lemma report_after_cancellation_is_report_with_exclusion_witness :
  exists m',
    public_cancel_reservation Guests.early "600111222" Scenario.thursday None
      "Cancelada por el cliente" no_faults Guests.booked = (Returned (cancelled 900), m') /\
    get_available_tables_for_reservation Scenario.madrid (m_db m') Scenario.thursday
      Scenario.eight_pm 90 None
    = get_available_tables_for_reservation Scenario.madrid (m_db Guests.booked)
        Scenario.thursday Scenario.eight_pm 90 (Some 900).
Proof.
  eexists. split; [vm_compute; reflexivity|].
  apply (report_after_cancellation_is_report_with_exclusion Scenario.madrid Guests.early
           "600111222" Scenario.thursday None "Cancelada por el cliente" no_faults
           Guests.booked (cancelled 900)).
  - vm_compute. reflexivity.
  - reflexivity.
  - reflexivity.
Defined.

Lemma cancel_rows_keeps_single_booking (id : uuid) (d : DB) :
  no_double_booking d -> no_double_booking (cancel_rows id d).
Proof.
  intros Hinv r1 r2 a1 a2
         (Hr1 & Hr2 & Ha1 & Ha2 & Hi1 & Hi2 & Hneq & Ht & Hd & Hact1 & Hact2 & Ho1 & Ho2).
  apply cancel_rows_In in Hr1, Hr2.
  destruct Hr1 as (x1 & Hx1 & [[_ ->]|[_ ->]]);
    [exfalso; exact (cancelled_is_not_active x1 Hact1)|].
  destruct Hr2 as (x2 & Hx2 & [[_ ->]|[_ ->]]);
    [exfalso; exact (cancelled_is_not_active x2 Hact2)|].
  apply (Hinv x1 x2 a1 a2). unfold double_booked. auto 15.
Qed.

(** X18.  A cancellation keeps the floor free of double bookings, whatever its
    result. *)
Theorem cancellation_keeps_tables_single_booked :
  forall now p_phone p_date p_time p_reason flt (m : machine api_tables) j m',
    no_double_booking (m_db m) ->
    public_cancel_reservation now p_phone p_date p_time p_reason flt m = (Returned j, m') ->
    no_double_booking (m_db m').
Proof.
  intros now p_phone p_date p_time p_reason flt m j m' Hinv Hrun.
  destruct (cancel_cases now p_phone p_date p_time p_reason flt m) as (j0 & m0 & Hrun0 & Hc).
  rewrite Hrun in Hrun0. injection Hrun0 as <- <-.
  destruct Hc as [(_ & _ & -> & _)|(r & _ & _ & -> & _)]; [exact Hinv|].
  apply cancel_rows_keeps_single_booking, Hinv.
Qed.

Lemma cancellation_keeps_tables_single_booked_witness :
  exists m',
    public_cancel_reservation Guests.early "600111222" Scenario.thursday None
      "Cancelada por el cliente" no_faults Guests.booked = (Returned (cancelled 900), m') /\
    no_double_booking (m_db m').
Proof.
  eexists. split; [vm_compute; reflexivity|].
  apply (cancellation_keeps_tables_single_booked Guests.early "600111222" Scenario.thursday
           None "Cancelada por el cliente" no_faults Guests.booked (cancelled 900)).
  - exact interior_booked_is_single_booked.
  - vm_compute. reflexivity.
Defined.



(** ** public_find_reservation *)

Lemma find_matches_true (now : timestamptz) (p_phone : string)
      (r : reservation) (c : customer) :
  find_matches now p_phone r c = true <->
  r_customer_id r = c_id c /\ c_phone c = p_phone /\ is_active_reservation r /\
  r_end_at r > now.
Proof.
  unfold find_matches, is_active_reservation.
  rewrite !andb_true_iff, uuid_eqb_eq, String.eqb_eq, active_status_true, Z.gtb_gt. tauto.
Qed.

Lemma StronglySorted_map {A B : Type} (f : A -> B) (R : B -> B -> Prop) (l : list A) :
  StronglySorted (fun x y => R (f x) (f y)) l -> StronglySorted R (map f l).
Proof.
  intros H. induction H as [|x r Hs IH Hall]; simpl; constructor.
  - exact IH.
  - apply Forall_forall. intros b Hb. apply in_map_iff in Hb.
    destruct Hb as (y & <- & Hy). rewrite Forall_forall in Hall. apply Hall, Hy.
Qed.

Lemma reservations_data_In (now : timestamptz) (p_phone : string) (d : DB) (s : api_tables)
      (row : found_reservation) :
  In row (reservations_data now p_phone d s) <->
  exists r c, In r (reservations d) /\ In c (customers s) /\
              find_matches now p_phone r c = true /\ row = found_row (r, c).
Proof.
  unfold reservations_data. rewrite in_map_iff. split.
  - intros ([r c] & <- & Hin). apply order_by_In, in_flat_map in Hin.
    destruct Hin as (r' & Hr & Hin). apply in_flat_map in Hin.
    destruct Hin as (c' & Hc & Hin).
    destruct (find_matches now p_phone r' c') eqn:E; [|destruct Hin].
    destruct Hin as [Heq|[]]. injection Heq as -> ->. exists r, c. auto.
  - intros (r & c & Hr & Hc & Hm & ->). exists (r, c). split; [reflexivity|].
    apply order_by_In, in_flat_map. exists r. split; [exact Hr|].
    apply in_flat_map. exists c. split; [exact Hc|]. rewrite Hm. left; reflexivity.
Qed.

Lemma reservations_data_sorted (now : timestamptz) (p_phone : string) (d : DB)
      (s : api_tables) :
  StronglySorted found_before (reservations_data now p_phone d s).
Proof.
  unfold reservations_data. apply StronglySorted_map.
  eapply StronglySorted_weaken;
    [| apply (order_by_key_sorted date_time_key _ zone_slot_key_order)].
  intros a b H. unfold found_before, found_row. simpl.
  change (not_after (date_time_compare a b) = true) in H.
  unfold date_time_compare, then_by, not_after in H.
  destruct (r_date (fst a) ?= r_date (fst b)) eqn:Ed.
  - rewrite Z.compare_eq_iff in Ed. right. split; [exact Ed|].
    destruct (r_time (fst a) ?= r_time (fst b)) eqn:Et; try discriminate.
    + rewrite Z.compare_eq_iff in Et. lia.
    + rewrite Z.compare_lt_iff in Et. lia.
  - rewrite Z.compare_lt_iff in Ed. left. exact Ed.
  - discriminate.
Qed.

Lemma find_returns now p_phone flt (m : machine api_tables) j m' :
  public_find_reservation now p_phone flt m = (Returned j, m') ->
  j = mk_find_json true (json_agg (reservations_data now p_phone (m_db m) (m_vars m))) /\
  m_db m' = m_db m /\ m_vars m' = m_vars m.
Proof.
  unfold public_find_reservation. rewrite run_api_select.
  destruct (flt (m_count m)); [discriminate|].
  unfold ret. intros H. injection H as <- <-. auto.
Qed.

Lemma find_runs now p_phone flt (m : machine api_tables) :
  flt (m_count m) = false ->
  public_find_reservation now p_phone flt m =
  (Returned (mk_find_json true
               (json_agg (reservations_data now p_phone (m_db m) (m_vars m)))),
   tick m).
Proof.
  intros H. unfold public_find_reservation. rewrite run_api_select, H. reflexivity.
Qed.

Lemma json_agg_rows {A : Type} (l : list A) :
  match json_agg l with Some rows => rows | None => [] end = l.
Proof. destruct l; reflexivity. Qed.

(** X20.  When its query does not fail, the search answers with
    [success = true] and lists exactly the confirmed or arrived reservations
    that have not ended yet of the customers with the given phone, with the
    name of the customer, ordered by date, then by time; it writes nothing. *)
Theorem search_lists_the_open_reservations_of_the_phone :
  forall now p_phone flt (m : machine api_tables),
    flt (m_count m) = false ->
    exists j m',
      public_find_reservation now p_phone flt m = (Returned j, m') /\
      let rows := match fj_reservations j with Some rows => rows | None => [] end in
      fj_success j = true /\
      (forall row,
          In row rows <->
          exists r c, In r (reservations (m_db m)) /\ In c (customers (m_vars m)) /\
                      r_customer_id r = c_id c /\ c_phone c = p_phone /\
                      is_active_reservation r /\ r_end_at r > now /\
                      row = mk_found (r_id r) (r_date r) (r_time r) (r_guests r)
                                     (r_status r) (c_name c)) /\
      StronglySorted found_before rows /\
      m_db m' = m_db m /\ m_vars m' = m_vars m.
Proof.
  intros now p_phone flt m Hflt. eexists _, _. split; [apply find_runs, Hflt|].
  simpl. rewrite json_agg_rows.
  split; [reflexivity|]. split; [|split; [apply reservations_data_sorted | auto]].
  intros row. rewrite reservations_data_In. split.
  - intros (r & c & Hr & Hc & Hm & ->). apply find_matches_true in Hm.
    exists r, c. unfold found_row. simpl. tauto.
  - intros (r & c & Hr & Hc & H1 & H2 & H3 & H4 & ->).
    exists r, c. split; [exact Hr|]. split; [exact Hc|].
    split; [apply find_matches_true; auto | reflexivity].
Qed.

Lemma search_lists_the_open_reservations_of_the_phone_witness :
  fst (public_find_reservation Guests.early "600111222" no_faults Guests.booked)
  = Returned (mk_find_json true
                (Some [mk_found 900 Scenario.thursday Scenario.eight_pm 4 "confirmed" "Ana"]))
  /\
  exists j m',
    public_find_reservation Guests.early "600111222" no_faults Guests.booked
    = (Returned j, m') /\
    fj_success j = true /\ m_db m' = m_db Guests.booked.
Proof.
  split; [vm_compute; reflexivity|].
  destruct (search_lists_the_open_reservations_of_the_phone Guests.early "600111222"
              no_faults Guests.booked eq_refl)
    as (j & m' & Hrun & Hs & _ & _ & Hdb & _).
  exists j, m'. auto.
Defined.

(** X21.  When nothing matches, the field [reservations] of the answer is the
    JSON null: the array is never empty, and the fallback of the final
    [COALESCE] is never the answer. *)
Theorem empty_search_answers_null :
  forall now p_phone flt (m : machine api_tables),
    flt (m_count m) = false ->
    exists j m',
      public_find_reservation now p_phone flt m = (Returned j, m') /\
      fj_reservations j <> Some [] /\
      (fj_reservations j = None <->
       forall r c, In r (reservations (m_db m)) -> In c (customers (m_vars m)) ->
                   find_matches now p_phone r c = false).
Proof.
  intros now p_phone flt m Hflt. eexists _, _. split; [apply find_runs, Hflt|]. simpl.
  destruct (reservations_data now p_phone (m_db m) (m_vars m)) as [|row rest] eqn:E; simpl.
  - split; [discriminate|]. split; [|reflexivity].
    intros _ r c Hr Hc. destruct (find_matches now p_phone r c) eqn:Em; [|reflexivity].
    assert (Hin : In (found_row (r, c)) (reservations_data now p_phone (m_db m) (m_vars m)))
      by (apply reservations_data_In; exists r, c; auto).
    rewrite E in Hin. destruct Hin.
  - split; [discriminate|]. split; [discriminate|].
    intros Hnone. exfalso.
    assert (Hin : In row (reservations_data now p_phone (m_db m) (m_vars m)))
      by (rewrite E; left; reflexivity).
    apply reservations_data_In in Hin. destruct Hin as (r & c & Hr & Hc & Hm & _).
    rewrite (Hnone r c Hr Hc) in Hm. discriminate.
Qed.

Lemma empty_search_answers_null_witness :
  fst (public_find_reservation Guests.early "699000000" no_faults Guests.booked)
  = Returned (mk_find_json true None) /\
  exists j m',
    public_find_reservation Guests.early "699000000" no_faults Guests.booked
    = (Returned j, m') /\
    fj_reservations j <> Some [].
Proof.
  split; [vm_compute; reflexivity|].
  destruct (empty_search_answers_null Guests.early "699000000" no_faults Guests.booked
              eq_refl)
    as (j & m' & Hrun & Hne & _).
  exists j, m'. auto.
Defined.

(** ** public_create_reservation *)

Section PublicCreateCases.
Variable at_madrid : date -> time -> timestamptz.
Variable check_diners_limit : DB -> date -> time -> Z -> json.
Variables (now : timestamptz) (new_customer_id new_id : uuid) (p_date : date)
          (p_time : time) (p_guests : Z) (p_email : option string)
          (p_duration_minutes : Z) (p_special_requests : option string)
          (p_preferred_zone_id : option uuid).

Local Abbreviation public_create p_name p_phone :=
  (public_create_reservation at_madrid check_diners_limit now new_customer_id new_id
     p_name p_phone p_date p_time p_guests p_email p_duration_minutes p_special_requests
     p_preferred_zone_id).
Local Abbreviation create_for v_customer_id :=
  (create_reservation_with_assignment at_madrid check_diners_limit new_id v_customer_id
     p_date p_time p_guests p_special_requests p_duration_minutes p_preferred_zone_id).

Lemma is_blank_false (s : string) : trim s <> ""%string -> is_blank s = false.
Proof. intros H. unfold is_blank. apply String.eqb_neq. exact H. Qed.

Lemma is_blank_true (s : string) : trim s = ""%string -> is_blank s = true.
Proof. intros H. unfold is_blank. apply String.eqb_eq. exact H. Qed.

(** The function, statement by statement, once name and phone are there. *)
Lemma public_create_runs (name phone : string) flt (m : machine api_tables) :
  trim name <> ""%string -> trim phone <> ""%string ->
  public_create (Some name) (Some phone) flt m =
  if flt (m_count m)
  then (Returned (failure "Error al crear la reserva: statement failed"),
        mk_machine (m_db m) (S (m_count m)) (m_vars m))
  else if flt (S (m_count m))
  then (Returned (failure "Error al crear la reserva: statement failed"),
        mk_machine (m_db m) (S (S (m_count m))) (m_vars m))
  else
    match create_for (booking_customer new_customer_id phone (m_vars m)) flt
                     (mk_machine (m_db m) (S (S (m_count m))) None) with
    | (Returned j, m1) =>
        (Returned j,
         mk_machine (m_db m1) (m_count m1)
                    (customers_after now new_customer_id name phone p_email (m_vars m)))
    | (Raised e, m1) =>
        (Returned (failure ("Error al crear la reserva: " ++ e)),
         mk_machine (m_db m) (m_count m1) (m_vars m))
    end.
Proof.
  intros Hn Hp. unfold public_create_reservation, api_block.
  rewrite (is_blank_false name Hn), (is_blank_false phone Hp).
  rewrite run_api_select.
  destruct (flt (m_count m)) eqn:E0; [reflexivity|]. cbv beta.
  unfold booking_customer, customers_after.
  destruct (customer_of_phone (trim phone) (m_vars m)) as [id|] eqn:Ec.
  - unfold bind, api_execute, api_statement, tick, ret, call. simpl.
    destruct (flt (S (m_count m))) eqn:E1; [reflexivity|]. simpl.
    destruct (create_for id flt (mk_machine (m_db m) (S (S (m_count m))) None))
      as [[j|e] m1]; reflexivity.
  - unfold bind, api_execute, api_statement, tick, ret, call. simpl.
    destruct (flt (S (m_count m))) eqn:E1; [reflexivity|]. simpl.
    destruct (create_for new_customer_id flt (mk_machine (m_db m) (S (S (m_count m))) None))
      as [[j|e] m1]; reflexivity.
Qed.

Lemma customer_of_phone_some (ph : string) (s : api_tables) (id : uuid) :
  customer_of_phone ph s = Some id ->
  exists c, In c (customers s) /\ c_phone c = ph /\ c_id c = id.
Proof.
  unfold customer_of_phone. rewrite limit_1_map.
  destruct (filter (fun c => String.eqb (c_phone c) ph) (customers s)) as [|c l] eqn:E;
    [discriminate|].
  simpl. intros H. injection H as <-.
  assert (Hin : In c (filter (fun c => String.eqb (c_phone c) ph) (customers s)))
    by (rewrite E; left; reflexivity).
  apply filter_In in Hin. destruct Hin as [Hin Hph]. apply String.eqb_eq in Hph.
  exists c. auto.
Qed.

Lemma customer_of_phone_none (ph : string) (s : api_tables) :
  (forall c, In c (customers s) -> c_phone c <> ph) -> customer_of_phone ph s = None.
Proof.
  unfold customer_of_phone. intros H.
  induction (customers s) as [|c l IH]; [reflexivity|]. simpl.
  assert (Hc : String.eqb (c_phone c) ph = false)
    by (apply String.eqb_neq, H; left; reflexivity).
  rewrite Hc. apply IH. intros c' Hin. apply H. right; exact Hin.
Qed.

(** The customer the reservation is made for is among the customers after
    the search-or-create step, under the trimmed name and phone. *)
Lemma booking_customer_listed (name phone : string) (s : api_tables) :
  trim name <> ""%string ->
  exists c, In c (customers (customers_after now new_customer_id name phone p_email s)) /\
            c_id c = booking_customer new_customer_id phone s /\
            c_phone c = trim phone /\ c_name c = trim name.
Proof.
  intros Hn. unfold customers_after, booking_customer.
  destruct (customer_of_phone (trim phone) s) as [id|] eqn:Ec.
  - apply customer_of_phone_some in Ec. destruct Ec as (c & Hin & Hph & Hid).
    eexists. split.
    + unfold update_customer. simpl. apply in_map_iff. exists c. split; [reflexivity|exact Hin].
    + assert (He : uuid_eqb (c_id c) id = true) by (apply uuid_eqb_eq; exact Hid).
      rewrite He, (is_blank_false name Hn). simpl. auto.
  - eexists. split.
    + unfold insert_customer. simpl. apply in_or_app. right. left. reflexivity.
    + simpl. auto.
Qed.

Lemma creation_succeeded_row (v_customer_id : uuid) (d : DB) (j : json) (d' : DB) :
  creation_succeeded at_madrid check_diners_limit new_id v_customer_id p_date p_time p_guests
                     p_special_requests p_duration_minutes p_preferred_zone_id d j d' ->
  In (new_reservation at_madrid new_id v_customer_id p_date p_time p_guests
                      p_special_requests p_duration_minutes) (reservations d') /\
  j_success j = Some true /\ j_reservation_id j = Some new_id.
Proof.
  intros (ids & n & _ & -> & _ & _ & _ & -> & _). simpl.
  split; [|split; reflexivity]. apply in_or_app. right. left. reflexivity.
Qed.

(** Every way the public function can answer with a success. *)
Lemma public_create_success (p_name p_phone : option string) flt
      (m : machine api_tables) j m' :
  public_create p_name p_phone flt m = (Returned j, m') ->
  j_success j = Some true ->
  exists name phone,
    p_name = Some name /\ p_phone = Some phone /\
    trim name <> ""%string /\ trim phone <> ""%string /\
    m_vars m' = customers_after now new_customer_id name phone p_email (m_vars m) /\
    creation_succeeded at_madrid check_diners_limit new_id
      (booking_customer new_customer_id phone (m_vars m)) p_date p_time p_guests
      p_special_requests p_duration_minutes p_preferred_zone_id (m_db m) j (m_db m').
Proof.
  intros Hrun Hok.
  destruct p_name as [name|];
    [|unfold public_create_reservation, api_block, ret in Hrun;
      injection Hrun as <- <-; discriminate].
  destruct (is_blank name) eqn:Bn;
    [unfold public_create_reservation, api_block, ret in Hrun; rewrite Bn in Hrun;
     injection Hrun as <- <-; discriminate|].
  destruct p_phone as [phone|];
    [|unfold public_create_reservation, api_block, ret in Hrun; rewrite Bn in Hrun;
      injection Hrun as <- <-; discriminate].
  destruct (is_blank phone) eqn:Bp;
    [unfold public_create_reservation, api_block, ret in Hrun; rewrite Bn, Bp in Hrun;
     injection Hrun as <- <-; discriminate|].
  assert (Hn : trim name <> ""%string) by (apply String.eqb_neq; exact Bn).
  assert (Hp : trim phone <> ""%string) by (apply String.eqb_neq; exact Bp).
  rewrite (public_create_runs name phone flt m Hn Hp) in Hrun.
  destruct (flt (m_count m)); [injection Hrun as <- <-; discriminate|].
  destruct (flt (S (m_count m))); [injection Hrun as <- <-; discriminate|].
  destruct (create_for (booking_customer new_customer_id phone (m_vars m)) flt
                       (mk_machine (m_db m) (S (S (m_count m))) None))
    as [[j1|e] m1] eqn:Hc; injection Hrun as <- <-; [|discriminate].
  apply create_success_comes_from_body in Hc; [|exact Hok]. simpl in Hc.
  exists name, phone. simpl. auto 10.
Qed.


(** X23.  A name or a phone that is NULL, empty or made of spaces is
    refused before any statement runs: nothing is read, counted or written,
    and the message names the first missing field. *)
Theorem missing_name_or_phone_is_refused_before_any_statement :
  forall (p_name p_phone : option string) flt (m : machine api_tables),
    missing p_name \/ missing p_phone ->
    exists msg,
      public_create p_name p_phone flt m = (Returned (failure msg), m) /\
      (missing p_name -> msg = "El nombre del cliente es obligatorio"%string) /\
      (~ missing p_name -> msg = "El teléfono del cliente es obligatorio"%string).
Proof.
  intros p_name p_phone flt m Hmiss.
  unfold public_create_reservation, api_block.
  destruct p_name as [name|]; simpl in *.
  - destruct (String.eqb (trim name) "") eqn:Bn.
    + unfold is_blank. rewrite Bn. apply String.eqb_eq in Bn.
      eexists. split; [reflexivity|]. split; [reflexivity|]. intros H. contradiction.
    + unfold is_blank at 1. rewrite Bn. apply String.eqb_neq in Bn.
      destruct Hmiss as [H|H]; [contradiction|].
      destruct p_phone as [phone|]; simpl in H.
      * rewrite (is_blank_true phone H).
        eexists. split; [reflexivity|]. split; [intros H'; contradiction | reflexivity].
      * eexists. split; [reflexivity|]. split; [intros H'; contradiction | reflexivity].
  - eexists. split; [reflexivity|]. split; [reflexivity|]. intros H. exfalso. apply H. exact I.
Qed.

(** X24.  With a name and a phone no customer has, and no failing
    statement, the customer is inserted with the trimmed name and phone and
    with the email, or NULL for a missing or blank one; the row stays whatever
    the answer about the reservation is. *)
Theorem unknown_phone_registers_the_customer_whatever_the_answer :
  forall (name phone : string) (m : machine api_tables),
    trim name <> ""%string -> trim phone <> ""%string ->
    (forall c, In c (customers (m_vars m)) -> c_phone c <> trim phone) ->
    exists j m',
      public_create (Some name) (Some phone) no_faults m = (Returned j, m') /\
      customers (m_vars m') =
        customers (m_vars m) ++
        [mk_customer new_customer_id (trim name) (trim phone) (nullif_blank p_email) None].
Proof.
  intros name phone m Hn Hp Hnew.
  rewrite (public_create_runs name phone no_faults m Hn Hp). simpl.
  unfold booking_customer, customers_after.
  rewrite (customer_of_phone_none _ _ Hnew).
  destruct (create_reservation_returns at_madrid check_diners_limit new_id new_customer_id
              p_date p_time p_guests p_special_requests p_duration_minutes
              p_preferred_zone_id (mk_machine (m_db m) (S (S (m_count m))) None))
    as (j & m1 & Hc).
  rewrite Hc. eexists _, _. split; reflexivity.
Qed.


(** X26.  A successful public creation had a name and a phone, and its
    reservation is stored for a customer who, afterwards, carries the trimmed
    phone and the trimmed name. *)
Theorem successful_public_creation_books_for_the_customer_of_the_phone :
  forall (p_name p_phone : option string) flt (m : machine api_tables) j m',
    public_create p_name p_phone flt m = (Returned j, m') ->
    j_success j = Some true ->
    exists name phone c,
      p_name = Some name /\ p_phone = Some phone /\
      In c (customers (m_vars m')) /\
      c_phone c = trim phone /\ c_name c = trim name /\
      In (new_reservation at_madrid new_id (c_id c) p_date p_time p_guests
                          p_special_requests p_duration_minutes)
         (reservations (m_db m')) /\
      j_reservation_id j = Some new_id.
Proof.
  intros p_name p_phone flt m j m' Hrun Hok.
  destruct (public_create_success p_name p_phone flt m j m' Hrun Hok)
    as (name & phone & -> & -> & Hn & Hp & Hv & Hs).
  destruct (booking_customer_listed name phone (m_vars m) Hn) as (c & Hin & Hid & Hph & Hnm).
  apply creation_succeeded_row in Hs. destruct Hs as (Hrow & _ & Hj).
  exists name, phone, c. rewrite Hv, Hid. auto 10.
Qed.

(** X27.  After a successful public creation, a search by the trimmed phone
    made before the reservation ends lists the new reservation, confirmed,
    under the trimmed name. *)
Theorem created_reservation_is_found_by_its_phone :
  forall (name phone : string) flt (m : machine api_tables) j m' (now' : timestamptz),
    public_create (Some name) (Some phone) flt m = (Returned j, m') ->
    j_success j = Some true ->
    now' < at_madrid p_date p_time + p_duration_minutes * 60 ->
    exists jf m'' rows,
      public_find_reservation now' (trim phone) no_faults m' = (Returned jf, m'') /\
      fj_reservations jf = Some rows /\
      In (mk_found new_id p_date p_time p_guests "confirmed" (trim name)) rows.
Proof.
  intros name phone flt m j m' now' Hrun Hok Hnow.
  destruct (public_create_success _ _ flt m j m' Hrun Hok)
    as (name' & phone' & Hn' & Hp' & Hn & Hp & Hv & Hs).
  injection Hn' as <-. injection Hp' as <-.
  destruct (booking_customer_listed name phone (m_vars m) Hn) as (c & Hin & Hid & Hph & Hnm).
  apply creation_succeeded_row in Hs. destruct Hs as (Hrow & _ & _).
  rewrite (find_runs now' (trim phone) no_faults m' eq_refl).
  assert (Hlisted : In (mk_found new_id p_date p_time p_guests "confirmed" (trim name))
                       (reservations_data now' (trim phone) (m_db m') (m_vars m'))).
  { apply reservations_data_In. eexists _, c. split; [exact Hrow|].
    split; [rewrite Hv; exact Hin|]. split.
    - apply find_matches_true. simpl. rewrite Hid.
      split; [reflexivity|]. split; [exact Hph|]. split; [left; reflexivity | lia].
    - unfold found_row. simpl. rewrite Hnm. reflexivity. }
  destruct (reservations_data now' (trim phone) (m_db m') (m_vars m')) as [|row rest] eqn:E;
    [destruct Hlisted|].
  eexists _, _, _. split; [reflexivity|]. split; [reflexivity|]. exact Hlisted.
Qed.

(** X28.  When the customer lookup or the customer insert or update
    fails, the answer is an error and customers, reservations and assignments
    are as they were. *)
Theorem failed_customer_step_changes_nothing :
  forall (name phone : string) flt (m : machine api_tables),
    trim name <> ""%string -> trim phone <> ""%string ->
    flt (m_count m) = true \/ flt (S (m_count m)) = true ->
    exists m',
      public_create (Some name) (Some phone) flt m
      = (Returned (failure "Error al crear la reserva: statement failed"), m') /\
      m_db m' = m_db m /\ m_vars m' = m_vars m.
Proof.
  intros name phone flt m Hn Hp Hflt.
  rewrite (public_create_runs name phone flt m Hn Hp).
  destruct (flt (m_count m)); [eexists; split; [reflexivity|split; reflexivity]|].
  destruct Hflt as [H|H]; [discriminate|]. rewrite H.
  eexists; split; [reflexivity|split; reflexivity].
Qed.
End PublicCreateCases.


Lemma missing_name_or_phone_is_refused_before_any_statement_witness :
  missing (Some "   "%string) /\
  exists msg,
    Guests.books (Some "   "%string) (Some "600555666"%string) None no_faults Guests.quiet
    = (Returned (failure msg), Guests.quiet) /\
    msg = "El nombre del cliente es obligatorio"%string.
Proof.
  split; [reflexivity|].
  destruct (missing_name_or_phone_is_refused_before_any_statement Scenario.madrid
              Scenario.diners_ok 5 9 100 Scenario.thursday Scenario.eight_pm 4 None 90 None
              None (Some "   "%string) (Some "600555666"%string) no_faults Guests.quiet
              (or_introl eq_refl))
    as (msg & Hrun & Hname & _).
  exists msg. split; [exact Hrun | apply Hname; reflexivity].
Defined.

Lemma unknown_phone_registers_the_customer_whatever_the_answer_witness :
  exists j m',
    Guests.books (Some " Eva "%string) (Some " 600555666"%string) (Some "  "%string)
                 no_faults Guests.closed
    = (Returned j, m') /\
    customers (m_vars m') =
      [Guests.ana; Guests.luis] ++ [mk_customer 9 "Eva" "600555666" None None].
Proof.
  apply (unknown_phone_registers_the_customer_whatever_the_answer Scenario.madrid
           Scenario.diners_ok 5 9 100 Scenario.thursday Scenario.eight_pm 4
           (Some "  "%string) 90 None None " Eva " " 600555666" Guests.closed).
  - vm_compute. discriminate.
  - vm_compute. discriminate.
  - simpl. intros c [<-|[<-|[]]]; vm_compute; discriminate.
Defined.


Lemma successful_public_creation_books_for_the_customer_of_the_phone_witness :
  let run := Guests.books (Some " Eva "%string) (Some " 600555666"%string) None no_faults
                          Guests.quiet in
  fst run = Returned (created 100 [21]) /\
  exists name phone c,
    Some " Eva "%string = Some name /\ Some " 600555666"%string = Some phone /\
    In c (customers (m_vars (snd run))) /\
    c_phone c = trim phone /\ c_name c = trim name /\
    In (new_reservation Scenario.madrid 100 (c_id c) Scenario.thursday Scenario.eight_pm 4
                        None 90)
       (reservations (m_db (snd run))) /\
    j_reservation_id (created 100 [21]) = Some 100.
Proof.
  intros run. split; [vm_compute; reflexivity|].
  apply (successful_public_creation_books_for_the_customer_of_the_phone Scenario.madrid
           Scenario.diners_ok 5 9 100 Scenario.thursday Scenario.eight_pm 4 None 90 None None
           (Some " Eva "%string) (Some " 600555666"%string) no_faults Guests.quiet
           (created 100 [21]) (snd run)).
  - vm_compute. reflexivity.
  - reflexivity.
Defined.

Lemma created_reservation_is_found_by_its_phone_witness :
  let run := Guests.books (Some " Eva "%string) (Some " 600555666"%string) None no_faults
                          Guests.quiet in
  exists jf m'' rows,
    public_find_reservation 70000 (trim " 600555666") no_faults (snd run)
    = (Returned jf, m'') /\
    fj_reservations jf = Some rows /\
    In (mk_found 100 Scenario.thursday Scenario.eight_pm 4 "confirmed" (trim " Eva ")) rows.
Proof.
  intros run.
  apply (created_reservation_is_found_by_its_phone Scenario.madrid Scenario.diners_ok 5 9
           100 Scenario.thursday Scenario.eight_pm 4 None 90 None None
           " Eva " " 600555666" no_faults Guests.quiet (created 100 [21]) (snd run) 70000).
  - vm_compute. reflexivity.
  - reflexivity.
  - vm_compute. reflexivity.
Defined.

Lemma failed_customer_step_changes_nothing_witness :
  exists m',
    Guests.books (Some " Eva "%string) (Some " 600555666"%string) None
                 (fun n => Nat.eqb n 1) Guests.quiet
    = (Returned (failure "Error al crear la reserva: statement failed"), m') /\
    m_db m' = m_db Guests.quiet /\ m_vars m' = Guests.regulars.
Proof.
  apply (failed_customer_step_changes_nothing Scenario.madrid Scenario.diners_ok 5 9 100
           Scenario.thursday Scenario.eight_pm 4 None 90 None None
           " Eva " " 600555666" (fun n => Nat.eqb n 1) Guests.quiet).
  - vm_compute. discriminate.
  - vm_compute. discriminate.
  - right. reflexivity.
Defined.

(** X29.  After a successful cancellation no search, by any phone and at
    any time, lists the cancelled reservation. *)
Theorem cancelled_reservation_is_no_longer_found :
  forall now p_phone p_date p_time p_reason flt (m : machine api_tables) j m' id
         now' p_phone' flt' jf m'' rows,
    public_cancel_reservation now p_phone p_date p_time p_reason flt m = (Returned j, m') ->
    j_reservation_id j = Some id ->
    public_find_reservation now' p_phone' flt' m' = (Returned jf, m'') ->
    fj_reservations jf = Some rows ->
    forall row, In row rows -> found_id row <> id.
Proof.
  intros now p_phone p_date p_time p_reason flt m j m' id now' p_phone' flt' jf m'' rows
         Hc Hid Hf Hrows row Hin.
  destruct (cancel_cases now p_phone p_date p_time p_reason flt m) as (j0 & m0 & Hrun & Hcases).
  rewrite Hc in Hrun. injection Hrun as <- <-.
  destruct Hcases as [(_ & Hnone & _)|(r & _ & -> & Hdb & _)]; [congruence|].
  simpl in Hid. injection Hid as <-.
  apply find_returns in Hf. destruct Hf as (-> & _ & _). simpl in Hrows.
  assert (Hin' : In row (reservations_data now' p_phone' (m_db m') (m_vars m'))).
  { destruct (reservations_data now' p_phone' (m_db m') (m_vars m')); [discriminate|].
    simpl in Hrows. injection Hrows as <-. exact Hin. }
  apply reservations_data_In in Hin'. destruct Hin' as (r' & c & Hr' & _ & Hm & ->).
  apply find_matches_true in Hm. destruct Hm as (_ & _ & Hact & _).
  rewrite Hdb in Hr'. apply cancel_rows_In in Hr'.
  destruct Hr' as (r0 & _ & [[_ ->]|[Hne ->]]).
  - exfalso. exact (cancelled_is_not_active r0 Hact).
  - simpl. exact Hne.
Qed.

Lemma cancelled_reservation_is_no_longer_found_witness :
  let cancel := public_cancel_reservation Guests.early "600111222" Scenario.thursday None
                  "Cancelada por el cliente" no_faults Guests.booked in
  let luis_row := mk_found 901 Scenario.thursday 66600 2 "arrived" "Luis" in
  fst cancel = Returned (cancelled 900) /\
  fst (public_find_reservation Guests.early "600333444" no_faults (snd cancel))
  = Returned (mk_find_json true (Some [luis_row])) /\
  forall row, In row [luis_row] -> found_id row <> 900.
Proof.
  intros cancel luis_row.
  split; [vm_compute; reflexivity|]. split; [vm_compute; reflexivity|].
  apply (cancelled_reservation_is_no_longer_found Guests.early "600111222" Scenario.thursday
           None "Cancelada por el cliente" no_faults Guests.booked (cancelled 900)
           (snd cancel) 900 Guests.early "600333444" no_faults
           (mk_find_json true (Some [luis_row]))
           (snd (public_find_reservation Guests.early "600333444" no_faults (snd cancel)))
           [luis_row]).
  - vm_compute. reflexivity.
  - reflexivity.
  - vm_compute. reflexivity.
  - reflexivity.
Defined.
